(** * HD44780 over sysfs GPIO: a model of server/drivers/hd44780-gpio.c

    The driver talks to the display through eight GPIO lines that it claims
    through the files under /sys/class/gpio/.  Everything the C code does to
    the outside world goes through stdio streams, [report], [printf] and the
    [uPause] hook, so the model threads a [world] that records those calls in
    the order they happen. *)

From Stdlib Require Import ZArith Lia.
From stdpp Require Import base option list gmap strings pretty.

Local Open Scope string_scope.
Local Open Scope list_scope.
Local Open Scope Z_scope.

(** ** The C library and the other externals, as far as the driver uses them *)

(** One entry per externally visible call.  All [fopen] calls of the driver
    use mode "w"; a stream is named in the trace by the file it is open on.
    [fprintf] is recorded when it is called: every stream here is either
    closed or rewound right after the write, which flushes it. *)
Inductive event : Type :=
  | Fopen (file : string) (ok : bool)
  | Fprintf (file : string) (data : string)
  | Fseek (file : string)
  | Fclose (file : string)
  | Printf (msg : string)
  | Report (msg : string)
  | UPause (usecs : Z)
  | CommonInit (if_mode : Z).

(** [FILE *]: [None] is the null pointer, [Some h] the stream created by the
    [h]-th call of [fopen]. *)
Definition FILE : Type := option nat.

Record world : Type := World {
  fopen_calls : nat;            (* how many times fopen has been called *)
  streams : gmap nat string;    (* the streams that are open, and on which file *)
  trace : list event
}.

(** A call either returns, in a new world, or has undefined behaviour (a null
    or closed stream handed to stdio, a null structure dereferenced). *)
Inductive outcome (A : Type) : Type :=
  | Done (a : A) (w : world)
  | Undefined.
Arguments Done {A} a w.
Arguments Undefined {A}.

Definition M (A : Type) : Type := world -> outcome A.

(** The monad of calls, with stdpp's notations [x ← c; k] and [c;; k]. *)
Global Instance M_ret : MRet M := fun A a w => Done a w.

Global Instance M_bind : MBind M := fun A B k c w =>
  match c w with
  | Done a w' => k a w'
  | Undefined => Undefined
  end.

Definition undefined {A} : M A := fun _ => Undefined.

(** [emit w evs]: the world [w] after the calls [evs], none of which opened or
    closed a stream. *)
Definition emit (w : world) (evs : list event) : world :=
  World (fopen_calls w) (streams w) (trace w ++ evs).

Definition log (e : event) : M unit := fun w => Done tt (emit w [e]).

Definition when (b : bool) (c : M unit) : M unit := if b then c else mret tt.

(** The line feed that C writes as backslash-n. *)
Definition LF : string := String (Ascii.ascii_of_nat 10) "".

(** ** hd44780-gpio.h *)

Record gpio_pin : Type := Gpio_pin {
  num : Z;
  fd : FILE
}.

Record gpio_map : Type := Gpio_map {
  en : gpio_pin;
  en2 : gpio_pin;
  rs : gpio_pin;
  d7 : gpio_pin;
  d6 : gpio_pin;
  d5 : gpio_pin;
  d4 : gpio_pin;
  backlight : gpio_pin
}.

(** Assignments to one member, [gpio->num = n] and the like. *)
Definition set_num (g : gpio_pin) (n : Z) : gpio_pin := Gpio_pin n (fd g).
Definition set_fd (g : gpio_pin) (fp : FILE) : gpio_pin := Gpio_pin (num g) fp.

Definition set_en (m : gpio_map) (x : gpio_pin) : gpio_map :=
  Gpio_map x (en2 m) (rs m) (d7 m) (d6 m) (d5 m) (d4 m) (backlight m).
Definition set_en2 (m : gpio_map) (x : gpio_pin) : gpio_map :=
  Gpio_map (en m) x (rs m) (d7 m) (d6 m) (d5 m) (d4 m) (backlight m).
Definition set_rs (m : gpio_map) (x : gpio_pin) : gpio_map :=
  Gpio_map (en m) (en2 m) x (d7 m) (d6 m) (d5 m) (d4 m) (backlight m).
Definition set_d7 (m : gpio_map) (x : gpio_pin) : gpio_map :=
  Gpio_map (en m) (en2 m) (rs m) x (d6 m) (d5 m) (d4 m) (backlight m).
Definition set_d6 (m : gpio_map) (x : gpio_pin) : gpio_map :=
  Gpio_map (en m) (en2 m) (rs m) (d7 m) x (d5 m) (d4 m) (backlight m).
Definition set_d5 (m : gpio_map) (x : gpio_pin) : gpio_map :=
  Gpio_map (en m) (en2 m) (rs m) (d7 m) (d6 m) x (d4 m) (backlight m).
Definition set_d4 (m : gpio_map) (x : gpio_pin) : gpio_map :=
  Gpio_map (en m) (en2 m) (rs m) (d7 m) (d6 m) (d5 m) x (backlight m).
Definition set_backlight (m : gpio_map) (x : gpio_pin) : gpio_map :=
  Gpio_map (en m) (en2 m) (rs m) (d7 m) (d6 m) (d5 m) (d4 m) x.

(** ** The parts of hd44780-low.h and lcd.h that the driver touches *)

(** Modelled from the spec: the table of callback hooks is declared in
    hd44780-low.h, which is not among the sources.  A slot points at one of
    the three entry points that this connection type hands to the generic
    driver (the spec's transmit-byte, set-backlight and close operations),
    or at whatever the generic driver had put there. *)
Inductive fnptr : Type :=
  | Fn_preset
  | Fn_lcdgpio_senddata
  | Fn_lcdgpio_close
  | Fn_lcdgpio_backlight.

(** Modelled from the spec: the slots of the table that hd44780-gpio.c
    assigns; the declaration is in hd44780-low.h, which is not among the
    sources. *)
Record HD44780_functions : Type := Build_functions {
  fn_senddata : fnptr;
  fn_close : fnptr;
  fn_backlight : fnptr
}.

(** Modelled from the spec: [PrivateData] is declared in hd44780-low.h,
    which is not among the sources.  The members are the ones that
    hd44780-gpio.c reads or writes: the pin map, the two facts of the spec's
    Display Configuration (whether a backlight is present, the number of
    controllers), the number of the backlight pin and the table of hooks;
    the integers are used as C [int]s, compared with zero, one, -1 and 32. *)
Record PrivateData : Type := Build_PrivateData {
  gpio_pinout : option gpio_map;     (* struct gpio_map *, None when null *)
  have_backlight : Z;
  numDisplays : Z;
  backlight_bit : Z;
  hd44780_functions : HD44780_functions
}.

Definition set_gpio_pinout (p : PrivateData) (m : option gpio_map) : PrivateData :=
  Build_PrivateData m (have_backlight p) (numDisplays p) (backlight_bit p)
                    (hd44780_functions p).
Definition set_backlight_bit (p : PrivateData) (b : Z) : PrivateData :=
  Build_PrivateData (gpio_pinout p) (have_backlight p) (numDisplays p) b
                    (hd44780_functions p).
Definition set_functions (p : PrivateData) (f : HD44780_functions) : PrivateData :=
  Build_PrivateData (gpio_pinout p) (have_backlight p) (numDisplays p)
                    (backlight_bit p) f.

(** Modelled from the spec: [Driver] is declared in lcd.h, which is not
    among the sources.  The members are the ones that hd44780-gpio.c uses:
    the name of the driver, the function that reads a named integer option
    (section, key, index, default) and the private data. *)
Record Driver : Type := Build_Driver {
  name : string;
  config_get_int : string -> string -> Z -> Z -> Z;
  private_data : PrivateData
}.

(** C truth of an integer. *)
Definition truthy (v : Z) : bool := negb (v =? 0).

(** Conversion of an [int] argument to the [uint] parameter of [SET_GPIO]. *)
Definition uint (v : Z) : Z := v mod 2 ^ 32.

(** Following a pointer; the null pointer has no target. *)
Definition deref {A} (ptr : option A) : M A :=
  match ptr with
  | Some a => mret a
  | None => undefined
  end.

Section Driver.

(** What the operating system answers to the [n]-th [fopen] of the run. *)
Variable fopen_ok : nat -> bool.

Definition fopen (filename : string) : M FILE := fun w =>
  let h := fopen_calls w in
  if fopen_ok h
  then Done (Some h)
         (World (S h) (<[h := filename]> (streams w)) (trace w ++ [Fopen filename true]))
  else Done None
         (World (S h) (streams w) (trace w ++ [Fopen filename false])).

Definition fprintf (fp : FILE) (data : string) : M unit := fun w =>
  match fp with
  | None => Undefined
  | Some h => match streams w !! h with
              | Some file => Done tt (emit w [Fprintf file data])
              | None => Undefined
              end
  end.

(** [fseek(fp, 0, SEEK_SET)], the only way the driver calls it. *)
Definition fseek (fp : FILE) : M unit := fun w =>
  match fp with
  | None => Undefined
  | Some h => match streams w !! h with
              | Some file => Done tt (emit w [Fseek file])
              | None => Undefined
              end
  end.

Definition fclose (fp : FILE) : M unit := fun w =>
  match fp with
  | None => Undefined
  | Some h => match streams w !! h with
              | Some file =>
                  Done tt (World (fopen_calls w) (delete h (streams w))
                                 (trace w ++ [Fclose file]))
              | None => Undefined
              end
  end.

Definition printf (msg : string) : M unit := log (Printf msg).

(** Modelled from the spec: [report] is the process-wide reporting of
    report.h, which is not among the sources; the call
    [report(RPT_ERR, ...)] is recorded with its message formatted. *)
Definition report (msg : string) : M unit := log (Report msg).

(** ** hd44780-gpio.c *)

Definition GPIO_DEF_D7 : Z := 18.
Definition GPIO_DEF_D6 : Z := 23.
Definition GPIO_DEF_D5 : Z := 24.
Definition GPIO_DEF_D4 : Z := 25.
Definition GPIO_DEF_RS : Z := 7.
Definition GPIO_DEF_EN : Z := 8.
Definition GPIO_DEF_EN2 : Z := 22.
Definition GPIO_DEF_BL : Z := 17.

Definition gpio_prefix : string := "/sys/class/gpio/".

(** The four file names that the driver builds with [sprintf]; [pretty] is
    the decimal rendering that the conversion %d gives. *)
Definition export_file : string := gpio_prefix +:+ "export".
Definition unexport_file : string := gpio_prefix +:+ "unexport".
Definition direction_file (n : Z) : string :=
  gpio_prefix +:+ "gpio" +:+ pretty n +:+ "/direction".
Definition value_file (n : Z) : string :=
  gpio_prefix +:+ "gpio" +:+ pretty n +:+ "/value".


(** The constants of hd44780-low.h and lcd.h that the driver compares with
    or passes on; the headers are not among the sources, so the values are
    parameters. *)
Variables RS_INSTR BACKLIGHT_ON IF_4BIT : Z.

(** What [malloc(sizeof(struct gpio_map))] gives: [None] for the null
    pointer, otherwise a block whose content is whatever was there. *)
Variable malloc_gpio_map : option gpio_map.

(** Modelled from the spec: [p->hd44780_functions->uPause(p, usecs)] is the
    delay primitive that the generic driver installs; it is not among the
    sources.  It blocks for at least [usecs] microseconds and does nothing
    else, so the call is recorded and the world is otherwise unchanged. *)
Definition uPause (p : PrivateData) (usecs : Z) : M unit := log (UPause usecs).

(** Modelled from the spec: [common_init(p, if_bit)] is the generic driver's
    own geometry and mode initialization, which is not among the sources;
    the call is recorded.  It reaches the display through the hooks only, so
    it opens and closes no stream. *)
Definition common_init (p : PrivateData) (if_bit : Z) : M unit :=
  log (CommonInit if_bit).

(** [setup_gpio_pin] (lines 72-110).  The pin is passed by address and the
    function stores the handle in it, so the model returns the pin next to
    the result.  Only the first null test returns; after the other two the
    function goes on with the null stream. *)
Definition setup_gpio_pin (drvthis : Driver) (gpio : gpio_pin) : M (Z * gpio_pin) :=
  let filename := gpio_prefix +:+ "export" in
  fp ← fopen filename;
  if fp is None then
    report ("Couldn't open " +:+ filename);;
    mret (-1, gpio)
  else
    fprintf fp (pretty (num gpio) +:+ LF);;
    fclose fp;;
    let filename := gpio_prefix +:+ "gpio" +:+ pretty (num gpio) +:+ "/direction" in
    fp ← fopen filename;
    when (if fp is None then true else false)
         (printf ("Couldn't open " +:+ filename));;
    fprintf fp "low";;
    fclose fp;;
    let filename := gpio_prefix +:+ "gpio" +:+ pretty (num gpio) +:+ "/value" in
    fp ← fopen filename;
    when (if fp is None then true else false)
         (printf ("Couldn't open " +:+ filename));;
    mret (0, set_fd gpio fp).

(** [close_gpio_pin] (lines 112-135).  No result of [fopen] is tested, and
    the handle stays in the pin after it is closed. *)
Definition close_gpio_pin (gpio : gpio_pin) : M unit :=
  let filename := gpio_prefix +:+ "gpio" +:+ pretty (num gpio) +:+ "/direction" in
  fp ← fopen filename;
  fprintf fp "in";;
  fclose fp;;
  when (if fd gpio is None then false else true)
       (fclose (fd gpio));;
  let filename := gpio_prefix +:+ "unexport" in
  fp ← fopen filename;
  fprintf fp (pretty (num gpio) +:+ LF);;
  fclose fp.

(** [lcdgpio_HD44780_close] (lines 143-163); the result is the private data
    with the map detached. *)
Definition lcdgpio_HD44780_close (p : PrivateData) : M PrivateData :=
  g ← deref (gpio_pinout p);
  close_gpio_pin (en g);;
  close_gpio_pin (rs g);;
  close_gpio_pin (d7 g);;
  close_gpio_pin (d6 g);;
  close_gpio_pin (d5 g);;
  close_gpio_pin (d4 g);;
  when (truthy (have_backlight p))
       (close_gpio_pin (backlight g));;
  when (numDisplays p >? 1)
       (close_gpio_pin (en2 g));;
  (* the map is non-null here, so it is freed; the pointer is then cleared *)
  mret (set_gpio_pinout p None).

(** [SET_GPIO] (lines 267-278). *)
Definition SET_GPIO (pin : gpio_pin) (value : Z) : M unit :=
  (if truthy (uint value)
   then fprintf (fd pin) "1"
   else fprintf (fd pin) "0");;
  fseek (fd pin).

(** [lcdgpio_HD44780_senddata] (lines 287-347).  The three [unsigned char]
    arguments are integers; the masks give an [int] that is zero or the
    mask. *)
Definition lcdgpio_HD44780_senddata (p : PrivateData) (displayID flags ch : Z) : M unit :=
  g ← deref (gpio_pinout p);
  (if flags =? RS_INSTR
   then SET_GPIO (rs g) 0
   else SET_GPIO (rs g) 1);;
  (* Clear data lines ready for nibbles *)
  SET_GPIO (d7 g) 0;;
  SET_GPIO (d6 g) 0;;
  SET_GPIO (d5 g) 0;;
  SET_GPIO (d4 g) 0;;
  uPause p 50;;
  (* Output upper nibble first *)
  SET_GPIO (d7 g) (Z.land ch 0x80);;
  SET_GPIO (d6 g) (Z.land ch 0x40);;
  SET_GPIO (d5 g) (Z.land ch 0x20);;
  SET_GPIO (d4 g) (Z.land ch 0x10);;
  uPause p 50;;
  (* Data is clocked on the falling edge of EN *)
  when ((displayID =? 1) || (displayID =? 0))
       (SET_GPIO (en g) 1);;
  when ((displayID =? 2) || ((numDisplays p >? 1) && (displayID =? 0)))
       (SET_GPIO (en2 g) 1);;
  uPause p 50;;
  when ((displayID =? 1) || (displayID =? 0))
       (SET_GPIO (en g) 0);;
  when ((displayID =? 2) || ((numDisplays p >? 1) && (displayID =? 0)))
       (SET_GPIO (en2 g) 0);;
  uPause p 50;;
  (* Do same for lower nibble *)
  SET_GPIO (d7 g) 0;;
  SET_GPIO (d6 g) 0;;
  SET_GPIO (d5 g) 0;;
  SET_GPIO (d4 g) 0;;
  uPause p 50;;
  SET_GPIO (d7 g) (Z.land ch 0x08);;
  SET_GPIO (d6 g) (Z.land ch 0x04);;
  SET_GPIO (d5 g) (Z.land ch 0x02);;
  SET_GPIO (d4 g) (Z.land ch 0x01);;
  uPause p 50;;
  when ((displayID =? 1) || (displayID =? 0))
       (SET_GPIO (en g) 1);;
  when ((displayID =? 2) || ((numDisplays p >? 1) && (displayID =? 0)))
       (SET_GPIO (en2 g) 1);;
  uPause p 50;;
  when ((displayID =? 1) || (displayID =? 0))
       (SET_GPIO (en g) 0);;
  when ((displayID =? 2) || ((numDisplays p >? 1) && (displayID =? 0)))
       (SET_GPIO (en2 g) 0);;
  uPause p 50.

(** [lcdgpio_HD44780_backlight] (lines 355-360). *)
Definition lcdgpio_HD44780_backlight (p : PrivateData) (state : Z) : M unit :=
  when ((backlight_bit p >? -1) && (backlight_bit p <? 32))
       (g ← deref (gpio_pinout p);
        SET_GPIO (backlight g) (if state =? BACKLIGHT_ON then 1 else 0)).

(** The call [drvthis->config_get_int(drvthis->name, key, 0, dflt)]. *)
Definition pin_option (drvthis : Driver) (key : string) (dflt : Z) : Z :=
  config_get_int drvthis (name drvthis) key 0 dflt.

(** The message of a failed pin set-up and the common exit that follows it:
    [report(RPT_ERR, ...); return -1;] with the map still attached to [p]. *)
Definition failed_setup (p : PrivateData) (m : gpio_map) (pin : gpio_pin)
    (role : string) : M (Z * PrivateData) :=
  report ("hd_init_gpio: Failed to set up GPIO " +:+ pretty (num pin)
          +:+ " as " +:+ role);;
  mret (-1, set_gpio_pinout p (Some m)).

(** [hd_init_gpio] (lines 171-265); the result is the return value with the
    private data as the function leaves it.  The calls of [debug] are left
    out: the macro expands to nothing unless the driver is built for
    debugging. *)
Definition hd_init_gpio (drvthis : Driver) : M (Z * PrivateData) :=
  let p := private_data drvthis in
  (* Get GPIO configuration *)
  match malloc_gpio_map with
  | None =>
      report "hd_init_gpio: unable to allocate memory";;
      mret (-1, set_gpio_pinout p None)
  | Some m =>
      let m := set_en m (set_num (en m) (pin_option drvthis "pin_EN" GPIO_DEF_EN)) in
      let m := set_rs m (set_num (rs m) (pin_option drvthis "pin_RS" GPIO_DEF_RS)) in
      let m := set_d7 m (set_num (d7 m) (pin_option drvthis "pin_D7" GPIO_DEF_D7)) in
      let m := set_d6 m (set_num (d6 m) (pin_option drvthis "pin_D6" GPIO_DEF_D6)) in
      let m := set_d5 m (set_num (d5 m) (pin_option drvthis "pin_D5" GPIO_DEF_D5)) in
      let m := set_d4 m (set_num (d4 m) (pin_option drvthis "pin_D4" GPIO_DEF_D4)) in
      (* For displays with two controllers *)
      let m := if numDisplays p >? 1
               then set_en2 m (set_num (en2 m) (pin_option drvthis "pin_EN2" GPIO_DEF_EN2))
               else m in
      (* Backlight setup is optional *)
      let p := if truthy (have_backlight p)
               then set_backlight_bit p (pin_option drvthis "pin_BL" GPIO_DEF_BL)
               else p in
      let m := if truthy (have_backlight p)
               then set_backlight m (set_num (backlight m) (backlight_bit p))
               else m in
      '(rc, pin) ← setup_gpio_pin drvthis (en m);
      let m := set_en m pin in
      if rc <? 0 then failed_setup p m (en m) "EN" else
      '(rc, pin) ← setup_gpio_pin drvthis (rs m);
      let m := set_rs m pin in
      if rc <? 0 then failed_setup p m (rs m) "RS" else
      '(rc, pin) ← setup_gpio_pin drvthis (d7 m);
      let m := set_d7 m pin in
      if rc <? 0 then failed_setup p m (d7 m) "D7" else
      '(rc, pin) ← setup_gpio_pin drvthis (d6 m);
      let m := set_d6 m pin in
      if rc <? 0 then failed_setup p m (d6 m) "D6" else
      '(rc, pin) ← setup_gpio_pin drvthis (d5 m);
      let m := set_d5 m pin in
      if rc <? 0 then failed_setup p m (d5 m) "D5" else
      '(rc, pin) ← setup_gpio_pin drvthis (d4 m);
      let m := set_d4 m pin in
      if rc <? 0 then failed_setup p m (d4 m) "D4" else
      let p := set_functions p
                 (Build_functions Fn_lcdgpio_senddata Fn_lcdgpio_close
                                  (fn_backlight (hd44780_functions p))) in
      (* the rest of the function, from line 254 on and from line 247 on; an
         early return above them is a path that does not reach them *)
      let bring_up (p : PrivateData) (m : gpio_map) : M (Z * PrivateData) :=
        let p := set_gpio_pinout p (Some m) in
        (* Setup the lcd in 4 bit mode; the hook called is the one just set *)
        lcdgpio_HD44780_senddata p 0 RS_INSTR 0x33;;
        uPause p 4100;;
        lcdgpio_HD44780_senddata p 0 RS_INSTR 0x32;;
        uPause p 150;;
        common_init p IF_4BIT;;
        mret (0, p) in
      let second_controller (p : PrivateData) (m : gpio_map) : M (Z * PrivateData) :=
        if numDisplays p >? 1 then
          '(rc, pin) ← setup_gpio_pin drvthis (en2 m);
          let m := set_en2 m pin in
          if rc <? 0 then failed_setup p m (en2 m) "EN2" else
          bring_up p m
        else bring_up p m in
      if truthy (have_backlight p) then
        '(rc, pin) ← setup_gpio_pin drvthis (backlight m);
        let m := set_backlight m pin in
        if rc <? 0 then failed_setup p m (backlight m) "D5" else
        let p := set_functions p
                   (Build_functions (fn_senddata (hd44780_functions p))
                                    (fn_close (hd44780_functions p))
                                    Fn_lcdgpio_backlight) in
        second_controller p m
      else second_controller p m
  end.

(** ** Reading a trace *)

(** What was written to [file], oldest first. *)
Definition written (file : string) (t : list event) : list string :=
  flat_map (fun e => match e with
                     | Fprintf f data => if String.eqb f file then [data] else []
                     | _ => []
                     end) t.

(** The level of the line whose value file is [file]: the last text written
    to it, if any. *)
Definition level (file : string) (t : list event) : option string :=
  last (written file t).

(** The level, computed from the oldest event on. *)
Fixpoint level_from (file : string) (cur : option string) (t : list event) : option string :=
  match t with
  | [] => cur
  | Fprintf f data :: t' =>
      level_from file (if String.eqb f file then Some data else cur) t'
  | _ :: t' => level_from file cur t'
  end.

(** The events that come before pause number [n], counting from zero. *)
Fixpoint before_pause (n : nat) (t : list event) : list event :=
  match t with
  | [] => []
  | UPause u :: t' =>
      match n with
      | O => []
      | S n' => UPause u :: before_pause n' t'
      end
  | e :: t' => e :: before_pause n t'
  end.

(** The events that come after pause number [n], counting from zero. *)
Fixpoint after_pause (n : nat) (t : list event) : list event :=
  match t with
  | [] => []
  | UPause u :: t' =>
      match n with
      | O => t'
      | S n' => after_pause n' t'
      end
  | _ :: t' => after_pause n t'
  end.

(** A transmission holds the lines still eight times.  [at_hold k t], for
    [k] from 1 to 8, is what happened up to the moment hold [k] begins, and
    [step k t] is what happened between hold [k - 1] and hold [k]: step 1 and
    step 5 clear the data lines, steps 2 and 6 drive a nibble, steps 3 and 7
    raise the enable lines, steps 4 and 8 lower them. *)
Definition at_hold (k : nat) (t : list event) : list event :=
  before_pause (Nat.pred k) t.

Definition step (k : nat) (t : list event) : list event :=
  match k with
  | O => []
  | S O => before_pause 0 t
  | S (S j) => before_pause 0 (after_pause j t)
  end.

(** All writes of a trace, as pairs of file and text. *)
Definition file_writes (t : list event) : list (string * string) :=
  omap (fun e => match e with
                 | Fprintf f data => Some (f, data)
                 | _ => None
                 end) t.

(** The text that [SET_GPIO] writes for a level. *)
Definition level_text (b : bool) : string := if b then "1" else "0".

(** ** Stating the claims *)

(** The stream [fp] is open on [file]. *)
Definition open_on (w : world) (fp : FILE) (file : string) : Prop :=
  match fp with
  | Some h => streams w !! h = Some file
  | None => False
  end.

(** A pin that can be written: its handle is open on its own value file. *)
Definition pin_ready (w : world) (pin : gpio_pin) : Prop :=
  open_on w (fd pin) (value_file (num pin)).

(** Every open stream was created by an earlier [fopen]. *)
Definition world_ok (w : world) : Prop :=
  forall h, is_Some (streams w !! h) -> (h < fopen_calls w)%nat.

(** The target of a transmission: controller 1 for First (1) and All (0),
    controller 2 for Second (2) and for All when there are two. *)
Definition targets_first (displayID : Z) : Prop :=
  displayID = 1 \/ displayID = 0.

Definition targets_second (p : PrivateData) (displayID : Z) : Prop :=
  displayID = 2 \/ (numDisplays p > 1 /\ displayID = 0).

Global Instance targets_first_dec d : Decision (targets_first d).
Proof. unfold targets_first. apply _. Defined.

Global Instance targets_second_dec p d : Decision (targets_second p d).
Proof. unfold targets_second. apply _. Defined.

(** The pins that a transmission to [displayID] writes. *)
Definition touched_pins (p : PrivateData) (m : gpio_map) (displayID : Z) : list gpio_pin :=
  [rs m; d7 m; d6 m; d5 m; d4 m]
  ++ (if decide (targets_first displayID) then [en m] else [])
  ++ (if decide (targets_second p displayID) then [en2 m] else []).

(** The enable lines that a transmission to [displayID] pulses. *)
Definition touched_enables (p : PrivateData) (m : gpio_map) (displayID : Z) : list gpio_pin :=
  (if decide (targets_first displayID) then [en m] else [])
  ++ (if decide (targets_second p displayID) then [en2 m] else []).

(** What is written to [file] in each of the steps 1 to 8, and after the
    last hold (step 9). *)
Definition step_writes (file : string) (t : list event) : list (list string) :=
  (fun k => written file (step k t)) <$> seq 1 9.

(** One pulse per nibble: high in steps 3 and 7, low in steps 4 and 8, and
    nothing else. *)
Definition two_pulses : list (list string) :=
  [[]; []; ["1"]; ["0"]; []; []; ["1"]; ["0"]; []].

Definition no_activity : list (list string) :=
  [[]; []; []; []; []; []; []; []; []].

(** The writes that put the levels [l7], [l6], [l5], [l4] on D7, D6, D5, D4,
    in the order in which the driver makes them. *)
Definition data_writes (m : gpio_map) (l7 l6 l5 l4 : bool) : list (string * string) :=
  [(value_file (num (d7 m)), level_text l7); (value_file (num (d6 m)), level_text l6);
   (value_file (num (d5 m)), level_text l5); (value_file (num (d4 m)), level_text l4)].

(** The levels of D7, D6, D5, D4, in this order. *)
Definition data_lines (m : gpio_map) (t : list event) : list (option string) :=
  [level (value_file (num (d7 m))) t; level (value_file (num (d6 m))) t;
   level (value_file (num (d5 m))) t; level (value_file (num (d4 m))) t].

(** ** The roles of the pins *)

(** The eight logical pins, in the order in which initialization takes
    them up. *)
Inductive role : Type := EN | RS | D7 | D6 | D5 | D4 | BL | EN2.

Global Instance role_eq_dec : EqDecision role.
Proof. solve_decision. Defined.

Definition get_pin (m : gpio_map) (r : role) : gpio_pin :=
  match r with
  | EN => en m | RS => rs m | D7 => d7 m | D6 => d6 m
  | D5 => d5 m | D4 => d4 m | BL => backlight m | EN2 => en2 m
  end.

Definition put_pin (m : gpio_map) (r : role) (pin : gpio_pin) : gpio_map :=
  match r with
  | EN => set_en m pin | RS => set_rs m pin | D7 => set_d7 m pin
  | D6 => set_d6 m pin | D5 => set_d5 m pin | D4 => set_d4 m pin
  | BL => set_backlight m pin | EN2 => set_en2 m pin
  end.

(** The configuration key of a role and its default pin number. *)
Definition option_key (r : role) : string :=
  match r with
  | EN => "pin_EN" | RS => "pin_RS" | D7 => "pin_D7" | D6 => "pin_D6"
  | D5 => "pin_D5" | D4 => "pin_D4" | BL => "pin_BL" | EN2 => "pin_EN2"
  end.

Definition default_pin (r : role) : Z :=
  match r with
  | EN => GPIO_DEF_EN | RS => GPIO_DEF_RS | D7 => GPIO_DEF_D7 | D6 => GPIO_DEF_D6
  | D5 => GPIO_DEF_D5 | D4 => GPIO_DEF_D4 | BL => GPIO_DEF_BL | EN2 => GPIO_DEF_EN2
  end.

(** The pin number that the configuration gives to a role. *)
Definition bound_pin (drvthis : Driver) (r : role) : Z :=
  pin_option drvthis (option_key r) (default_pin r).

(** The name of a role in the failure message of [hd_init_gpio]; the
    backlight is reported under the name of D5. *)
Definition role_label (r : role) : string :=
  match r with
  | EN => "EN" | RS => "RS" | D7 => "D7" | D6 => "D6"
  | D5 => "D5" | D4 => "D4" | BL => "D5" | EN2 => "EN2"
  end.

(** The roles that a configuration uses: the six that every display has,
    then the backlight if there is one, then the second enable line if there
    are two controllers. *)
Definition active_roles (p : PrivateData) : list role :=
  [EN; RS; D7; D6; D5; D4]
  ++ (if truthy (have_backlight p) then [BL] else [])
  ++ (if numDisplays p >? 1 then [EN2] else []).

Definition active_pins (p : PrivateData) (m : gpio_map) : list gpio_pin :=
  get_pin m <$> active_roles p.

(** Acquire the pins of [roles] one after the other and stop at the first
    set-up that reports an error; the result names the role that failed. *)
Fixpoint acquire_all (drvthis : Driver) (roles : list role) (m : gpio_map)
    : M (option role * gpio_map) :=
  match roles with
  | [] => mret (None, m)
  | r :: rest =>
      '(rc, pin) ← setup_gpio_pin drvthis (get_pin m r);
      let m := put_pin m r pin in
      if rc <? 0 then mret (Some r, m) else acquire_all drvthis rest m
  end.

(** Release the pins of a list one after the other. *)
Fixpoint release_all (pins : list gpio_pin) : M unit :=
  match pins with
  | [] => mret tt
  | pin :: rest => close_gpio_pin pin;; release_all rest
  end.

(** The map after the pin numbers of the configuration are stored in the
    block [m] that [malloc] returned. *)
Definition bound_map (drvthis : Driver) (m : gpio_map) : gpio_map :=
  let p := private_data drvthis in
  let bind (m : gpio_map) (r : role) :=
    put_pin m r (set_num (get_pin m r) (bound_pin drvthis r)) in
  let m := foldl bind m [EN; RS; D7; D6; D5; D4] in
  let m := if numDisplays p >? 1 then bind m EN2 else m in
  if truthy (have_backlight p) then bind m BL else m.

(** What a run of set-ups over [roles] that started with map [m], [n] calls
    of [fopen] made and streams [s] has done when it ends after [k]
    set-ups that reported no error, with map [m'], streams [s'] and the
    calls [new]. *)
Record acquired (roles : list role) (m : gpio_map) (n : nat) (s : gmap nat string)
    (k : nat) (m' : gpio_map) (s' : gmap nat string) (new : list event) : Prop := {
  acq_bound : (k <= length roles)%nat;
  acq_refused : (k < length roles)%nat -> fopen_ok (n + 3 * k)%nat = false;
  acq_export :
    written export_file new = (fun r => pretty (num (get_pin m r)) +:+ LF) <$> take k roles;
  acq_unexport : written unexport_file new = [];
  acq_num : forall r, num (get_pin m' r) = num (get_pin m r);
  acq_rest : forall r, r ∉ take k roles -> get_pin m' r = get_pin m r;
  acq_old : forall h, (h < n)%nat -> s' !! h = s !! h;
  acq_fresh : forall h, (n + 3 * k <= h)%nat -> s' !! h = s !! h;
  acq_pins : forall i r, take k roles !! i = Some r ->
    (fd (get_pin m' r) = None /\ fopen_ok (n + 3 * i + 2)%nat = false)
    \/ (fd (get_pin m' r) = Some (n + 3 * i + 2)%nat
        /\ fopen_ok (n + 3 * i + 2)%nat = true
        /\ s' !! (n + 3 * i + 2)%nat = Some (value_file (num (get_pin m r))))
}.

(** The calls of a pin set-up in which the value file cannot be opened, and
    of one in which the export file cannot be opened. *)
Definition setup_events_no_value (n : Z) : list event :=
  [Fopen export_file true; Fprintf export_file (pretty n +:+ LF); Fclose export_file;
   Fopen (direction_file n) true; Fprintf (direction_file n) "low";
   Fclose (direction_file n);
   Fopen (value_file n) false; Printf ("Couldn't open " +:+ value_file n)].

Definition setup_events_refused : list event :=
  [Fopen export_file false; Report ("Couldn't open " +:+ export_file)].

(** The calls of a pin set-up in which every [fopen] succeeds, and the calls
    of a pin release; [held] is the file that the pin's handle is open on,
    if the handle is not null. *)
Definition setup_events (n : Z) : list event :=
  [Fopen export_file true; Fprintf export_file (pretty n +:+ LF); Fclose export_file;
   Fopen (direction_file n) true; Fprintf (direction_file n) "low";
   Fclose (direction_file n);
   Fopen (value_file n) true].

Definition release_events (n : Z) (held : option string) : list event :=
  [Fopen (direction_file n) true; Fprintf (direction_file n) "in";
   Fclose (direction_file n)]
  ++ match held with Some file => [Fclose file] | None => [] end
  ++ [Fopen unexport_file true; Fprintf unexport_file (pretty n +:+ LF);
      Fclose unexport_file].

(** The two calls that one [SET_GPIO(pin, value)] makes on a ready pin. *)
Definition pin_write (pin : gpio_pin) (value : Z) : list event :=
  [Fprintf (value_file (num pin)) (level_text (truthy (uint value)));
   Fseek (value_file (num pin))].

(** The calls of one transmission, in order. *)
Definition senddata_events (p : PrivateData) (m : gpio_map)
    (displayID flags ch : Z) : list event :=
  let first v := if decide (targets_first displayID) then pin_write (en m) v else [] in
  let second v := if decide (targets_second p displayID) then pin_write (en2 m) v else [] in
  pin_write (rs m) (if flags =? RS_INSTR then 0 else 1)
  ++ pin_write (d7 m) 0 ++ pin_write (d6 m) 0 ++ pin_write (d5 m) 0 ++ pin_write (d4 m) 0
  ++ [UPause 50]
  ++ pin_write (d7 m) (Z.land ch 0x80) ++ pin_write (d6 m) (Z.land ch 0x40)
  ++ pin_write (d5 m) (Z.land ch 0x20) ++ pin_write (d4 m) (Z.land ch 0x10)
  ++ [UPause 50]
  ++ first 1 ++ second 1 ++ [UPause 50]
  ++ first 0 ++ second 0 ++ [UPause 50]
  ++ pin_write (d7 m) 0 ++ pin_write (d6 m) 0 ++ pin_write (d5 m) 0 ++ pin_write (d4 m) 0
  ++ [UPause 50]
  ++ pin_write (d7 m) (Z.land ch 0x08) ++ pin_write (d6 m) (Z.land ch 0x04)
  ++ pin_write (d5 m) (Z.land ch 0x02) ++ pin_write (d4 m) (Z.land ch 0x01)
  ++ [UPause 50]
  ++ first 1 ++ second 1 ++ [UPause 50]
  ++ first 0 ++ second 0 ++ [UPause 50].

(** A run of backlight calls, one per requested state. *)
Fixpoint backlight_calls (p : PrivateData) (states : list Z) : M unit :=
  match states with
  | [] => mret tt
  | state :: rest => lcdgpio_HD44780_backlight p state;; backlight_calls p rest
  end.

(** ** Reading a trace: delays, write discipline and the byte on the lines *)

(** The delays of a trace, oldest first, in microseconds. *)
Definition pauses (t : list event) : list Z :=
  omap (fun e => match e with
                 | UPause usecs => Some usecs
                 | _ => None
                 end) t.

(** A trace made of nothing but pin writes and delays: every write is
    followed at once by a rewind of the file it went to, no rewind comes
    without its write, and no other call is made. *)
Fixpoint only_pin_writes (t : list event) : bool :=
  match t with
  | [] => true
  | Fprintf f _ :: Fseek g :: t' => String.eqb f g && only_pin_writes t'
  | UPause _ :: t' => only_pin_writes t'
  | _ => false
  end.

(** The calls that a transmission or a backlight call can make: a write of
    one of the two level texts, a rewind, a delay of 50 microseconds. *)
Definition pin_traffic (e : event) : Prop :=
  match e with
  | Fprintf _ data => data = "0" \/ data = "1"
  | Fseek _ => True
  | UPause usecs => usecs = 50
  | _ => False
  end.

(** The binary digit that a level stands for. *)
Definition level_bit (l : option string) : option Z :=
  match l with
  | Some text =>
      if String.eqb text "1" then Some 1
      else if String.eqb text "0" then Some 0
      else None
  | None => None
  end.

(** The number that a row of levels spells, most significant digit first. *)
Definition lines_value (lines : list (option string)) : option Z :=
  foldl (fun acc l => a ← acc; b ← level_bit l; Some (2 * a + b)) (Some 0) lines.

(** The byte that a controller takes in from one transmission: the high
    nibble is what D7, D6, D5, D4 carry when the first pulse has ended
    (hold 4), the low nibble what they carry when the second has ended
    (hold 8). *)
Definition byte_latched (m : gpio_map) (t : list event) : option Z :=
  hi ← lines_value (data_lines m (at_hold 4 t));
  lo ← lines_value (data_lines m (at_hold 8 t));
  Some (16 * hi + lo).

(** The value files of a list of pins. *)
Definition value_files (pins : list gpio_pin) : list string :=
  (fun pin => value_file (num pin)) <$> pins.

(** What a call leaves of the world when it returns: the same streams, the
    same count of [fopen] calls, and a longer trace whose new calls all
    satisfy [Q]. *)
Definition extends_by {A} (Q : event -> Prop) (c : M A) : Prop :=
  forall w a w', c w = Done a w' -> exists new, w' = emit w new /\ Forall Q new.

(** ** What initialization leaves *)

(** The function table after an initialization that stopped at the set-up
    of [failed], and after one that went through when [failed] is [None]:
    the transmit and close entries are assigned once the six pins that every
    display has are set up, the backlight entry once the backlight pin is
    set up. *)
Definition table_after (p : PrivateData) (failed : option role) : HD44780_functions :=
  let old := hd44780_functions p in
  match failed with
  | Some BL =>
      Build_functions Fn_lcdgpio_senddata Fn_lcdgpio_close (fn_backlight old)
  | Some EN2 | None =>
      Build_functions Fn_lcdgpio_senddata Fn_lcdgpio_close
        (if truthy (have_backlight p) then Fn_lcdgpio_backlight else fn_backlight old)
  | Some _ => old
  end.

(** The private data after an initialization that got its map [m]. *)
Definition private_after (drvthis : Driver) (failed : option role) (m : gpio_map)
    : PrivateData :=
  let p := private_data drvthis in
  Build_PrivateData (Some m) (have_backlight p) (numDisplays p)
    (if truthy (have_backlight p) then bound_pin drvthis BL else backlight_bit p)
    (table_after p failed).

(** The calls that bring the display up in 4-bit mode, at the end of an
    initialization. *)
Definition bring_up_events (p : PrivateData) (m : gpio_map) : list event :=
  senddata_events p m 0 RS_INSTR 0x33 ++ [UPause 4100]
  ++ senddata_events p m 0 RS_INSTR 0x32 ++ [UPause 150]
  ++ [CommonInit IF_4BIT].

(** ** Sample data for the examples *)

Definition all_open : nat -> bool := fun _ => true.
Definition all_but (n : nat) : nat -> bool := fun i => negb (Nat.eqb i n).

Definition boot : world := World 0 ∅ [].

Definition no_hooks : HD44780_functions := Build_functions Fn_preset Fn_preset Fn_preset.

Definition blank_pin : gpio_pin := Gpio_pin 0 None.
Definition blank_map : gpio_map :=
  Gpio_map blank_pin blank_pin blank_pin blank_pin blank_pin blank_pin blank_pin blank_pin.

(** A driver with the default pin numbers, [nd] controllers and, when [bl]
    is not zero, a backlight. *)
Definition sample_driver (bl nd : Z) : Driver :=
  Build_Driver "HD44780" (fun _ _ _ dflt => dflt)
               (Build_PrivateData None bl nd 0 no_hooks).

(** The map and the world that an initialization with the default pin
    numbers leaves when every file opens: each pin holds the stream of its
    value file. *)
Definition sample_map : gpio_map :=
  Gpio_map (Gpio_pin 8 (Some 2%nat)) (Gpio_pin 22 (Some 23%nat))
           (Gpio_pin 7 (Some 5%nat)) (Gpio_pin 18 (Some 8%nat))
           (Gpio_pin 23 (Some 11%nat)) (Gpio_pin 24 (Some 14%nat))
           (Gpio_pin 25 (Some 17%nat)) (Gpio_pin 17 (Some 20%nat)).

Definition sample_world : world :=
  World 24
        (list_to_map [(2%nat, value_file 8); (5%nat, value_file 7);
                      (8%nat, value_file 18); (11%nat, value_file 23);
                      (14%nat, value_file 24); (17%nat, value_file 25);
                      (20%nat, value_file 17); (23%nat, value_file 22)])
        [].

(** Private data with two controllers and a backlight on pin 17, and the
    same with no backlight configured and the backlight number left at 0. *)
Definition sample_private : PrivateData :=
  Build_PrivateData (Some sample_map) 1 2 17
    (Build_functions Fn_lcdgpio_senddata Fn_lcdgpio_close Fn_lcdgpio_backlight).

Definition unlit_private (m : gpio_map) : PrivateData :=
  Build_PrivateData (Some m) 0 2 0
    (Build_functions Fn_lcdgpio_senddata Fn_lcdgpio_close Fn_preset).

(** Private data whose backlight number is out of range. *)
Definition dark_private : PrivateData :=
  Build_PrivateData (Some sample_map) 1 2 (-1)
    (Build_functions Fn_lcdgpio_senddata Fn_lcdgpio_close Fn_lcdgpio_backlight).

(** A driver with one controller and a backlight whose pin_BL option is
    40, a number that the backlight function does not accept. *)
Definition dim_driver : Driver :=
  Build_Driver "HD44780"
               (fun _ key _ dflt => if String.eqb key "pin_BL" then 40 else dflt)
               (Build_PrivateData None 1 1 0 no_hooks).

(** ** Basic facts *)

Lemma emit_emit w a b : emit (emit w a) b = emit w (a ++ b).
Proof. unfold emit; simpl. by rewrite <- app_assoc. Qed.

Lemma pin_ready_emit w evs pin : pin_ready w pin -> pin_ready (emit w evs) pin.
Proof. unfold pin_ready, open_on; destruct (fd pin); auto. Qed.

Lemma land_pow2 (ch k : Z) :
  0 <= k -> Z.land ch (2 ^ k) = if Z.testbit ch k then 2 ^ k else 0.
Proof.
  intros Hk. apply Z.bits_inj'. intros i Hi.
  rewrite Z.land_spec, Z.pow2_bits_eqb by lia.
  destruct (Z.eqb_spec k i) as [->|Hne].
  - destruct (Z.testbit ch i) eqn:E; simpl.
    + by rewrite Z.pow2_bits_true.
    + by rewrite Z.bits_0.
  - rewrite andb_false_r. destruct (Z.testbit ch k).
    + by rewrite Z.pow2_bits_false.
    + by rewrite Z.bits_0.
Qed.

Lemma truthy_mask (ch k : Z) :
  0 <= k < 32 -> truthy (uint (Z.land ch (2 ^ k))) = Z.testbit ch k.
Proof.
  intros Hk. rewrite land_pow2 by lia. unfold truthy, uint.
  assert (0 < 2 ^ k < 2 ^ 32).
  { split; [apply Z.pow_pos_nonneg; lia|apply Z.pow_lt_mono_r; lia]. }
  destruct (Z.testbit ch k).
  - rewrite Z.mod_small by lia. destruct (Z.eqb_spec (2 ^ k) 0); [lia|done].
  - done.
Qed.

Lemma SET_GPIO_run pin value w :
  pin_ready w pin ->
  SET_GPIO pin value w =
    Done tt (emit w [Fprintf (value_file (num pin)) (level_text (truthy (uint value)));
                     Fseek (value_file (num pin))]).
Proof.
  unfold pin_ready, open_on, SET_GPIO. destruct (fd pin) as [h|]; [|done].
  intros Hh. unfold mbind, M_bind, fprintf, fseek, level_text.
  destruct (truthy (uint value)); rewrite Hh; simpl; rewrite Hh;
    by rewrite emit_emit.
Qed.

(** ** Stepping through a sequence of calls *)

Lemma bind_SET_GPIO {B} pin value (k : unit -> M B) w :
  pin_ready w pin ->
  (SET_GPIO pin value ≫= k) w = k tt (emit w (pin_write pin value)).
Proof. intros H. unfold mbind, M_bind. by rewrite SET_GPIO_run. Qed.

Lemma bind_log {B} e (k : unit -> M B) w : (log e ≫= k) w = k tt (emit w [e]).
Proof. done. Qed.

Lemma bind_when {B} (b : bool) c (k : unit -> M B) w :
  (when b c ≫= k) w = if b then (c ≫= k) w else k tt w.
Proof. by destruct b. Qed.

Lemma targets_first_test d :
  (d =? 1) || (d =? 0) = bool_decide (targets_first d).
Proof.
  unfold targets_first. destruct (Z.eqb_spec d 1), (Z.eqb_spec d 0); simpl;
    symmetry; first [apply bool_decide_eq_true; tauto | apply bool_decide_eq_false; tauto].
Qed.

Lemma targets_second_test p d :
  (d =? 2) || ((numDisplays p >? 1) && (d =? 0)) = bool_decide (targets_second p d).
Proof.
  unfold targets_second. rewrite Z.gtb_ltb.
  destruct (Z.eqb_spec d 2), (Z.ltb_spec 1 (numDisplays p)), (Z.eqb_spec d 0); simpl;
    symmetry; first [apply bool_decide_eq_true; lia | apply bool_decide_eq_false; lia].
Qed.

Lemma touched_rs_data p m d w :
  Forall (pin_ready w) (touched_pins p m d) ->
  pin_ready w (rs m) /\ pin_ready w (d7 m) /\ pin_ready w (d6 m)
  /\ pin_ready w (d5 m) /\ pin_ready w (d4 m).
Proof.
  unfold touched_pins. simpl. rewrite !Forall_cons. tauto.
Qed.

Lemma touched_en p m d w :
  Forall (pin_ready w) (touched_pins p m d) -> targets_first d -> pin_ready w (en m).
Proof.
  unfold touched_pins. intros H Hd. rewrite decide_True in H by done.
  simpl in H. rewrite !Forall_cons in H. tauto.
Qed.

Lemma touched_en2 p m d w :
  Forall (pin_ready w) (touched_pins p m d) -> targets_second p d -> pin_ready w (en2 m).
Proof.
  unfold touched_pins. intros H Hd. rewrite (decide_True (P := targets_second p d)) in H by done.
  rewrite Forall_app, Forall_app in H. destruct H as (_ & _ & H).
  by apply Forall_cons in H as [H _].
Qed.

(** A transmission on ready pins always returns, after exactly the calls of
    [senddata_events]. *)
Lemma senddata_run p m displayID flags ch w :
  gpio_pinout p = Some m ->
  Forall (pin_ready w) (touched_pins p m displayID) ->
  lcdgpio_HD44780_senddata p displayID flags ch w =
    Done tt (emit w (senddata_events p m displayID flags ch)).
Proof.
  intros Hm Hready.
  destruct (touched_rs_data _ _ _ _ Hready) as (Hrs & H7 & H6 & H5 & H4).
  pose proof (touched_en _ _ _ _ Hready) as Hen.
  pose proof (touched_en2 _ _ _ _ Hready) as Hen2.
  unfold lcdgpio_HD44780_senddata, senddata_events, uPause.
  rewrite Hm. change ((deref (Some m) ≫= ?k) w) with (k m w). cbv beta.
  rewrite targets_first_test, targets_second_test.
  assert (Hrs' : forall (B : Type) (k : unit -> M B) w',
    pin_ready w' (rs m) ->
    ((if flags =? RS_INSTR then SET_GPIO (rs m) 0 else SET_GPIO (rs m) 1) ≫= k) w'
    = k tt (emit w' (pin_write (rs m) (if flags =? RS_INSTR then 0 else 1)))).
  { intros B k w' Hw'. destruct (flags =? RS_INSTR); by rewrite bind_SET_GPIO. }
  rewrite Hrs' by done. cbv beta.
  destruct (decide (targets_first displayID)) as [Hf|Hf];
    [rewrite (bool_decide_eq_true_2 _ Hf); specialize (Hen Hf)
    |rewrite (bool_decide_eq_false_2 _ Hf); clear Hen];
  (destruct (decide (targets_second p displayID)) as [Hs|Hs];
    [rewrite (bool_decide_eq_true_2 _ Hs); specialize (Hen2 Hs)
    |rewrite (bool_decide_eq_false_2 _ Hs); clear Hen2]);
  repeat first
    [ rewrite bind_SET_GPIO by (repeat apply pin_ready_emit; assumption); cbv beta
    | rewrite bind_log; cbv beta
    | rewrite bind_when; cbv beta iota ];
  unfold log; rewrite !emit_emit; unfold pin_write; simpl; reflexivity.
Qed.

(** ** Stepping through stdio calls *)

Lemma bind_fopen_ok {B} file (k : FILE -> M B) n s t :
  fopen_ok n = true ->
  (fopen file ≫= k) (World n s t) =
    k (Some n) (World (S n) (<[n := file]> s) (t ++ [Fopen file true])).
Proof. intros H. unfold mbind, M_bind, fopen. simpl. by rewrite H. Qed.

Lemma bind_fopen_fail {B} file (k : FILE -> M B) n s t :
  fopen_ok n = false ->
  (fopen file ≫= k) (World n s t) =
    k None (World (S n) s (t ++ [Fopen file false])).
Proof. intros H. unfold mbind, M_bind, fopen. simpl. by rewrite H. Qed.

Lemma bind_fprintf {B} h file data (k : unit -> M B) n s t :
  s !! h = Some file ->
  (fprintf (Some h) data ≫= k) (World n s t) =
    k tt (World n s (t ++ [Fprintf file data])).
Proof. intros H. unfold mbind, M_bind, fprintf. simpl. by rewrite H. Qed.

Lemma bind_fclose {B} h file (k : unit -> M B) n s t :
  s !! h = Some file ->
  (fclose (Some h) ≫= k) (World n s t) =
    k tt (World n (delete h s) (t ++ [Fclose file])).
Proof. intros H. unfold mbind, M_bind, fclose. simpl. by rewrite H. Qed.

Lemma run_fclose h file n s t :
  s !! h = Some file ->
  fclose (Some h) (World n s t) = Done tt (World n (delete h s) (t ++ [Fclose file])).
Proof. intros H. unfold fclose. simpl. by rewrite H. Qed.

Lemma bind_log_world {B} e (k : unit -> M B) n s t :
  (log e ≫= k) (World n s t) = k tt (World n s (t ++ [e])).
Proof. done. Qed.

Lemma world_ok_fresh n s t h :
  world_ok (World n s t) -> (n <= h)%nat -> s !! h = None.
Proof.
  intros Hok Hh. apply eq_None_not_Some. intros Hsome.
  apply Hok in Hsome. simpl in Hsome. lia.
Qed.

Lemma insert_then_delete (s : gmap nat string) h file :
  s !! h = None -> delete h (<[h := file]> s) = s.
Proof. intros H. rewrite delete_insert_eq. by apply delete_id. Qed.

(** ** Setting up and releasing one pin *)

Lemma setup_gpio_pin_ok drvthis gpio n s t :
  world_ok (World n s t) ->
  fopen_ok n = true -> fopen_ok (S n) = true -> fopen_ok (S (S n)) = true ->
  setup_gpio_pin drvthis gpio (World n s t) =
    Done (0, set_fd gpio (Some (S (S n))))
         (World (S (S (S n))) (<[S (S n) := value_file (num gpio)]> s)
                (t ++ setup_events (num gpio))).
Proof.
  intros Hok H0 H1 H2. unfold setup_gpio_pin. cbv zeta.
  rewrite bind_fopen_ok by done. cbv beta iota.
  erewrite bind_fprintf by apply lookup_insert_eq.
  erewrite bind_fclose by apply lookup_insert_eq.
  rewrite insert_then_delete by (eapply world_ok_fresh; [done|lia]).
  rewrite bind_fopen_ok by done. cbv beta iota. rewrite bind_when.
  erewrite bind_fprintf by apply lookup_insert_eq.
  erewrite bind_fclose by apply lookup_insert_eq.
  rewrite insert_then_delete by (eapply world_ok_fresh; [done|lia]).
  rewrite bind_fopen_ok by done. cbv beta iota. rewrite bind_when.
  unfold mret, M_ret, setup_events, value_file, direction_file, export_file.
  by rewrite <- !app_assoc.
Qed.

Lemma setup_gpio_pin_refused drvthis gpio n s t :
  fopen_ok n = false ->
  setup_gpio_pin drvthis gpio (World n s t) =
    Done (-1, gpio) (World (S n) s (t ++ setup_events_refused)).
Proof.
  intros H0. unfold setup_gpio_pin. cbv zeta.
  rewrite bind_fopen_fail by done. cbv beta iota. unfold report.
  rewrite bind_log_world. unfold mret, M_ret, setup_events_refused, export_file.
  by rewrite <- !app_assoc.
Qed.

(** The four ways a pin set-up can go, by what [fopen] answers. *)
Lemma setup_gpio_pin_cases drvthis gpio n s t :
  world_ok (World n s t) ->
  setup_gpio_pin drvthis gpio (World n s t) =
    if negb (fopen_ok n) then
      Done (-1, gpio) (World (S n) s (t ++ setup_events_refused))
    else if negb (fopen_ok (S n)) then Undefined
    else if fopen_ok (S (S n)) then
      Done (0, set_fd gpio (Some (S (S n))))
           (World (S (S (S n))) (<[S (S n) := value_file (num gpio)]> s)
                  (t ++ setup_events (num gpio)))
    else
      Done (0, set_fd gpio None)
           (World (S (S (S n))) s (t ++ setup_events_no_value (num gpio))).
Proof.
  intros Hok.
  destruct (fopen_ok n) eqn:H0; simpl; [|by apply setup_gpio_pin_refused].
  destruct (fopen_ok (S n)) eqn:H1; simpl.
  - destruct (fopen_ok (S (S n))) eqn:H2; [by apply setup_gpio_pin_ok|].
    unfold setup_gpio_pin. cbv zeta.
    rewrite bind_fopen_ok by done. cbv beta iota.
    erewrite bind_fprintf by apply lookup_insert_eq.
    erewrite bind_fclose by apply lookup_insert_eq.
    rewrite insert_then_delete by (eapply world_ok_fresh; [done|lia]).
    rewrite bind_fopen_ok by done. cbv beta iota. rewrite bind_when.
    erewrite bind_fprintf by apply lookup_insert_eq.
    erewrite bind_fclose by apply lookup_insert_eq.
    rewrite insert_then_delete by (eapply world_ok_fresh; [done|lia]).
    rewrite bind_fopen_fail by done. cbv beta iota. rewrite bind_when.
    unfold printf. rewrite bind_log_world.
    unfold mret, M_ret, setup_events_no_value, value_file, direction_file, export_file.
    by rewrite <- !app_assoc.
  - unfold setup_gpio_pin. cbv zeta.
    rewrite bind_fopen_ok by done. cbv beta iota.
    erewrite bind_fprintf by apply lookup_insert_eq.
    erewrite bind_fclose by apply lookup_insert_eq.
    rewrite bind_fopen_fail by done. cbv beta iota. rewrite bind_when.
    unfold printf. rewrite bind_log_world. done.
Qed.

Lemma close_gpio_pin_run gpio held n s t :
  world_ok (World n s t) ->
  match fd gpio with
  | Some h => s !! h = held /\ is_Some held
  | None => held = None
  end ->
  fopen_ok n = true -> fopen_ok (S n) = true ->
  close_gpio_pin gpio (World n s t) =
    Done tt (World (S (S n))
                   (match fd gpio with Some h => delete h s | None => s end)
                   (t ++ release_events (num gpio) held)).
Proof.
  intros Hok Hfd H0 H1. unfold close_gpio_pin. cbv zeta.
  rewrite bind_fopen_ok by done. cbv beta.
  erewrite bind_fprintf by apply lookup_insert_eq.
  erewrite bind_fclose by apply lookup_insert_eq.
  rewrite insert_then_delete by (eapply world_ok_fresh; [done|lia]).
  rewrite bind_when.
  assert (Hfresh : s !! S n = None) by (eapply world_ok_fresh; [done|lia]).
  destruct (fd gpio) as [h|]; cbv iota.
  - destruct Hfd as [Hh [file ->]].
    erewrite bind_fclose by done.
    rewrite bind_fopen_ok by done. cbv beta.
    erewrite bind_fprintf by apply lookup_insert_eq.
    erewrite run_fclose by apply lookup_insert_eq.
    rewrite insert_then_delete.
    + unfold release_events, direction_file, unexport_file.
      by rewrite <- !app_assoc.
    + destruct (decide (h = S n)) as [->|Hne];
        [apply lookup_delete_eq|by rewrite lookup_delete_ne].
  - subst held.
    rewrite bind_fopen_ok by done. cbv beta.
    erewrite bind_fprintf by apply lookup_insert_eq.
    erewrite run_fclose by apply lookup_insert_eq.
    rewrite insert_then_delete by done.
    unfold release_events, direction_file, unexport_file.
    by rewrite <- !app_assoc.
Qed.

(** ** Initialization as a run of pin set-ups *)

(** Unfold initialization and the run of set-ups down to the calls of
    [setup_gpio_pin], evaluating each binding before it is used. *)
Ltac norm_init :=
  cbv beta iota zeta delta
    [hd_init_gpio bound_map active_roles acquire_all failed_setup get_pin put_pin
     set_en set_en2 set_rs set_d7 set_d6 set_d5 set_d4 set_backlight set_num set_fd
     en en2 rs d7 d6 d5 d4 backlight num fd private_data name config_get_int
     pin_option bound_pin option_key default_pin role_label
     set_gpio_pinout set_backlight_bit set_functions
     gpio_pinout have_backlight numDisplays backlight_bit hd44780_functions
     fn_senddata fn_close fn_backlight foldl app mbind M_bind mret M_ret report log].

(** Initialization is the run of set-ups over the active roles, followed by
    the failure report or by the bring-up of the display. *)
Lemma hd_init_gpio_acquire drvthis m0 w :
  malloc_gpio_map = Some m0 ->
  match acquire_all drvthis (active_roles (private_data drvthis))
                    (bound_map drvthis m0) w with
  | Undefined => hd_init_gpio drvthis w = Undefined
  | Done (Some r, m) w' =>
      exists p',
        hd_init_gpio drvthis w =
          Done (-1, p')
               (emit w' [Report ("hd_init_gpio: Failed to set up GPIO "
                                 +:+ pretty (num (get_pin m r))
                                 +:+ " as " +:+ role_label r)])
        /\ gpio_pinout p' = Some m
        /\ have_backlight p' = have_backlight (private_data drvthis)
        /\ numDisplays p' = numDisplays (private_data drvthis)
        /\ (truthy (have_backlight (private_data drvthis)) = false ->
            fn_backlight (hd44780_functions p') =
              fn_backlight (hd44780_functions (private_data drvthis)))
  | Done (None, m) w' =>
      exists p',
        hd_init_gpio drvthis w =
          (lcdgpio_HD44780_senddata p' 0 RS_INSTR 0x33;;
           uPause p' 4100;;
           lcdgpio_HD44780_senddata p' 0 RS_INSTR 0x32;;
           uPause p' 150;;
           common_init p' IF_4BIT;;
           mret (0, p')) w'
        /\ gpio_pinout p' = Some m
        /\ have_backlight p' = have_backlight (private_data drvthis)
        /\ numDisplays p' = numDisplays (private_data drvthis)
        /\ (truthy (have_backlight (private_data drvthis)) = false ->
            fn_backlight (hd44780_functions p') =
              fn_backlight (hd44780_functions (private_data drvthis)))
  end.
Proof.
  intros Hmalloc.
  destruct drvthis as [nm cfg [gp hb nd bb fns]].
  destruct m0 as [e e2 r p7 p6 p5 p4 b].
  destruct (truthy hb) eqn:Hb, (nd >? 1) eqn:Hn;
    norm_init; rewrite Hmalloc, ?Hb, ?Hn; norm_init;
    repeat match goal with
           | |- context [setup_gpio_pin ?d ?pin ?w0] =>
               destruct (setup_gpio_pin d pin w0) as [[? ?] ?|];
               norm_init; [|reflexivity]
           | |- context [if ?rc <? 0 then _ else _] =>
               destruct (rc <? 0); norm_init
           end;
    eexists; (split; [reflexivity|done]).
Qed.

(** ** File names and levels *)

Lemma string_length_app (s t : string) :
  String.length (s +:+ t) = (String.length s + String.length t)%nat.
Proof. induction s as [|c s IH]; simpl; [done|by rewrite IH]. Qed.

Lemma string_app_cancel_r (s1 s2 t : string) : s1 +:+ t = s2 +:+ t -> s1 = s2.
Proof.
  revert s2. induction s1 as [|c s1 IH]; intros [|c' s2] H.
  - done.
  - apply (f_equal String.length) in H.
    rewrite !string_length_app in H. simpl in H. lia.
  - apply (f_equal String.length) in H.
    rewrite !string_length_app in H. simpl in H. lia.
  - simpl in H. injection H as -> H. f_equal. by apply IH.
Qed.

(** Two pins have the same value file only when they have the same number. *)
Lemma value_file_inj a b : value_file a = value_file b -> a = b.
Proof.
  unfold value_file. intros H.
  apply (inj (String.app gpio_prefix)) in H.
  apply (inj (String.app "gpio")) in H.
  apply string_app_cancel_r in H.
  by apply (inj pretty) in H.
Qed.

Lemma value_file_eqb a b :
  a <> b -> String.eqb (value_file a) (value_file b) = false.
Proof. intros H. apply String.eqb_neq. intros E. by apply H, value_file_inj. Qed.

Lemma level_from_last file cur t :
  level_from file cur t =
    match last (written file t) with
    | Some x => Some x
    | None => cur
    end.
Proof.
  revert cur. induction t as [|e t IH]; intros cur; [done|].
  destruct e; simpl; rewrite ?IH; try done.
  rewrite last_app.
  destruct (String.eqb file0 file); simpl; by destruct (last (written file t)).
Qed.

Lemma level_fold file t : level file t = level_from file None t.
Proof. rewrite level_from_last. unfold level. by destruct (last _). Qed.

Lemma not_elem_of_cons_1 {A} (x y : A) l : x ∉ y :: l -> x <> y /\ x ∉ l.
Proof. by rewrite not_elem_of_cons. Qed.

Lemma other_files n :
  String.eqb (direction_file n) export_file = false
  /\ String.eqb (value_file n) export_file = false
  /\ String.eqb (direction_file n) unexport_file = false
  /\ String.eqb (value_file n) unexport_file = false
  /\ String.eqb export_file unexport_file = false
  /\ String.eqb unexport_file export_file = false.
Proof. repeat split; reflexivity. Qed.

Lemma written_app file a b : written file (a ++ b) = written file a ++ written file b.
Proof. unfold written. apply flat_map_app. Qed.

Lemma written_setup_events n :
  written export_file (setup_events n) = [pretty n +:+ LF]
  /\ written export_file (setup_events_no_value n) = [pretty n +:+ LF]
  /\ written export_file setup_events_refused = []
  /\ written unexport_file (setup_events n) = []
  /\ written unexport_file (setup_events_no_value n) = []
  /\ written unexport_file setup_events_refused = [].
Proof. repeat split; reflexivity. Qed.

Lemma get_put_same m r pin : get_pin (put_pin m r pin) r = pin.
Proof. by destruct r. Qed.

Lemma get_put_other m r r' pin : r <> r' -> get_pin (put_pin m r pin) r' = get_pin m r'.
Proof. by destruct r, r'. Qed.

Lemma put_get_id m r : put_pin m r (get_pin m r) = m.
Proof. by destruct m, r. Qed.

Lemma world_ok_grow n s t n' t' :
  world_ok (World n s t) -> (n <= n')%nat -> world_ok (World n' s t').
Proof. intros Hok Hn h Hh. apply Hok in Hh. simpl in *. lia. Qed.

Lemma world_ok_insert n s t n' t' h file :
  world_ok (World n s t) -> (n <= n')%nat -> (h < n')%nat ->
  world_ok (World n' (<[h := file]> s) t').
Proof.
  intros Hok Hn Hh h' Hsome. simpl in *.
  apply lookup_insert_is_Some in Hsome as [<-|[_ Hsome]]; [done|].
  apply Hok in Hsome. simpl in Hsome. lia.
Qed.

(** ** Runs of pin set-ups *)


Lemma lookup_take_elem {A} (l : list A) k i x : take k l !! i = Some x -> x ∈ l.
Proof. intros H. apply lookup_take_Some in H as [H _]. by eapply list_elem_of_lookup_2. Qed.

Lemma elem_take_elem {A} (l : list A) k x : x ∈ take k l -> x ∈ l.
Proof. intros H. apply elem_of_take in H as (i & H & _). by eapply list_elem_of_lookup_2. Qed.

Lemma acquire_all_inv drvthis roles : forall m n s t res m' w',
  world_ok (World n s t) -> NoDup roles ->
  acquire_all drvthis roles m (World n s t) = Done (res, m') w' ->
  exists k s' new,
    w' = World (n + 3 * k + (if decide (k < length roles)%nat then 1 else 0))%nat s' (t ++ new)
    /\ res = roles !! k
    /\ acquired roles m n s k m' s' new.
Proof.
  induction roles as [|r rest IH]; intros m n s t res m' w' Hok Hnd Hrun.
  - injection Hrun as <- <- <-. exists 0%nat, s, [].
    split; [simpl; rewrite app_nil_r; f_equal; lia|]. split; [done|].
    split; simpl; try done; try lia.
  - apply NoDup_cons in Hnd as [Hr Hnd].
    simpl in Hrun. unfold mbind, M_bind in Hrun.
    rewrite setup_gpio_pin_cases in Hrun by done.
    destruct (fopen_ok n) eqn:H0; simpl in Hrun.
    2:{ injection Hrun as <- <- <-. exists 0%nat, s, setup_events_refused.
        split; [simpl; f_equal; lia|]. split; [done|].
        rewrite put_get_id.
        split; simpl; try done; try lia.
        intros _. by replace (n + 0)%nat with n by lia. }
    destruct (fopen_ok (S n)) eqn:H1; simpl in Hrun; [|done].
    destruct (fopen_ok (S (S n))) eqn:H2; simpl in Hrun.
    + apply IH in Hrun as (k & s' & new & -> & -> & Hacq); [|by eapply world_ok_insert; [done|lia..]|done].
      destruct Hacq.
      exists (S k), s', (setup_events (num (get_pin m r)) ++ new).
      split.
      { rewrite app_assoc. simpl length. f_equal.
        destruct (decide (k < length rest)%nat), (decide (S k < S (length rest))%nat); lia. }
      split; [done|].
      split.
      * simpl; lia.
      * intros Hk. replace (n + 3 * S k)%nat with (S (S (S n)) + 3 * k)%nat by lia.
        apply acq_refused0. simpl in Hk. lia.
      * rewrite written_app. destruct (written_setup_events (num (get_pin m r))) as (-> & _).
        rewrite acq_export0. simpl. f_equal.
        apply list_fmap_ext. intros i r' Hr'.
        rewrite get_put_other; [done|].
        intros <-. apply Hr. by eapply lookup_take_elem.
      * rewrite written_app. destruct (written_setup_events (num (get_pin m r))) as (_ & _ & _ & -> & _).
        by rewrite acq_unexport0.
      * intros r'. rewrite acq_num0. destruct (decide (r = r')) as [<-|Hne].
        -- by rewrite get_put_same.
        -- by rewrite get_put_other.
      * intros r' Hr'. simpl in Hr'. apply not_elem_of_cons in Hr' as [Hne Hr'].
        rewrite acq_rest0 by done. by rewrite get_put_other.
      * intros h Hh. rewrite acq_old0 by lia. rewrite lookup_insert_ne by lia. done.
      * intros h Hh. rewrite acq_fresh0 by lia. rewrite lookup_insert_ne by lia. done.
      * intros i r' Hi. destruct i as [|i]; simpl in Hi.
        -- injection Hi as <-. right.
           rewrite acq_rest0 by (intros Hin; apply Hr; by eapply elem_take_elem).
           rewrite get_put_same.
           replace (n + 3 * 0 + 2)%nat with (S (S n)) by lia.
           split; [done|]. split; [done|].
           rewrite acq_old0 by lia. apply lookup_insert_eq.
        -- replace (n + 3 * S i + 2)%nat with (S (S (S n)) + 3 * i + 2)%nat by lia.
           assert (r <> r').
           { intros <-. apply Hr. by eapply lookup_take_elem. }
           specialize (acq_pins0 i r' Hi). by rewrite get_put_other in acq_pins0.
    + apply IH in Hrun as (k & s' & new & -> & -> & Hacq); [|by eapply world_ok_grow; [done|lia]|done].
      destruct Hacq.
      exists (S k), s', (setup_events_no_value (num (get_pin m r)) ++ new).
      split.
      { rewrite app_assoc. simpl length. f_equal.
        destruct (decide (k < length rest)%nat), (decide (S k < S (length rest))%nat); lia. }
      split; [done|].
      split.
      * simpl; lia.
      * intros Hk. replace (n + 3 * S k)%nat with (S (S (S n)) + 3 * k)%nat by lia.
        apply acq_refused0. simpl in Hk. lia.
      * rewrite written_app. destruct (written_setup_events (num (get_pin m r))) as (_ & -> & _).
        rewrite acq_export0. simpl. f_equal.
        apply list_fmap_ext. intros i r' Hr'.
        rewrite get_put_other; [done|].
        intros <-. apply Hr. by eapply lookup_take_elem.
      * rewrite written_app. destruct (written_setup_events (num (get_pin m r))) as (_ & _ & _ & _ & -> & _).
        by rewrite acq_unexport0.
      * intros r'. rewrite acq_num0. destruct (decide (r = r')) as [<-|Hne].
        -- by rewrite get_put_same.
        -- by rewrite get_put_other.
      * intros r' Hr'. simpl in Hr'. apply not_elem_of_cons in Hr' as [Hne Hr'].
        rewrite acq_rest0 by done. by rewrite get_put_other.
      * intros h Hh. rewrite acq_old0 by lia. done.
      * intros h Hh. rewrite acq_fresh0 by lia. done.
      * intros i r' Hi. destruct i as [|i]; simpl in Hi.
        -- injection Hi as <-. left.
           rewrite acq_rest0 by (intros Hin; apply Hr; by eapply elem_take_elem).
           rewrite get_put_same.
           replace (n + 3 * 0 + 2)%nat with (S (S n)) by lia. done.
        -- replace (n + 3 * S i + 2)%nat with (S (S (S n)) + 3 * i + 2)%nat by lia.
           assert (r <> r').
           { intros <-. apply Hr. by eapply lookup_take_elem. }
           specialize (acq_pins0 i r' Hi). by rewrite get_put_other in acq_pins0.
Qed.

Lemma acquire_all_defined drvthis roles : forall k m n s t,
  world_ok (World n s t) -> (k <= length roles)%nat ->
  (forall i, (i < 3 * k)%nat -> fopen_ok (n + i)%nat = true) ->
  ((k < length roles)%nat -> fopen_ok (n + 3 * k)%nat = false) ->
  exists m' w', acquire_all drvthis roles m (World n s t) = Done (roles !! k, m') w'.
Proof.
  induction roles as [|r rest IH]; intros k m n s t Hok Hk Hopen Hstop.
  - simpl in Hk. replace k with 0%nat by lia. by eexists _, _.
  - simpl. unfold mbind, M_bind. rewrite setup_gpio_pin_cases by done.
    destruct k as [|k].
    + assert (H0 : fopen_ok n = false).
      { replace n with (n + 3 * 0)%nat by lia. apply Hstop. simpl. lia. }
      rewrite H0. simpl. by eexists _, _.
    + assert (H0 : fopen_ok n = true).
      { replace n with (n + 0)%nat by lia. apply Hopen. lia. }
      assert (H1 : fopen_ok (S n) = true).
      { replace (S n) with (n + 1)%nat by lia. apply Hopen. lia. }
      assert (H2 : fopen_ok (S (S n)) = true).
      { replace (S (S n)) with (n + 2)%nat by lia. apply Hopen. lia. }
      rewrite H0, H1, H2. simpl.
      apply IH.
      * eapply world_ok_insert; [done|lia..].
      * simpl in Hk. lia.
      * intros i Hi. replace (S (S (S n)) + i)%nat with (n + (3 + i))%nat by lia.
        apply Hopen. lia.
      * intros Hlt. replace (S (S (S n)) + 3 * k)%nat with (n + 3 * S k)%nat by lia.
        apply Hstop. simpl. lia.
Qed.

Lemma active_roles_NoDup p : NoDup (active_roles p).
Proof.
  unfold active_roles.
  destruct (truthy (have_backlight p)), (numDisplays p >? 1); simpl;
    by apply (bool_decide_unpack _).
Qed.

Lemma bound_map_num drvthis m0 r :
  r ∈ active_roles (private_data drvthis) ->
  num (get_pin (bound_map drvthis m0) r) = bound_pin drvthis r.
Proof.
  unfold active_roles, bound_map.
  destruct (truthy (have_backlight (private_data drvthis))),
           (numDisplays (private_data drvthis) >? 1);
    simpl; intros Hr; destruct r; try done;
    apply list_elem_of_In in Hr; simpl in Hr; intuition discriminate.
Qed.

(** A lookup that gives the same answer at two positions of a list without
    repetitions, both at most its length, is at the same position. *)
Lemma NoDup_lookup_eq {A} (l : list A) i j :
  NoDup l -> (i <= length l)%nat -> (j <= length l)%nat -> l !! i = l !! j -> i = j.
Proof.
  intros Hnd Hi Hj Heq. destruct (l !! i) as [x|] eqn:Ei.
  - symmetry in Heq. by eapply NoDup_lookup.
  - symmetry in Heq. apply lookup_ge_None in Ei, Heq. lia.
Qed.

Opaque value_file.

(** Pairwise different pin numbers, out of a [NoDup] hypothesis. *)
Ltac split_nodup :=
  repeat match goal with
         | H : NoDup (_ :: _) |- _ =>
             let Hx := fresh "Hx" in
             apply NoDup_cons in H as [Hx H]
         | H : _ ∉ _ :: _ |- _ =>
             let Hx := fresh "Hne" in
             apply not_elem_of_cons_1 in H as [Hx H]
         end.

(** Settle the comparisons of value files that a computed trace leaves. *)
Ltac compare_files :=
  rewrite ?String.eqb_refl;
  repeat match goal with
         | |- context [String.eqb (value_file ?a) (value_file ?b)] =>
             rewrite (value_file_eqb a b) by congruence
         end.


Lemma truthy_masks ch :
  truthy (uint (Z.land ch 0x80)) = Z.testbit ch 7
  /\ truthy (uint (Z.land ch 0x40)) = Z.testbit ch 6
  /\ truthy (uint (Z.land ch 0x20)) = Z.testbit ch 5
  /\ truthy (uint (Z.land ch 0x10)) = Z.testbit ch 4
  /\ truthy (uint (Z.land ch 0x08)) = Z.testbit ch 3
  /\ truthy (uint (Z.land ch 0x04)) = Z.testbit ch 2
  /\ truthy (uint (Z.land ch 0x02)) = Z.testbit ch 1
  /\ truthy (uint (Z.land ch 0x01)) = Z.testbit ch 0.
Proof.
  repeat split;
    [apply (truthy_mask ch 7)|apply (truthy_mask ch 6)|apply (truthy_mask ch 5)
    |apply (truthy_mask ch 4)|apply (truthy_mask ch 3)|apply (truthy_mask ch 2)
    |apply (truthy_mask ch 1)|apply (truthy_mask ch 0)]; lia.
Qed.

(** Put the calls of a transmission in a form that computes: the masked
    bits become the bits of [ch], named so that nothing unfolds them. *)
Ltac expose_events ch :=
  unfold senddata_events, pin_write;
  destruct (truthy_masks ch) as (-> & -> & -> & -> & -> & -> & -> & ->);
  generalize (Z.testbit ch 7) (Z.testbit ch 6) (Z.testbit ch 5) (Z.testbit ch 4)
             (Z.testbit ch 3) (Z.testbit ch 2) (Z.testbit ch 1) (Z.testbit ch 0);
  intros b7 b6 b5 b4 b3 b2 b1 b0.

Lemma written_senddata_events file p m displayID flags ch :
  (forall n, String.eqb (value_file n) file = false) ->
  written file (senddata_events p m displayID flags ch) = [].
Proof.
  intros Hfile. unfold senddata_events, pin_write.
  destruct (decide (targets_first displayID)), (decide (targets_second p displayID));
    simpl; by rewrite !Hfile.
Qed.

(** ** The transmission of a byte *)

(** C1: a transmission on ready pins returns.  Its first step writes
    Register-Select and then clears D7, D6, D5, D4; its second step writes
    bits 7, 6, 5, 4 of [ch] to D7, D6, D5, D4 and nothing else; its fifth
    step clears the four lines again and its sixth writes bits 3, 2, 1, 0 to
    them and nothing else.  So when the four data lines are four different
    pins they are all low when the first hold begins, carry the high nibble
    when the second begins, are all low when the fifth begins and carry the
    low nibble when the sixth begins.  This holds for every [displayID],
    every [flags] and every [ch], so for every 8-bit value. *)
Theorem senddata_nibbles p m displayID flags ch w :
  gpio_pinout p = Some m ->
  Forall (pin_ready w) (touched_pins p m displayID) ->
  exists new,
    lcdgpio_HD44780_senddata p displayID flags ch w = Done tt (emit w new)
    /\ tail (file_writes (step 1 new)) = data_writes m false false false false
    /\ file_writes (step 2 new) =
         data_writes m (Z.testbit ch 7) (Z.testbit ch 6) (Z.testbit ch 5) (Z.testbit ch 4)
    /\ file_writes (step 5 new) = data_writes m false false false false
    /\ file_writes (step 6 new) =
         data_writes m (Z.testbit ch 3) (Z.testbit ch 2) (Z.testbit ch 1) (Z.testbit ch 0)
    /\ (NoDup [num (d7 m); num (d6 m); num (d5 m); num (d4 m)] ->
        data_lines m (at_hold 1 new) = [Some "0"; Some "0"; Some "0"; Some "0"]
        /\ data_lines m (at_hold 2 new) =
             [Some (level_text (Z.testbit ch 7)); Some (level_text (Z.testbit ch 6));
              Some (level_text (Z.testbit ch 5)); Some (level_text (Z.testbit ch 4))]
        /\ data_lines m (at_hold 5 new) = [Some "0"; Some "0"; Some "0"; Some "0"]
        /\ data_lines m (at_hold 6 new) =
             [Some (level_text (Z.testbit ch 3)); Some (level_text (Z.testbit ch 2));
              Some (level_text (Z.testbit ch 1)); Some (level_text (Z.testbit ch 0))]).
Proof.
  intros Hm Hready. exists (senddata_events p m displayID flags ch).
  split; [by apply senddata_run|].
  unfold data_lines, data_writes. rewrite !level_fold. expose_events ch.
  destruct (decide (targets_first displayID)), (decide (targets_second p displayID));
    (repeat (split; [reflexivity|])); intros Hnd; split_nodup;
    simpl; compare_files; done.
Qed.

(** C2: in a transmission on ready pins, with the seven lines on seven
    different pins, Enable is written four times, high, low, high, low: high
    in steps 3 and 7 and low in steps 4 and 8, once per nibble, when
    [displayID] is First or All, and is never written otherwise; Enable2
    likewise when [displayID] is Second, or All with two controllers, and
    never otherwise. *)
Theorem senddata_enable_pulses p m displayID flags ch w :
  gpio_pinout p = Some m ->
  Forall (pin_ready w) (touched_pins p m displayID) ->
  NoDup (num <$> [en m; en2 m; rs m; d7 m; d6 m; d5 m; d4 m]) ->
  exists new,
    lcdgpio_HD44780_senddata p displayID flags ch w = Done tt (emit w new)
    /\ written (value_file (num (en m))) new =
         (if decide (targets_first displayID) then ["1"; "0"; "1"; "0"] else [])
    /\ step_writes (value_file (num (en m))) new =
         (if decide (targets_first displayID) then two_pulses else no_activity)
    /\ written (value_file (num (en2 m))) new =
         (if decide (targets_second p displayID) then ["1"; "0"; "1"; "0"] else [])
    /\ step_writes (value_file (num (en2 m))) new =
         (if decide (targets_second p displayID) then two_pulses else no_activity).
Proof.
  intros Hm Hready Hnd. exists (senddata_events p m displayID flags ch).
  split; [by apply senddata_run|].
  simpl in Hnd. split_nodup. unfold step_writes. expose_events ch.
  destruct (decide (targets_first displayID)), (decide (targets_second p displayID));
    simpl; compare_files; simpl; done.
Qed.

(** C6: in a transmission on ready pins, none of which shares the pin of
    Register-Select, the first call writes Register-Select, low when [flags]
    is [RS_INSTR] and high otherwise; this is the only write to that line,
    so at every hold of the transmission, and when it returns, the line has
    that level. *)
Theorem senddata_register_select p m displayID flags ch w :
  gpio_pinout p = Some m ->
  Forall (pin_ready w) (touched_pins p m displayID) ->
  Forall (fun pin => num pin <> num (rs m))
         ([d7 m; d6 m; d5 m; d4 m] ++ touched_enables p m displayID) ->
  exists new,
    lcdgpio_HD44780_senddata p displayID flags ch w = Done tt (emit w new)
    /\ head new = Some (Fprintf (value_file (num (rs m)))
                                (if decide (flags = RS_INSTR) then "0" else "1"))
    /\ written (value_file (num (rs m))) new =
         [if decide (flags = RS_INSTR) then "0" else "1"]
    /\ forall k, level (value_file (num (rs m))) (before_pause k new) =
                   Some (if decide (flags = RS_INSTR) then "0" else "1").
Proof.
  intros Hm Hready Hnd. exists (senddata_events p m displayID flags ch).
  split; [by apply senddata_run|].
  unfold touched_enables in Hnd.
  assert (Hlvl : level_text (truthy (uint (if flags =? RS_INSTR then 0 else 1))) =
                 if decide (flags = RS_INSTR) then "0" else "1").
  { destruct (Z.eqb_spec flags RS_INSTR);
      [by rewrite decide_True|by rewrite decide_False]. }
  expose_events ch. rewrite Hlvl. clear Hlvl.
  generalize (if decide (flags = RS_INSTR) then "0" else "1"). intros lvl.
  destruct (decide (targets_first displayID)) as [Hf|Hf],
           (decide (targets_second p displayID)) as [Hs|Hs];
    simpl in Hnd; rewrite ?Forall_cons in Hnd; destruct_and?;
    (split; [done|]); (split; [simpl; compare_files; simpl; done|]);
    intros hold; rewrite level_fold;
    do 9 (destruct hold as [|k]; [simpl; compare_files; simpl; done|]; rename k into hold);
    simpl; compare_files; simpl; done.
Qed.

(** C10: in a transmission on ready pins, every enable line that is pulsed
    is low when the fourth hold begins, that is after the first pulse, and
    low when the transmission returns. *)
Theorem senddata_enable_low p m displayID flags ch w :
  gpio_pinout p = Some m ->
  Forall (pin_ready w) (touched_pins p m displayID) ->
  exists new,
    lcdgpio_HD44780_senddata p displayID flags ch w = Done tt (emit w new)
    /\ Forall (fun pin =>
                 level (value_file (num pin)) (at_hold 4 new) = Some "0"
                 /\ level (value_file (num pin)) new = Some "0")
              (touched_enables p m displayID).
Proof.
  intros Hm Hready. exists (senddata_events p m displayID flags ch).
  split; [by apply senddata_run|].
  unfold touched_enables. expose_events ch.
  destruct (decide (targets_first displayID)), (decide (targets_second p displayID));
    simpl; repeat apply Forall_cons_2; try apply Forall_nil_2;
    rewrite !level_fold; simpl; compare_files; simpl;
    repeat match goal with
           | |- context [if String.eqb ?a ?b then _ else _] => destruct (String.eqb a b)
           end; done.
Qed.

(** ** The write primitive *)



(** ** One pin *)

(** C3, as the code has it: when the export file cannot be opened the
    set-up returns -1 and leaves the pin as it was; when the export file
    opens and the direction file does not, the null stream is written to and
    the behaviour is undefined; when only the value file cannot be opened
    the set-up returns 0 with a null handle in the pin; when all three open
    it returns 0 with the pin ready. *)
Theorem setup_gpio_pin_outcomes drvthis gpio w :
  world_ok w ->
  (fopen_ok (fopen_calls w) = false ->
     exists w', setup_gpio_pin drvthis gpio w = Done (-1, gpio) w')
  /\ (fopen_ok (fopen_calls w) = true -> fopen_ok (S (fopen_calls w)) = false ->
      setup_gpio_pin drvthis gpio w = Undefined)
  /\ (fopen_ok (fopen_calls w) = true -> fopen_ok (S (fopen_calls w)) = true ->
      fopen_ok (S (S (fopen_calls w))) = false ->
      exists w', setup_gpio_pin drvthis gpio w = Done (0, set_fd gpio None) w')
  /\ (fopen_ok (fopen_calls w) = true -> fopen_ok (S (fopen_calls w)) = true ->
      fopen_ok (S (S (fopen_calls w))) = true ->
      exists pin w', setup_gpio_pin drvthis gpio w = Done (0, pin) w'
                     /\ num pin = num gpio /\ pin_ready w' pin).
Proof.
  destruct w as [n s t]. simpl. intros Hok. repeat split.
  - intros H0. eexists. by apply setup_gpio_pin_refused.
  - intros H0 H1. unfold setup_gpio_pin. cbv zeta.
    rewrite bind_fopen_ok by done. cbv beta iota.
    erewrite bind_fprintf by apply lookup_insert_eq.
    erewrite bind_fclose by apply lookup_insert_eq.
    rewrite bind_fopen_fail by done. cbv beta iota. rewrite bind_when.
    unfold printf. rewrite bind_log_world. done.
  - intros H0 H1 H2. unfold setup_gpio_pin. cbv zeta.
    rewrite bind_fopen_ok by done. cbv beta iota.
    erewrite bind_fprintf by apply lookup_insert_eq.
    erewrite bind_fclose by apply lookup_insert_eq.
    rewrite bind_fopen_ok by done. cbv beta iota. rewrite bind_when.
    erewrite bind_fprintf by apply lookup_insert_eq.
    erewrite bind_fclose by apply lookup_insert_eq.
    rewrite bind_fopen_fail by done. cbv beta iota. rewrite bind_when.
    unfold printf. rewrite bind_log_world. by eexists.
  - intros H0 H1 H2. eexists _, _. split; [by apply setup_gpio_pin_ok|].
    split; [done|]. unfold pin_ready, open_on. simpl. apply lookup_insert_eq.
Qed.

(** C5, as the code has it: a release does not look at whether the pin was
    acquired.  On a pin whose handle is null, when the direction file and the
    unexport file can be opened, it writes "in" to the direction file and the
    pin's number to the unexport file, and leaves the open streams as they
    were; a second release makes the same calls again. *)
Theorem close_gpio_pin_unconditional gpio w :
  world_ok w -> fd gpio = None ->
  (forall i, (i < 4)%nat -> fopen_ok (fopen_calls w + i)%nat = true) ->
  let calls :=
    [Fopen (direction_file (num gpio)) true;
     Fprintf (direction_file (num gpio)) "in";
     Fclose (direction_file (num gpio));
     Fopen unexport_file true;
     Fprintf unexport_file (pretty (num gpio) +:+ LF);
     Fclose unexport_file] in
  exists w1 w2,
    close_gpio_pin gpio w = Done tt w1
    /\ trace w1 = trace w ++ calls /\ streams w1 = streams w
    /\ close_gpio_pin gpio w1 = Done tt w2
    /\ trace w2 = trace w1 ++ calls /\ streams w2 = streams w.
Proof.
  destruct w as [n s t]. simpl. intros Hok Hfd Hopen.
  pose proof (Hopen 0%nat ltac:(lia)) as H0. pose proof (Hopen 1%nat ltac:(lia)) as H1.
  pose proof (Hopen 2%nat ltac:(lia)) as H2. pose proof (Hopen 3%nat ltac:(lia)) as H3.
  replace (n + 0)%nat with n in H0 by lia. replace (n + 1)%nat with (S n) in H1 by lia.
  replace (n + 2)%nat with (S (S n)) in H2 by lia.
  replace (n + 3)%nat with (S (S (S n))) in H3 by lia.
  assert (Hok' : world_ok (World (S (S n)) s
                  (t ++ release_events (num gpio) None))).
  { intros h Hh. apply Hok in Hh. simpl in *. lia. }
  eexists _, _.
  rewrite (close_gpio_pin_run gpio None n s t) by (rewrite ?Hfd; done).
  rewrite (close_gpio_pin_run gpio None) by (rewrite ?Hfd; done).
  rewrite Hfd. simpl. done.
Qed.

(** What a run of set-ups that ends after [k] successes leaves behind, when
    every [fopen] of those set-ups succeeded: the pins of the first [k]
    roles carry their numbers and are ready. *)
Lemma acquired_ready roles m n s k m' s' new n' t' :
  acquired roles m n s k m' s' new ->
  (forall i, (i < 3 * k)%nat -> fopen_ok (n + i)%nat = true) ->
  Forall (fun r => pin_ready (World n' s' t') (get_pin m' r)) (take k roles).
Proof.
  intros Hacq Hopen. apply Forall_lookup. intros i r Hi.
  pose proof (proj1 (lookup_take_Some _ _ _ _) Hi) as [_ Hlt].
  destruct (acq_pins _ _ _ _ _ _ _ _ Hacq i r Hi) as [[_ Hno]|(Hfd & _ & Hs)].
  - replace (n + 3 * i + 2)%nat with (n + (3 * i + 2))%nat in Hno by lia.
    rewrite Hopen in Hno by lia. done.
  - unfold pin_ready, open_on. rewrite Hfd. simpl.
    by rewrite (acq_num _ _ _ _ _ _ _ _ Hacq).
Qed.

Lemma base_roles_active p r : r ∈ [EN; RS; D7; D6; D5; D4] -> r ∈ active_roles p.
Proof. intros Hr. unfold active_roles. apply elem_of_app. by left. Qed.

Lemma en2_active p : numDisplays p > 1 -> EN2 ∈ active_roles p.
Proof.
  intros Hnd. unfold active_roles.
  assert ((numDisplays p >? 1) = true) as -> by (rewrite Z.gtb_ltb; apply Z.ltb_lt; lia).
  apply elem_of_app. right. apply elem_of_app. right. apply list_elem_of_In. simpl; tauto.
Qed.

(** ** Shutdown *)

Lemma file_writes_app a b : file_writes (a ++ b) = file_writes a ++ file_writes b.
Proof. unfold file_writes. apply omap_app. Qed.

Lemma file_writes_release n held :
  file_writes (release_events n held) =
    [(direction_file n, "in"); (unexport_file, pretty n +:+ LF)].
Proof. by destruct held. Qed.

(** A run of releases over pins whose handles are null or open, no two of
    them the same, when every [fopen] succeeds. *)
Lemma release_all_run pins : forall n s t,
  world_ok (World n s t) ->
  (forall i, (i < 2 * length pins)%nat -> fopen_ok (n + i)%nat = true) ->
  Forall (fun pin => forall h, fd pin = Some h -> is_Some (s !! h)) pins ->
  (forall i j a b h, pins !! i = Some a -> pins !! j = Some b ->
                     fd a = Some h -> fd b = Some h -> i = j) ->
  exists s' new,
    release_all pins (World n s t) =
      Done tt (World (n + 2 * length pins)%nat s' (t ++ new))
    /\ file_writes new =
         flat_map (fun pin => [(direction_file (num pin), "in");
                               (unexport_file, pretty (num pin) +:+ LF)]) pins
    /\ Forall (fun pin => forall h, fd pin = Some h -> s' !! h = None) pins
    /\ (forall h, (h < n)%nat -> s !! h = None -> s' !! h = None).
Proof.
  induction pins as [|pin rest IH]; intros n s t Hok Hopen Hpins Hdistinct.
  - exists s, []. simpl. rewrite app_nil_r, Nat.add_0_r. done.
  - apply Forall_cons in Hpins as [Hpin Hrest].
    simpl release_all. unfold mbind, M_bind.
    assert (H0 : fopen_ok n = true).
    { replace n with (n + 0)%nat by lia. apply Hopen. simpl. lia. }
    assert (H1 : fopen_ok (S n) = true).
    { replace (S n) with (n + 1)%nat by lia. apply Hopen. simpl. lia. }
    rewrite (close_gpio_pin_run pin
               (match fd pin with Some h => s !! h | None => None end) n s t);
      [|done| |done|done].
    2:{ destruct (fd pin) as [h|]; [|done]. split; [done|]. by apply Hpin. }
    set (s1 := match fd pin with Some h => delete h s | None => s end).
    destruct (IH (S (S n)) s1 (t ++ release_events (num pin)
                (match fd pin with Some h => s !! h | None => None end)))
      as (s' & new & Hrun & Hwrites & Hclosed & Hstay).
    + intros h Hh. simpl in *. cut (h < n)%nat; [lia|]. apply (Hok h). simpl.
      subst s1. destruct (fd pin); [|done].
      apply lookup_delete_is_Some in Hh. tauto.
    + intros i Hi. replace (S (S n) + i)%nat with (n + (2 + i))%nat by lia.
      apply Hopen. simpl in *. lia.
    + apply Forall_lookup. intros j b Hb h Hh.
      pose proof (proj1 (Forall_lookup _ _) Hrest j b Hb h Hh) as Hopenb.
      subst s1. destruct (fd pin) as [h0|] eqn:Eh0; [|done].
      rewrite lookup_delete_ne; [done|].
      intros ->. by specialize (Hdistinct 0%nat (S j) pin b h eq_refl Hb Eh0 Hh).
    + intros i j a b h Ha Hb Hfa Hfb.
      by specialize (Hdistinct (S i) (S j) a b h Ha Hb Hfa Hfb) as [= ->].
    + exists s', (release_events (num pin)
                (match fd pin with Some h => s !! h | None => None end) ++ new).
      split; [rewrite Hrun; f_equal; f_equal; [simpl; lia|by rewrite app_assoc]|].
      split; [by rewrite file_writes_app, file_writes_release, Hwrites|].
      split.
      * apply Forall_cons. split; [|done].
        intros h Hh. apply Hstay.
        -- specialize (Hok h (Hpin h Hh)). simpl in Hok. lia.
        -- subst s1. rewrite Hh. apply lookup_delete_eq.
      * intros h Hlt Hnone. apply Hstay; [lia|].
        subst s1. destruct (fd pin) as [h0|]; [|done].
        destruct (decide (h0 = h)) as [->|Hne];
          [apply lookup_delete_eq|by rewrite lookup_delete_ne].
Qed.

(** Shutdown is the run of releases over the active pins. *)
Lemma close_as_release p m w :
  gpio_pinout p = Some m ->
  lcdgpio_HD44780_close p w =
    match release_all (active_pins p m) w with
    | Done _ w' => Done (set_gpio_pinout p None) w'
    | Undefined => Undefined
    end.
Proof.
  intros Hm. unfold lcdgpio_HD44780_close, active_pins, active_roles.
  rewrite Hm. change ((deref (Some m) ≫= ?k) w) with (k m w). cbv beta.
  destruct (truthy (have_backlight p)), (numDisplays p >? 1);
    simpl; unfold mbind, M_bind, mret, M_ret; cbv beta iota;
    repeat match goal with
           | |- context [close_gpio_pin ?pin ?w0] =>
               destruct (close_gpio_pin pin w0) as [[] ?|]; cbv beta iota;
               [|reflexivity]
           end; reflexivity.
Qed.

Lemma bind_done_inv {A B} (c : M A) (k : A -> M B) w b w' :
  (c ≫= k) w = Done b w' -> exists a w1, c w = Done a w1 /\ k a w1 = Done b w'.
Proof.
  unfold mbind, M_bind. destruct (c w) as [a w1|]; [|done]. intros H. by exists a, w1.
Qed.

Lemma SET_GPIO_done_fd pin value w w' :
  SET_GPIO pin value w = Done tt w' -> fd pin <> None.
Proof.
  unfold SET_GPIO, mbind, M_bind, fprintf. intros H Hfd. rewrite Hfd in H.
  by destruct (truthy (uint value)).
Qed.

(** A transmission that returns has found a handle in every pin it writes. *)
Lemma senddata_done_fd p m displayID flags ch w w' :
  gpio_pinout p = Some m ->
  lcdgpio_HD44780_senddata p displayID flags ch w = Done tt w' ->
  Forall (fun pin => fd pin <> None) (touched_pins p m displayID).
Proof.
  intros Hm Hrun. unfold lcdgpio_HD44780_senddata in Hrun. rewrite Hm in Hrun.
  change ((deref (Some m) ≫= ?k) w) with (k m w) in Hrun. cbv beta in Hrun.
  rewrite targets_first_test, targets_second_test in Hrun.
  apply bind_done_inv in Hrun as ([] & w1 & Hrs & Hrun).
  do 12 (apply bind_done_inv in Hrun as ([] & ? & ? & Hrun)).
  assert (fd (rs m) <> None).
  { destruct (flags =? RS_INSTR); by eapply SET_GPIO_done_fd. }
  unfold touched_pins. apply Forall_app. split; [|apply Forall_app; split].
  - repeat (apply Forall_cons_2;
            [first [assumption | by eapply SET_GPIO_done_fd]|]).
    apply Forall_nil_2.
  - destruct (decide (targets_first displayID)) as [Hf|]; [|apply Forall_nil_2].
    rewrite (bool_decide_eq_true_2 _ Hf) in *. unfold when in *.
    apply Forall_cons_2; [by eapply SET_GPIO_done_fd|apply Forall_nil_2].
  - destruct (decide (targets_second p displayID)) as [Hs|]; [|apply Forall_nil_2].
    rewrite (bool_decide_eq_true_2 _ Hs) in *. unfold when in *.
    apply Forall_cons_2; [by eapply SET_GPIO_done_fd|apply Forall_nil_2].
Qed.

Lemma active_roles_same p p' :
  have_backlight p' = have_backlight p -> numDisplays p' = numDisplays p ->
  active_roles p' = active_roles p.
Proof. unfold active_roles. by intros -> ->. Qed.

(** Every pin that a transmission to all displays writes belongs to an
    active role. *)
Lemma touched_all_active p m (Q : gpio_pin -> Prop) :
  (forall r, r ∈ active_roles p -> Q (get_pin m r)) ->
  Forall Q (touched_pins p m 0).
Proof.
  intros Hall. unfold touched_pins. apply Forall_app. split; [|apply Forall_app; split].
  - repeat apply Forall_cons_2; try apply Forall_nil_2;
      [apply (Hall RS)|apply (Hall D7)|apply (Hall D6)|apply (Hall D5)|apply (Hall D4)];
      apply base_roles_active, list_elem_of_In; simpl; tauto.
  - destruct (decide (targets_first 0)); [|apply Forall_nil_2].
    apply Forall_cons_2; [|apply Forall_nil_2].
    apply (Hall EN), base_roles_active, list_elem_of_In. simpl; tauto.
  - destruct (decide (targets_second p 0)) as [Hs|]; [|apply Forall_nil_2].
    apply Forall_cons_2; [|apply Forall_nil_2].
    apply (Hall EN2), en2_active. destruct Hs as [?|[? _]]; [lia|done].
Qed.

Lemma option_cases {A} (o : option A) : o = None \/ exists a, o = Some a.
Proof. destruct o; eauto. Qed.

Lemma hd_init_gpio_no_memory drvthis w rc p w' :
  malloc_gpio_map = None -> hd_init_gpio drvthis w = Done (rc, p) w' -> rc = -1.
Proof.
  intros Hmalloc. unfold hd_init_gpio. rewrite Hmalloc.
  unfold report, log, mbind, M_bind, mret, M_ret. by intros [= <- _ _].
Qed.

(** What a successful initialization leaves: the world just after the run
    of set-ups, extended by the calls of the bring-up. *)
Lemma hd_init_gpio_done drvthis n s t p w :
  world_ok (World n s t) ->
  hd_init_gpio drvthis (World n s t) = Done (0, p) w ->
  exists m0 m s' new rest,
    let roles := active_roles (private_data drvthis) in
    malloc_gpio_map = Some m0
    /\ gpio_pinout p = Some m
    /\ active_roles p = roles
    /\ w = World (n + 3 * length roles)%nat s' ((t ++ new) ++ rest)
    /\ written export_file rest = []
    /\ acquired roles (bound_map drvthis m0) n s (length roles) m s' new.
Proof.
  intros Hok Hrun.
  destruct (option_cases malloc_gpio_map) as [Hmalloc|[m0 Hmalloc]].
  { by apply (hd_init_gpio_no_memory _ _ _ _ _ Hmalloc) in Hrun. }
  pose proof (hd_init_gpio_acquire drvthis m0 (World n s t) Hmalloc) as Hinit.
  set (roles := active_roles (private_data drvthis)) in *.
  destruct (acquire_all drvthis roles (bound_map drvthis m0) (World n s t))
    as [[[r|] m] w1|] eqn:Hacq.
  - destruct Hinit as (p' & Hinit & _). rewrite Hinit in Hrun. done.
  - destruct Hinit as (p' & Hinit & Hm & Hbl & Hnd & _).
    destruct (acquire_all_inv _ _ _ _ _ _ _ _ _ Hok (active_roles_NoDup _) Hacq)
      as (k & s' & new & Hw1 & Hres & Hacq').
    fold roles in Hacq', Hres, Hw1.
    assert (k = length roles) as ->.
    { symmetry in Hres. apply lookup_ge_None in Hres.
      pose proof (acq_bound _ _ _ _ _ _ _ _ Hacq'). lia. }
    rewrite decide_False in Hw1 by lia. rewrite Nat.add_0_r in Hw1.
    rewrite Hinit in Hrun.
    apply bind_done_inv in Hrun as ([] & wa & Hsend & Hrun).
    assert (Hroles : active_roles p' = roles) by by apply active_roles_same.
    assert (Hready : Forall (pin_ready w1) (touched_pins p' m 0)).
    { pose proof (senddata_done_fd _ _ _ _ _ _ _ Hm Hsend) as Hfd.
      assert (Hall : Forall (fun pin => fd pin <> None -> pin_ready w1 pin)
                            (touched_pins p' m 0)).
      { apply touched_all_active. rewrite Hroles. intros r Hr Hfdr.
        apply list_elem_of_lookup in Hr as [i Hi].
        rewrite <- (take_ge roles (length roles)) in Hi by lia.
        destruct (acq_pins _ _ _ _ _ _ _ _ Hacq' i r Hi) as [[Hnone _]|(Hsome & _ & Hs)];
          [done|].
        unfold pin_ready, open_on. rewrite Hsome, Hw1. cbn [streams].
        by rewrite (acq_num _ _ _ _ _ _ _ _ Hacq'). }
      eapply Forall_impl; [apply Forall_and; split; [exact Hfd|exact Hall]|].
      intros pin [? Himp]. by apply Himp. }
    rewrite (senddata_run p' m) in Hsend by done. injection Hsend as <-.
    unfold uPause, common_init, log, mbind, M_bind in Hrun. cbv beta iota in Hrun.
    rewrite (senddata_run p' m) in Hrun
      by first [done | eapply Forall_impl; [exact Hready|];
                       intros pin Hpin; by repeat apply pin_ready_emit].
    cbv beta iota in Hrun. rewrite !emit_emit in Hrun.
    match type of Hrun with
    | mret _ (emit _ ?calls) = _ => set (rest := calls) in *
    end.
    unfold mret, M_ret in Hrun. injection Hrun as <- <-.
    exists m0, m, s', new, rest.
    split; [done|]. split; [done|]. split; [done|].
    split; [rewrite Hw1; reflexivity|].
    split; [|done].
    subst rest.
    rewrite !written_app, !written_senddata_events by (intros i; apply (other_files i)).
    done.
  - by rewrite Hinit in Hrun.
Qed.

(** C8: after an initialization that returned 0, if the files of the
    shutdown can be opened, shutdown returns with the map detached, and it
    releases the pins of the active roles, which are the pins that
    initialization exported, in the same order: for each pin it writes "in"
    to the direction file and then the pin's number to the unexport file,
    and every handle that a pin held is closed. *)
Theorem close_after_init drvthis w0 p w :
  world_ok w0 ->
  hd_init_gpio drvthis w0 = Done (0, p) w ->
  (forall i, (i < 2 * length (active_roles p))%nat ->
             fopen_ok (fopen_calls w + i)%nat = true) ->
  exists m w' started released,
    gpio_pinout p = Some m
    /\ trace w = trace w0 ++ started
    /\ written export_file started =
         (fun pin => pretty (num pin) +:+ LF) <$> active_pins p m
    /\ lcdgpio_HD44780_close p w = Done (set_gpio_pinout p None) w'
    /\ trace w' = trace w ++ released
    /\ file_writes released =
         flat_map (fun pin => [(direction_file (num pin), "in");
                               (unexport_file, pretty (num pin) +:+ LF)])
                  (active_pins p m)
    /\ Forall (fun pin => forall h, fd pin = Some h -> streams w' !! h = None)
              (active_pins p m).
Proof.
  destruct w0 as [n s t]. intros Hok Hinit Hopen.
  destruct (hd_init_gpio_done _ _ _ _ _ _ Hok Hinit)
    as (m0 & m & s' & new & rest & Hmalloc & Hm & Hroles & -> & Hrest & Hacq).
  cbn [fopen_calls trace] in *. rewrite Hroles in Hopen.
  set (roles := active_roles (private_data drvthis)) in *.
  assert (Hpins : forall i r, roles !! i = Some r ->
            fd (get_pin m r) = None
            \/ (fd (get_pin m r) = Some (n + 3 * i + 2)%nat
                /\ is_Some (s' !! (n + 3 * i + 2)%nat))).
  { intros i r Hi. rewrite <- (take_ge roles (length roles)) in Hi by lia.
    destruct (acq_pins _ _ _ _ _ _ _ _ Hacq i r Hi) as [[? _]|(? & _ & ?)]; eauto. }
  assert (Hok' : world_ok (World (n + 3 * length roles) s' ((t ++ new) ++ rest))).
  { intros h Hh. cbn [streams fopen_calls] in *.
    destruct (decide (h < n + 3 * length roles)%nat) as [|Hge]; [done|].
    rewrite (acq_fresh _ _ _ _ _ _ _ _ Hacq) in Hh by lia.
    apply Hok in Hh. simpl in Hh. lia. }
  destruct (release_all_run (active_pins p m) _ _ _ Hok')
    as (s'' & released & Hrun & Hwrites & Hclosed & _).
  - unfold active_pins. rewrite length_fmap, Hroles. exact Hopen.
  - unfold active_pins. rewrite Hroles. apply Forall_fmap, Forall_lookup.
    intros i r Hi h Hh. simpl.
    destruct (Hpins i r Hi) as [Hnone|[Hsome ?]]; [congruence|].
    rewrite Hh in Hsome. by injection Hsome as ->.
  - unfold active_pins. rewrite Hroles. intros i j a b h Ha Hb Hfa Hfb.
    apply list_lookup_fmap_Some in Ha as (ra & -> & Hra).
    apply list_lookup_fmap_Some in Hb as (rb & -> & Hrb).
    destruct (Hpins i ra Hra) as [?|[Hsa _]]; [congruence|].
    destruct (Hpins j rb Hrb) as [?|[Hsb _]]; [congruence|].
    rewrite Hfa in Hsa. rewrite Hfb in Hsb.
    injection Hsa as ->. injection Hsb as Heq. lia.
  - exists m, (World (n + 3 * length roles + 2 * length (active_pins p m)) s''
                     (((t ++ new) ++ rest) ++ released)), (new ++ rest), released.
    split; [done|]. split; [by rewrite app_assoc|].
    split.
    { rewrite written_app, Hrest, app_nil_r, (acq_export _ _ _ _ _ _ _ _ Hacq).
      rewrite take_ge by lia. unfold active_pins. rewrite Hroles.
      rewrite <- list_fmap_compose. apply list_fmap_ext. intros i r _. simpl.
      by rewrite (acq_num _ _ _ _ _ _ _ _ Hacq). }
    split; [by rewrite (close_as_release p m), Hrun|].
    done.
Qed.

(** ** The backlight *)

(** Initialization installs the backlight function in the table only when a
    backlight is configured. *)
Lemma hd_init_gpio_backlight_hook drvthis w rc p' w' :
  truthy (have_backlight (private_data drvthis)) = false ->
  hd_init_gpio drvthis w = Done (rc, p') w' ->
  fn_backlight (hd44780_functions p') =
    fn_backlight (hd44780_functions (private_data drvthis)).
Proof.
  intros Hbl Hrun.
  destruct (option_cases malloc_gpio_map) as [Hmalloc|[m0 Hmalloc]].
  { unfold hd_init_gpio in Hrun. rewrite Hmalloc in Hrun.
    unfold report, log, mbind, M_bind, mret, M_ret in Hrun.
    by injection Hrun as _ <- _. }
  pose proof (hd_init_gpio_acquire drvthis m0 w Hmalloc) as Hinit.
  destruct (acquire_all drvthis _ _ w) as [[[r|] m] w1|].
  - destruct Hinit as (p'' & Hinit & _ & _ & _ & Hfn).
    rewrite Hinit in Hrun. injection Hrun as _ <- _. by apply Hfn.
  - destruct Hinit as (p'' & Hinit & _ & _ & _ & Hfn).
    rewrite Hinit in Hrun.
    do 5 (apply bind_done_inv in Hrun as ([] & ? & _ & Hrun)).
    unfold mret, M_ret in Hrun. injection Hrun as _ <- _. by apply Hfn.
  - by rewrite Hinit in Hrun.
Qed.

(** C7, as the code has it: with the backlight number in range (above -1
    and below 32) a call writes the backlight pin, high for [BACKLIGHT_ON]
    and low for any other state; with the number out of range any run of
    calls returns and leaves the world as it was.  The range is the only
    test the function makes; that no backlight is configured is taken care
    of by initialization, which then leaves the backlight slot of the
    function table as it found it. *)
Theorem backlight_guard p w :
  (forall m state,
     backlight_bit p > -1 -> backlight_bit p < 32 ->
     gpio_pinout p = Some m -> pin_ready w (backlight m) ->
     lcdgpio_HD44780_backlight p state w =
       Done tt (emit w [Fprintf (value_file (num (backlight m)))
                                (if decide (state = BACKLIGHT_ON) then "1" else "0");
                        Fseek (value_file (num (backlight m)))]))
  /\ (~ (backlight_bit p > -1 /\ backlight_bit p < 32) ->
      forall states, backlight_calls p states w = Done tt w)
  /\ (forall drvthis rc p' w',
        private_data drvthis = p -> have_backlight p = 0 ->
        hd_init_gpio drvthis w = Done (rc, p') w' ->
        fn_backlight (hd44780_functions p') = fn_backlight (hd44780_functions p)).
Proof.
  split; [|split].
  - intros m state Hlo Hhi Hm Hready. unfold lcdgpio_HD44780_backlight.
    assert ((backlight_bit p >? -1) && (backlight_bit p <? 32) = true) as ->.
    { rewrite Z.gtb_ltb. apply andb_true_iff. split; apply Z.ltb_lt; lia. }
    simpl. rewrite Hm. change ((deref (Some m) ≫= ?k) w) with (k m w). cbv beta.
    rewrite SET_GPIO_run by done.
    destruct (Z.eqb_spec state BACKLIGHT_ON);
      [by rewrite decide_True|by rewrite decide_False].
  - intros Hout states. induction states as [|state rest IH]; [done|].
    simpl. unfold mbind, M_bind, lcdgpio_HD44780_backlight.
    assert ((backlight_bit p >? -1) && (backlight_bit p <? 32) = false) as ->.
    { rewrite Z.gtb_ltb. apply andb_false_iff.
      destruct (Z.ltb_spec (-1) (backlight_bit p)),
               (Z.ltb_spec (backlight_bit p) 32); auto; lia. }
    simpl. apply IH.
  - intros drvthis rc p' w' <- Hbl Hrun.
    eapply hd_init_gpio_backlight_hook; [|exact Hrun].
    unfold truthy. by rewrite Hbl.
Qed.

(** ** More on the transmission of a byte *)

Lemma extends_mret {A} Q (a : A) : extends_by Q (mret a).
Proof.
  intros w a' w' [= <- <-]. exists []. split; [|done].
  destruct w. unfold emit. simpl. by rewrite app_nil_r.
Qed.

Lemma extends_bind {A B} Q (c : M A) (k : A -> M B) :
  extends_by Q c -> (forall a, extends_by Q (k a)) -> extends_by Q (c ≫= k).
Proof.
  intros Hc Hk w b w' Hrun.
  apply bind_done_inv in Hrun as (a & w1 & Hrun1 & Hrun2).
  apply Hc in Hrun1 as (new1 & -> & H1). apply Hk in Hrun2 as (new2 & -> & H2).
  exists (new1 ++ new2). split; [by rewrite emit_emit|by apply Forall_app].
Qed.

Lemma extends_log Q e : Q e -> extends_by Q (log e).
Proof. intros He w [] w' [= <-]. exists [e]. split; [done|by apply Forall_singleton]. Qed.

Lemma extends_when Q b c : extends_by Q c -> extends_by Q (when b c).
Proof. intros Hc. destruct b; [done|apply extends_mret]. Qed.

Lemma extends_deref {A} Q (ptr : option A) : extends_by Q (deref ptr).
Proof. destruct ptr; [apply extends_mret|done]. Qed.

Lemma extends_fprintf Q fp data :
  (forall file, Q (Fprintf file data)) -> extends_by Q (fprintf fp data).
Proof.
  intros HQ w [] w'. unfold fprintf. destruct fp as [h|]; [|done].
  destruct (streams w !! h) as [file|]; [|done]. intros [= <-].
  exists [Fprintf file data]. split; [done|by apply Forall_singleton].
Qed.

Lemma extends_fseek Q fp : (forall file, Q (Fseek file)) -> extends_by Q (fseek fp).
Proof.
  intros HQ w [] w'. unfold fseek. destruct fp as [h|]; [|done].
  destruct (streams w !! h) as [file|]; [|done]. intros [= <-].
  exists [Fseek file]. split; [done|by apply Forall_singleton].
Qed.

Lemma extends_SET_GPIO pin value : extends_by pin_traffic (SET_GPIO pin value).
Proof.
  unfold SET_GPIO. apply extends_bind.
  - destruct (truthy (uint value)); apply extends_fprintf; intros file; simpl; auto.
  - intros _. by apply extends_fseek.
Qed.

Lemma extends_senddata p displayID flags ch :
  extends_by pin_traffic (lcdgpio_HD44780_senddata p displayID flags ch).
Proof.
  unfold lcdgpio_HD44780_senddata, uPause.
  repeat first
    [ apply extends_SET_GPIO
    | apply extends_deref
    | apply extends_when
    | apply extends_log; reflexivity
    | apply extends_bind; [|intros ?]
    | match goal with |- extends_by _ (if ?b then _ else _) => destruct b end ].
Qed.

Lemma extends_backlight p state :
  extends_by pin_traffic (lcdgpio_HD44780_backlight p state).
Proof.
  unfold lcdgpio_HD44780_backlight.
  apply extends_when, extends_bind; [apply extends_deref|intros ?; apply extends_SET_GPIO].
Qed.

(** X1: a transmission that returns, on whatever pins, has opened and closed
    no stream: the open streams and the count of [fopen] calls are as
    before, every pin that was ready is still ready, and the calls it made
    are writes of "0" or "1", rewinds and delays of 50 microseconds, nothing
    else. *)
Theorem senddata_keeps_streams p displayID flags ch w w' :
  lcdgpio_HD44780_senddata p displayID flags ch w = Done tt w' ->
  fopen_calls w' = fopen_calls w
  /\ streams w' = streams w
  /\ (forall pin, pin_ready w pin -> pin_ready w' pin)
  /\ exists new, trace w' = trace w ++ new /\ Forall pin_traffic new.
Proof.
  intros Hrun. apply extends_senddata in Hrun as (new & -> & Hnew).
  split; [done|]. split; [done|]. split; [intros pin; apply pin_ready_emit|].
  by exists new.
Qed.

(** X2: on ready pins a transmission makes eight delays of 50 microseconds
    and ends with one; it makes 17 writes and four more for each enable line
    it pulses; every write goes to the value file of a pin of the
    transmission and is rewound at once. *)
Theorem senddata_timing p m displayID flags ch w :
  gpio_pinout p = Some m ->
  Forall (pin_ready w) (touched_pins p m displayID) ->
  exists new,
    lcdgpio_HD44780_senddata p displayID flags ch w = Done tt (emit w new)
    /\ pauses new = replicate 8 50
    /\ last new = Some (UPause 50)
    /\ only_pin_writes new = true
    /\ length (file_writes new) = (17 + 4 * length (touched_enables p m displayID))%nat
    /\ Forall (fun wr => wr.1 ∈ value_files (touched_pins p m displayID))
              (file_writes new).
Proof.
  intros Hm Hready. exists (senddata_events p m displayID flags ch).
  split; [by apply senddata_run|].
  unfold touched_enables, touched_pins, value_files. expose_events ch.
  destruct (decide (targets_first displayID)), (decide (targets_second p displayID));
    simpl; rewrite ?String.eqb_refl; simpl;
    (repeat (split; [reflexivity|]));
    repeat (apply Forall_cons_2; [apply list_elem_of_In; simpl; auto 12|]);
    apply Forall_nil_2.
Qed.

(** The levels of the data lines through a transmission, when the data
    lines and the pulsed enable lines are on different pins: the high
    nibble from hold 2 to hold 4, the low nibble from hold 6 to hold 8 and
    at the end. *)
Lemma senddata_events_levels p m displayID flags ch :
  NoDup (num <$> ([d7 m; d6 m; d5 m; d4 m] ++ touched_enables p m displayID)) ->
  let new := senddata_events p m displayID flags ch in
  let high := [Some (level_text (Z.testbit ch 7)); Some (level_text (Z.testbit ch 6));
               Some (level_text (Z.testbit ch 5)); Some (level_text (Z.testbit ch 4))] in
  let low := [Some (level_text (Z.testbit ch 3)); Some (level_text (Z.testbit ch 2));
              Some (level_text (Z.testbit ch 1)); Some (level_text (Z.testbit ch 0))] in
  (forall k, (2 <= k <= 4)%nat -> data_lines m (at_hold k new) = high)
  /\ (forall k, (6 <= k <= 8)%nat -> data_lines m (at_hold k new) = low)
  /\ data_lines m new = low.
Proof.
  intros Hnd. cbv zeta. unfold data_lines, touched_enables in *. rewrite !level_fold.
  assert (Hk : forall k, (2 <= k <= 4)%nat -> k = 2%nat \/ k = 3%nat \/ k = 4%nat) by lia.
  assert (Hk' : forall k, (6 <= k <= 8)%nat -> k = 6%nat \/ k = 7%nat \/ k = 8%nat) by lia.
  expose_events ch.
  destruct (decide (targets_first displayID)), (decide (targets_second p displayID));
    simpl in Hnd; split_nodup;
    (split; [intros k Hr; rewrite !level_fold; destruct (Hk k Hr) as [->|[->| ->]];
             simpl; compare_files; done|]);
    (split; [intros k Hr; rewrite !level_fold; destruct (Hk' k Hr) as [->|[->| ->]];
             simpl; compare_files; done|]);
    simpl; compare_files; done.
Qed.

(** X3: in a transmission on ready pins whose data lines and pulsed enable
    lines are on different pins, the data lines carry the high nibble from
    the second hold until the first pulse has ended, and the low nibble from
    the sixth hold until the transmission returns: no line changes while an
    enable line is high. *)
Theorem senddata_nibble_held p m displayID flags ch w :
  gpio_pinout p = Some m ->
  Forall (pin_ready w) (touched_pins p m displayID) ->
  NoDup (num <$> ([d7 m; d6 m; d5 m; d4 m] ++ touched_enables p m displayID)) ->
  exists new,
    lcdgpio_HD44780_senddata p displayID flags ch w = Done tt (emit w new)
    /\ (forall k, (2 <= k <= 4)%nat ->
          data_lines m (at_hold k new) =
            [Some (level_text (Z.testbit ch 7)); Some (level_text (Z.testbit ch 6));
             Some (level_text (Z.testbit ch 5)); Some (level_text (Z.testbit ch 4))])
    /\ (forall k, (6 <= k <= 8)%nat ->
          data_lines m (at_hold k new) =
            [Some (level_text (Z.testbit ch 3)); Some (level_text (Z.testbit ch 2));
             Some (level_text (Z.testbit ch 1)); Some (level_text (Z.testbit ch 0))])
    /\ data_lines m new =
         [Some (level_text (Z.testbit ch 3)); Some (level_text (Z.testbit ch 2));
          Some (level_text (Z.testbit ch 1)); Some (level_text (Z.testbit ch 0))].
Proof.
  intros Hm Hready Hnd. exists (senddata_events p m displayID flags ch).
  split; [by apply senddata_run|]. by apply senddata_events_levels.
Qed.

(** The two nibbles of an 8-bit value, spelled as levels, give the value
    back. *)
Lemma byte_of_levels ch :
  0 <= ch < 256 ->
  (hi ← lines_value [Some (level_text (Z.testbit ch 7)); Some (level_text (Z.testbit ch 6));
                     Some (level_text (Z.testbit ch 5)); Some (level_text (Z.testbit ch 4))];
   lo ← lines_value [Some (level_text (Z.testbit ch 3)); Some (level_text (Z.testbit ch 2));
                     Some (level_text (Z.testbit ch 1)); Some (level_text (Z.testbit ch 0))];
   Some (16 * hi + lo)) = Some ch.
Proof.
  intros Hch.
  set (spelled := fun ch : Z =>
    hi ← lines_value [Some (level_text (Z.testbit ch 7)); Some (level_text (Z.testbit ch 6));
                      Some (level_text (Z.testbit ch 5)); Some (level_text (Z.testbit ch 4))];
    lo ← lines_value [Some (level_text (Z.testbit ch 3)); Some (level_text (Z.testbit ch 2));
                      Some (level_text (Z.testbit ch 1)); Some (level_text (Z.testbit ch 0))];
    Some (16 * hi + lo)).
  assert (Hall : Forall (fun n => spelled (Z.of_nat n) = Some (Z.of_nat n)) (seq 0 256)).
  { apply (bool_decide_unpack _). vm_compute. exact I. }
  rewrite Forall_forall in Hall. specialize (Hall (Z.to_nat ch)).
  rewrite Z2Nat.id in Hall by lia. apply Hall, elem_of_seq. lia.
Qed.

(** X4: round trip of a byte through the lines: in a transmission of an
    8-bit value on ready pins, with the data lines and the pulsed enable
    lines on different pins, the nibble on D7..D4 when the first pulse ends,
    followed by the nibble on them when the second pulse ends, is the value
    sent. *)
Theorem senddata_byte_latched p m displayID flags ch w :
  gpio_pinout p = Some m ->
  Forall (pin_ready w) (touched_pins p m displayID) ->
  NoDup (num <$> ([d7 m; d6 m; d5 m; d4 m] ++ touched_enables p m displayID)) ->
  0 <= ch < 256 ->
  exists new,
    lcdgpio_HD44780_senddata p displayID flags ch w = Done tt (emit w new)
    /\ byte_latched m new = Some ch.
Proof.
  intros Hm Hready Hnd Hch. exists (senddata_events p m displayID flags ch).
  split; [by apply senddata_run|].
  destruct (senddata_events_levels p m displayID flags ch Hnd) as (Hhigh & Hlow & _).
  unfold byte_latched. rewrite (Hhigh 4%nat), (Hlow 8%nat) by lia. by apply byte_of_levels.
Qed.

(** ** More on the backlight *)

Lemma backlight_run p m state w :
  backlight_bit p > -1 -> backlight_bit p < 32 ->
  gpio_pinout p = Some m -> pin_ready w (backlight m) ->
  lcdgpio_HD44780_backlight p state w =
    Done tt (emit w [Fprintf (value_file (num (backlight m)))
                             (if decide (state = BACKLIGHT_ON) then "1" else "0");
                     Fseek (value_file (num (backlight m)))]).
Proof.
  intros Hlo Hhi Hm Hready. unfold lcdgpio_HD44780_backlight.
  assert ((backlight_bit p >? -1) && (backlight_bit p <? 32) = true) as ->.
  { rewrite Z.gtb_ltb. apply andb_true_iff. split; apply Z.ltb_lt; lia. }
  simpl. rewrite Hm. change ((deref (Some m) ≫= ?k) w) with (k m w). cbv beta.
  rewrite SET_GPIO_run by done.
  destruct (Z.eqb_spec state BACKLIGHT_ON);
    [by rewrite decide_True|by rewrite decide_False].
Qed.

Lemma written_file_writes file t :
  written file t =
    omap (fun wr => if String.eqb wr.1 file then Some wr.2 else None) (file_writes t).
Proof.
  induction t as [|e t IH]; [done|].
  destruct e; simpl; try done.
  destruct (String.eqb file0 file); simpl; by rewrite IH.
Qed.

Lemma last_app_fmap {A B} (f : A -> B) (l : list B) (k : list A) :
  last (l ++ (f <$> k)) = match last k with
                          | Some a => Some (f a)
                          | None => last l
                          end.
Proof.
  rewrite last_app, fmap_last. by destruct (last k).
Qed.

(** X5: a run of backlight calls with the backlight number in range and the
    backlight pin ready returns; it writes the pin once per call, "1" for
    [BACKLIGHT_ON] and "0" for any other state, in the order of the calls,
    so the level of the line after the run is that of the last call, and is
    unchanged when there was no call. *)
Theorem backlight_last_call p m states w :
  backlight_bit p > -1 -> backlight_bit p < 32 ->
  gpio_pinout p = Some m -> pin_ready w (backlight m) ->
  exists new,
    backlight_calls p states w = Done tt (emit w new)
    /\ file_writes new =
         (fun state => (value_file (num (backlight m)),
                        if decide (state = BACKLIGHT_ON) then "1" else "0")) <$> states
    /\ level (value_file (num (backlight m))) (trace w ++ new) =
         match last states with
         | Some state => Some (if decide (state = BACKLIGHT_ON) then "1" else "0")
         | None => level (value_file (num (backlight m))) (trace w)
         end.
Proof.
  intros Hlo Hhi Hm. revert w.
  assert (Hrun : forall w, pin_ready w (backlight m) ->
    exists new,
      backlight_calls p states w = Done tt (emit w new)
      /\ file_writes new =
           (fun state => (value_file (num (backlight m)),
                          if decide (state = BACKLIGHT_ON) then "1" else "0")) <$> states).
  { induction states as [|state rest IH]; intros w Hready.
    - exists []. split; [|done]. simpl. unfold mret, M_ret, emit.
      destruct w; simpl. by rewrite app_nil_r.
    - simpl. unfold mbind, M_bind. rewrite (backlight_run p m) by done.
      destruct (IH (emit w [Fprintf (value_file (num (backlight m)))
                              (if decide (state = BACKLIGHT_ON) then "1" else "0");
                            Fseek (value_file (num (backlight m)))]))
        as (new & -> & Hnew); [by apply pin_ready_emit|].
      eexists. split; [by rewrite emit_emit|].
      simpl. by rewrite Hnew. }
  intros w Hready. destruct (Hrun w Hready) as (new & Hcalls & Hnew).
  exists new. split; [done|]. split; [done|].
  assert (Hwritten : written (value_file (num (backlight m))) new =
            (fun state => if decide (state = BACKLIGHT_ON) then "1" else "0") <$> states).
  { rewrite written_file_writes, Hnew. clear.
    induction states as [|state rest IH]; [done|].
    cbn [fmap list_fmap omap list_omap fst snd]. rewrite String.eqb_refl. by f_equal. }
  unfold level. by rewrite written_app, Hwritten, last_app_fmap.
Qed.

(** ** More on one pin *)

(** What is known when a release returns. *)
Lemma close_gpio_pin_inv gpio n s t w' :
  world_ok (World n s t) ->
  close_gpio_pin gpio (World n s t) = Done tt w' ->
  fopen_ok n = true /\ fopen_ok (S n) = true
  /\ match fd gpio with
     | Some h => is_Some (s !! h)
     | None => True
     end
  /\ w' = World (S (S n))
                (match fd gpio with Some h => delete h s | None => s end)
                (t ++ release_events (num gpio)
                        (match fd gpio with Some h => s !! h | None => None end)).
Proof.
  intros Hok Hrun.
  assert (H0 : fopen_ok n = true).
  { destruct (fopen_ok n) eqn:H0; [done|]. exfalso. revert Hrun.
    unfold close_gpio_pin. cbv zeta. by rewrite bind_fopen_fail by done. }
  assert (Hfd : match fd gpio with Some h => is_Some (s !! h) | None => True end).
  { destruct (fd gpio) as [h|] eqn:Hfd; [|done].
    destruct (s !! h) as [file|] eqn:Hh; [by eexists|]. exfalso. revert Hrun.
    unfold close_gpio_pin. cbv zeta.
    rewrite bind_fopen_ok by done. cbv beta.
    erewrite bind_fprintf by apply lookup_insert_eq.
    erewrite bind_fclose by apply lookup_insert_eq.
    rewrite insert_then_delete by (eapply world_ok_fresh; [done|lia]).
    rewrite bind_when, Hfd. unfold mbind, M_bind, fclose. cbn [streams].
    by rewrite Hh. }
  assert (H1 : fopen_ok (S n) = true).
  { destruct (fopen_ok (S n)) eqn:H1; [done|]. exfalso. revert Hrun.
    unfold close_gpio_pin. cbv zeta.
    rewrite bind_fopen_ok by done. cbv beta.
    erewrite bind_fprintf by apply lookup_insert_eq.
    erewrite bind_fclose by apply lookup_insert_eq.
    rewrite insert_then_delete by (eapply world_ok_fresh; [done|lia]).
    rewrite bind_when.
    destruct (fd gpio) as [h|]; cbv iota.
    - destruct Hfd as [file Hh]. erewrite bind_fclose by done.
      by rewrite bind_fopen_fail by done.
    - by rewrite bind_fopen_fail by done. }
  split; [done|]. split; [done|]. split; [done|].
  rewrite (close_gpio_pin_run gpio
             (match fd gpio with Some h => s !! h | None => None end) n s t) in Hrun;
    [by injection Hrun as <-|done| |done|done].
  by destruct (fd gpio).
Qed.

(** X6: a release returns only when the direction file and the unexport file
    could both be opened and the handle of the pin, when it is not null, is
    an open stream; it has then made two calls of [fopen] and closed that
    stream and no other.  In every other case it hands a null or closed
    stream to stdio. *)
Theorem close_gpio_pin_returns gpio w :
  world_ok w ->
  (forall w', close_gpio_pin gpio w = Done tt w' ->
     fopen_ok (fopen_calls w) = true /\ fopen_ok (S (fopen_calls w)) = true
     /\ fopen_calls w' = S (S (fopen_calls w))
     /\ match fd gpio with
        | Some h => is_Some (streams w !! h) /\ streams w' = delete h (streams w)
        | None => streams w' = streams w
        end)
  /\ (fopen_ok (fopen_calls w) = false \/ fopen_ok (S (fopen_calls w)) = false
      \/ (exists h, fd gpio = Some h /\ streams w !! h = None) ->
      close_gpio_pin gpio w = Undefined).
Proof.
  destruct w as [n s t]. cbn [fopen_calls streams]. intros Hok.
  assert (Hinv : forall w', close_gpio_pin gpio (World n s t) = Done tt w' ->
     fopen_ok n = true /\ fopen_ok (S n) = true
     /\ fopen_calls w' = S (S n)
     /\ match fd gpio with
        | Some h => is_Some (s !! h) /\ streams w' = delete h s
        | None => streams w' = s
        end).
  { intros w' Hrun.
    destruct (close_gpio_pin_inv _ _ _ _ _ Hok Hrun) as (H0 & H1 & Hfd & ->).
    split; [done|]. split; [done|]. split; [done|]. by destruct (fd gpio). }
  split; [exact Hinv|].
  intros Hbad. destruct (close_gpio_pin gpio (World n s t)) as [[] w'|] eqn:Hrun; [|done].
  exfalso. destruct (Hinv w' eq_refl) as (H0 & H1 & _ & Hfd).
  destruct Hbad as [Hbad|[Hbad|(h & Hh & Hnone)]]; [congruence..|].
  rewrite Hh in Hfd. destruct Hfd as [[file Hfile] _]. congruence.
Qed.

(** X7: round trip of one pin: a set-up that finds the export file and the
    direction file, followed by a release that finds the direction file and
    the unexport file, leaves the open streams as they were, whether or not
    the value file could be opened; in between, the pin's number has been
    written to the export file, "low" and then "in" to the direction file,
    and the number to the unexport file. *)
Theorem setup_then_close drvthis gpio w :
  world_ok w ->
  (forall i, (i < 5)%nat -> i <> 2%nat -> fopen_ok (fopen_calls w + i)%nat = true) ->
  exists pin w1 w2,
    setup_gpio_pin drvthis gpio w = Done (0, pin) w1
    /\ close_gpio_pin pin w1 = Done tt w2
    /\ streams w2 = streams w
    /\ fopen_calls w2 = (fopen_calls w + 5)%nat
    /\ file_writes (trace w2) =
         file_writes (trace w)
         ++ [(export_file, pretty (num gpio) +:+ LF);
             (direction_file (num gpio), "low");
             (direction_file (num gpio), "in");
             (unexport_file, pretty (num gpio) +:+ LF)].
Proof.
  destruct w as [n s t]. cbn [fopen_calls streams trace]. intros Hok Hopen.
  pose proof (Hopen 0%nat ltac:(lia) ltac:(lia)) as H0.
  pose proof (Hopen 1%nat ltac:(lia) ltac:(lia)) as H1.
  pose proof (Hopen 3%nat ltac:(lia) ltac:(lia)) as H3.
  pose proof (Hopen 4%nat ltac:(lia) ltac:(lia)) as H4.
  replace (n + 0)%nat with n in H0 by lia. replace (n + 1)%nat with (S n) in H1 by lia.
  replace (n + 3)%nat with (S (S (S n))) in H3 by lia.
  replace (n + 4)%nat with (S (S (S (S n)))) in H4 by lia.
  rewrite setup_gpio_pin_cases by done. rewrite H0, H1. cbn [negb].
  assert (Hfresh : s !! S (S n) = None) by (eapply world_ok_fresh; [done|lia]).
  destruct (fopen_ok (S (S n))) eqn:H2.
  - eexists _, _, _. split; [reflexivity|].
    rewrite (close_gpio_pin_run _ (Some (value_file (num gpio))));
      [|by eapply world_ok_insert; [done|lia..]
       |cbn [fd set_fd]; split; [apply lookup_insert_eq|by eexists]|done|done].
    split; [reflexivity|]. cbn [fd set_fd num streams fopen_calls trace].
    split; [by apply insert_then_delete|]. split; [lia|].
    by rewrite !file_writes_app, <- app_assoc.
  - eexists _, _, _. split; [reflexivity|].
    rewrite (close_gpio_pin_run _ None);
      [|by eapply world_ok_grow; [done|lia]|done|done|done].
    split; [reflexivity|]. cbn [fd set_fd num streams fopen_calls trace].
    split; [done|]. split; [lia|].
    by rewrite !file_writes_app, <- app_assoc.
Qed.

(** ** More on initialization *)

Ltac norm_result :=
  cbv beta iota zeta delta
    [hd_init_gpio bound_map active_roles acquire_all failed_setup get_pin put_pin
     set_en set_en2 set_rs set_d7 set_d6 set_d5 set_d4 set_backlight set_num set_fd
     en en2 rs d7 d6 d5 d4 backlight num fd private_data name config_get_int
     pin_option bound_pin option_key default_pin role_label
     set_gpio_pinout set_backlight_bit set_functions
     gpio_pinout have_backlight numDisplays backlight_bit hd44780_functions
     fn_senddata fn_close fn_backlight foldl app mbind M_bind mret M_ret report log
     private_after table_after].

(** Initialization, when it got memory, in terms of the run of set-ups: the
    private data it leaves, and the calls that follow the set-ups. *)
Lemma hd_init_gpio_result drvthis m0 w :
  malloc_gpio_map = Some m0 ->
  match acquire_all drvthis (active_roles (private_data drvthis))
                    (bound_map drvthis m0) w with
  | Undefined => hd_init_gpio drvthis w = Undefined
  | Done (Some r, m) w' =>
      hd_init_gpio drvthis w =
        Done (-1, private_after drvthis (Some r) m)
             (emit w' [Report ("hd_init_gpio: Failed to set up GPIO "
                               +:+ pretty (num (get_pin m r))
                               +:+ " as " +:+ role_label r)])
  | Done (None, m) w' =>
      hd_init_gpio drvthis w =
        (lcdgpio_HD44780_senddata (private_after drvthis None m) 0 RS_INSTR 0x33;;
         uPause (private_after drvthis None m) 4100;;
         lcdgpio_HD44780_senddata (private_after drvthis None m) 0 RS_INSTR 0x32;;
         uPause (private_after drvthis None m) 150;;
         common_init (private_after drvthis None m) IF_4BIT;;
         mret (0, private_after drvthis None m)) w'
  end.
Proof.
  intros Hmalloc.
  destruct drvthis as [nm cfg [gp hb nd bb fns]].
  destruct m0 as [e e2 r p7 p6 p5 p4 b].
  destruct (truthy hb) eqn:Hb, (nd >? 1) eqn:Hn;
    norm_result; rewrite Hmalloc, ?Hb, ?Hn; norm_result;
    repeat match goal with
           | |- context [setup_gpio_pin ?d ?pin ?w0] =>
               destruct (setup_gpio_pin d pin w0) as [[? ?] ?|];
               norm_result; [|reflexivity]
           | |- context [if ?rc <? 0 then _ else _] =>
               destruct (rc <? 0); norm_result
           end;
    rewrite ?Hb; reflexivity.
Qed.

Lemma pauses_app a b : pauses (a ++ b) = pauses a ++ pauses b.
Proof. unfold pauses. apply omap_app. Qed.

(** A run of set-ups makes no delay. *)
Lemma acquire_all_pauses drvthis roles : forall m n s t res m' w',
  world_ok (World n s t) ->
  acquire_all drvthis roles m (World n s t) = Done (res, m') w' ->
  pauses (trace w') = pauses t.
Proof.
  induction roles as [|r rest IH]; intros m n s t res m' w' Hok Hrun.
  - by injection Hrun as <- <- <-.
  - simpl in Hrun. unfold mbind, M_bind in Hrun.
    rewrite setup_gpio_pin_cases in Hrun by done.
    destruct (fopen_ok n); simpl in Hrun.
    2:{ injection Hrun as <- <- <-. simpl. by rewrite pauses_app, app_nil_r. }
    destruct (fopen_ok (S n)); simpl in Hrun; [|done].
    destruct (fopen_ok (S (S n))); simpl in Hrun.
    + apply IH in Hrun; [|by eapply world_ok_insert; [done|lia..]].
      by rewrite Hrun, pauses_app, app_nil_r.
    + apply IH in Hrun; [|by eapply world_ok_grow; [done|lia]].
      by rewrite Hrun, pauses_app, app_nil_r.
Qed.

(** Every stream that a run of set-ups leaves open and that was not open
    before is the third of the three that one of the set-ups opened. *)
Lemma acquire_all_streams drvthis roles : forall m n s t res m' w',
  world_ok (World n s t) ->
  acquire_all drvthis roles m (World n s t) = Done (res, m') w' ->
  forall h, streams w' !! h = s !! h
            \/ exists i, (i < length roles)%nat /\ h = (n + 3 * i + 2)%nat
                         /\ fopen_ok h = true.
Proof.
  induction roles as [|r rest IH]; intros m n s t res m' w' Hok Hrun h.
  - injection Hrun as <- <- <-. by left.
  - simpl in Hrun. unfold mbind, M_bind in Hrun.
    rewrite setup_gpio_pin_cases in Hrun by done.
    destruct (fopen_ok n); simpl in Hrun.
    2:{ injection Hrun as <- <- <-. by left. }
    destruct (fopen_ok (S n)); simpl in Hrun; [|done].
    destruct (fopen_ok (S (S n))) eqn:H2; simpl in Hrun.
    + destruct (IH _ _ _ _ _ _ _ (world_ok_insert _ _ _ (S (S (S n))) _ (S (S n)) _ Hok
                                      ltac:(lia) ltac:(lia)) Hrun h)
        as [Hsame|(i & Hi & Hh & Hopen)].
      * destruct (decide (h = S (S n))) as [->|Hne].
        -- right. exists 0%nat. simpl. split; [lia|]. split; [lia|done].
        -- left. by rewrite Hsame, lookup_insert_ne.
      * right. exists (S i). simpl. split; [lia|]. split; [lia|done].
    + destruct (IH _ _ _ _ _ _ _ (world_ok_grow _ _ _ (S (S (S n))) _ Hok ltac:(lia)) Hrun h)
        as [Hsame|(i & Hi & Hh & Hopen)]; [by left|].
      right. exists (S i). simpl. split; [lia|]. split; [lia|done].
Qed.

Lemma hd_init_gpio_no_memory_run drvthis w :
  malloc_gpio_map = None ->
  hd_init_gpio drvthis w =
    Done (-1, set_gpio_pinout (private_data drvthis) None)
         (emit w [Report "hd_init_gpio: unable to allocate memory"]).
Proof. intros Hmalloc. unfold hd_init_gpio. by rewrite Hmalloc. Qed.

(** What is known when an initialization that got memory returns: how many
    set-ups went through, what they left, the private data, and the calls
    that followed them. *)
Lemma hd_init_gpio_inv drvthis m0 n s t rc p w :
  malloc_gpio_map = Some m0 ->
  world_ok (World n s t) ->
  hd_init_gpio drvthis (World n s t) = Done (rc, p) w ->
  exists k m s' new,
    let roles := active_roles (private_data drvthis) in
    acquired roles (bound_map drvthis m0) n s k m s' new
    /\ p = private_after drvthis (roles !! k) m
    /\ pauses new = []
    /\ (forall h, s' !! h = s !! h
                  \/ exists i, (i < length roles)%nat /\ h = (n + 3 * i + 2)%nat
                               /\ fopen_ok h = true)
    /\ (((k < length roles)%nat /\ rc = -1
         /\ exists msg, w = World (S (n + 3 * k)) s' ((t ++ new) ++ [Report msg]))
        \/ (k = length roles /\ rc = 0
            /\ Forall (pin_ready w) (touched_pins p m 0)
            /\ w = World (n + 3 * k) s' ((t ++ new) ++ bring_up_events p m))).
Proof.
  intros Hmalloc Hok Hrun.
  pose proof (hd_init_gpio_result drvthis m0 (World n s t) Hmalloc) as Hinit.
  set (roles := active_roles (private_data drvthis)) in *.
  destruct (acquire_all drvthis roles (bound_map drvthis m0) (World n s t))
    as [[res m] w1|] eqn:Hacq; [|by rewrite Hinit in Hrun].
  pose proof (acquire_all_pauses _ _ _ _ _ _ _ _ _ Hok Hacq) as Hpauses.
  pose proof (acquire_all_streams _ _ _ _ _ _ _ _ _ Hok Hacq) as Hstreams.
  destruct (acquire_all_inv _ _ _ _ _ _ _ _ _ Hok (active_roles_NoDup _) Hacq)
    as (k & s' & new & Hw1 & Hres & Hacq').
  fold roles in Hacq', Hres, Hw1.
  pose proof (acq_bound _ _ _ _ _ _ _ _ Hacq') as Hk.
  exists k, m, s', new. cbv zeta. fold roles.
  rewrite Hw1 in Hpauses, Hstreams. cbn [trace streams] in Hpauses, Hstreams.
  rewrite pauses_app in Hpauses.
  assert (Hquiet : pauses new = []).
  { apply (f_equal length) in Hpauses. rewrite length_app in Hpauses.
    destruct (pauses new); [done|simpl in Hpauses; lia]. }
  split; [done|].
  destruct res as [r|].
  - rewrite Hinit in Hrun. injection Hrun as <- <- <-.
    assert (k < length roles)%nat as Hlt.
    { apply lookup_lt_is_Some. rewrite <- Hres. by eexists. }
    split; [by rewrite <- Hres|]. split; [done|]. split; [done|].
    left. split; [done|]. split; [done|]. eexists.
    rewrite Hw1, decide_True by done. unfold emit. cbn [fopen_calls streams trace].
    f_equal. lia.
  - assert (k = length roles) as Hlen.
    { symmetry in Hres. apply lookup_ge_None in Hres. lia. }
    rewrite decide_False in Hw1 by lia. rewrite Nat.add_0_r in Hw1.
    rewrite Hinit in Hrun. rewrite <- Hres.
    set (p' := private_after drvthis None m) in *.
    assert (Hm : gpio_pinout p' = Some m) by done.
    assert (Hroles : active_roles p' = roles) by done.
    apply bind_done_inv in Hrun as ([] & wa & Hsend & Hrun).
    assert (Hready : Forall (pin_ready w1) (touched_pins p' m 0)).
    { pose proof (senddata_done_fd _ _ _ _ _ _ _ Hm Hsend) as Hfd.
      assert (Hall : Forall (fun pin => fd pin <> None -> pin_ready w1 pin)
                            (touched_pins p' m 0)).
      { apply touched_all_active. rewrite Hroles. intros r Hr Hfdr.
        apply list_elem_of_lookup in Hr as [i Hi].
        rewrite <- (take_ge roles k) in Hi by lia.
        destruct (acq_pins _ _ _ _ _ _ _ _ Hacq' i r Hi) as [[Hnone _]|(Hsome & _ & Hs)];
          [done|].
        unfold pin_ready, open_on. rewrite Hsome, Hw1. cbn [streams].
        by rewrite (acq_num _ _ _ _ _ _ _ _ Hacq'). }
      eapply Forall_impl; [apply Forall_and; split; [exact Hfd|exact Hall]|].
      intros pin [? Himp]. by apply Himp. }
    rewrite (senddata_run p' m) in Hsend by done. injection Hsend as <-.
    unfold uPause, common_init, log, mbind, M_bind in Hrun. cbv beta iota in Hrun.
    rewrite (senddata_run p' m) in Hrun
      by first [done | eapply Forall_impl; [exact Hready|];
                       intros pin Hpin; by repeat apply pin_ready_emit].
    cbv beta iota in Hrun. rewrite !emit_emit in Hrun.
    match type of Hrun with
    | mret _ (emit _ ?calls) = _ => set (rest := calls) in *
    end.
    assert (Hrest : rest = bring_up_events p' m).
    { done. }
    clearbody rest. unfold mret, M_ret in Hrun. injection Hrun as <- <- <-.
    split; [done|]. split; [done|]. split; [done|].
    right. split; [done|]. split; [done|].
    split.
    + eapply Forall_impl; [exact Hready|]. intros pin Hpin. by apply pin_ready_emit.
    + by rewrite Hw1, Hrest.
Qed.


Lemma hd_init_gpio_got_memory drvthis w p w' :
  hd_init_gpio drvthis w = Done (0, p) w' -> exists m0, malloc_gpio_map = Some m0.
Proof.
  intros Hrun. destruct (option_cases malloc_gpio_map) as [Hmalloc|[m0 Hmalloc]].
  - by apply (hd_init_gpio_no_memory _ _ _ _ _ Hmalloc) in Hrun.
  - by exists m0.
Qed.

(** The pins of a transmission to all controllers are the pins of the
    active roles other than the backlight. *)
Lemma active_touched p m r :
  r ∈ active_roles p -> r <> BL -> get_pin m r ∈ touched_pins p m 0.
Proof.
  unfold active_roles, touched_pins. intros Hr Hbl.
  rewrite (decide_True (P := targets_first 0)) by (by right).
  assert (Hin : r ∈ [EN; RS; D7; D6; D5; D4]
                \/ (r = EN2 /\ (numDisplays p >? 1) = true)).
  { destruct (truthy (have_backlight p)), (numDisplays p >? 1);
      apply list_elem_of_In in Hr; simpl in Hr;
      destruct r; try tauto; try (left; apply list_elem_of_In; simpl; tauto);
      intuition discriminate. }
  destruct Hin as [Hin|[-> Hnd]].
  - apply list_elem_of_In in Hin. apply list_elem_of_In. simpl in *.
    destruct r; intuition (try discriminate; auto 12).
  - rewrite (decide_True (P := targets_second p 0)).
    + apply list_elem_of_In. simpl. auto 12.
    + right. split; [|done]. rewrite Z.gtb_ltb in Hnd. apply Z.ltb_lt in Hnd. lia.
Qed.

(** The pins of a transmission to one controller that exists are among
    those of a transmission to all. *)
Lemma touched_sub p m displayID w :
  displayID = 0 \/ displayID = 1 \/ (displayID = 2 /\ numDisplays p > 1) ->
  Forall (pin_ready w) (touched_pins p m 0) ->
  Forall (pin_ready w) (touched_pins p m displayID).
Proof.
  intros Hd Hready.
  destruct (touched_rs_data _ _ _ _ Hready) as (Hrs & H7 & H6 & H5 & H4).
  pose proof (touched_en _ _ _ _ Hready) as Hen.
  pose proof (touched_en2 _ _ _ _ Hready) as Hen2.
  unfold touched_pins. apply Forall_app. split; [|apply Forall_app; split].
  - by repeat apply Forall_cons_2.
  - destruct (decide (targets_first displayID)); [|done].
    apply Forall_cons_2; [|done]. apply Hen. by right.
  - destruct (decide (targets_second p displayID)) as [Hs|]; [|done].
    apply Forall_cons_2; [|done]. apply Hen2. right. split; [|done].
    unfold targets_second in Hs. lia.
Qed.

(** X8: after an initialization that returned 0, whatever [fopen] answered
    on the way: every pin of an active role carries the number that the
    configuration binds to the role, and every one of them other than the
    backlight pin is ready; so a transmission to all controllers, to the
    first, or to the second when there are two, returns. *)
Theorem hd_init_gpio_ready drvthis w0 p w :
  world_ok w0 ->
  hd_init_gpio drvthis w0 = Done (0, p) w ->
  exists m,
    gpio_pinout p = Some m
    /\ Forall (fun r => num (get_pin m r) = bound_pin drvthis r
                        /\ (r <> BL -> pin_ready w (get_pin m r)))
              (active_roles p)
    /\ forall displayID flags ch,
         displayID = 0 \/ displayID = 1 \/ (displayID = 2 /\ numDisplays p > 1) ->
         exists new,
           lcdgpio_HD44780_senddata p displayID flags ch w = Done tt (emit w new).
Proof.
  destruct w0 as [n s t]. intros Hok Hrun.
  destruct (hd_init_gpio_got_memory _ _ _ _ Hrun) as [m0 Hmalloc].
  destruct (hd_init_gpio_inv _ _ _ _ _ _ _ _ Hmalloc Hok Hrun)
    as (k & m & s' & new & Hacq & Hp & _ & _ & [(_ & ? & _)|(Hk & _ & Hready & Hw)]);
    [done|].
  assert (Hm : gpio_pinout p = Some m) by by rewrite Hp.
  assert (Hroles : active_roles p = active_roles (private_data drvthis)) by by rewrite Hp.
  exists m. split; [done|]. split.
  - apply Forall_forall. intros r Hr. split.
    + rewrite (acq_num _ _ _ _ _ _ _ _ Hacq). apply bound_map_num. by rewrite <- Hroles.
    + intros Hbl. revert Hready. rewrite Forall_forall. intros Hready.
      by apply Hready, active_touched.
  - intros displayID flags ch Hd. eexists.
    apply senddata_run; [done|]. by apply touched_sub.
Qed.

(** The delays and the writes of the bring-up of the display, step by
    step: steps 1 to 8 are the first transmission, step 9 is what comes
    between its last delay and the delay of 4100 microseconds, steps 10 to
    17 are the second transmission, step 18 is what comes between its last
    delay and the delay of 150 microseconds, step 19 is what comes after
    that. *)
Lemma bring_up_events_writes p m :
  let rest := bring_up_events p m in
  let rs_low := (value_file (num (rs m)), "0") in
  let clear := data_writes m false false false false in
  let three := data_writes m false false true true in
  let two := data_writes m false false true false in
  let raise := (fun pin => (value_file (num pin), "1")) <$> touched_enables p m 0 in
  let lower := (fun pin => (value_file (num pin), "0")) <$> touched_enables p m 0 in
  pauses rest = replicate 8 50 ++ [4100] ++ replicate 8 50 ++ [150]
  /\ last rest = Some (CommonInit IF_4BIT)
  /\ head rest = Some (Fprintf (value_file (num (rs m))) "0")
  /\ (fun k => file_writes (step k rest)) <$> seq 1 19 =
       [rs_low :: clear; three; raise; lower; clear; three; raise; lower; [];
        rs_low :: clear; three; raise; lower; clear; two; raise; lower; []; []].
Proof.
  cbv zeta. unfold bring_up_events, senddata_events, pin_write, touched_enables, data_writes.
  rewrite Z.eqb_refl.
  rewrite (decide_True (P := targets_first 0)) by (by right).
  destruct (decide (targets_second p 0)); repeat split; reflexivity.
Qed.

(** X9: an initialization that returns 0 ends with the bring-up of the
    display in 4-bit mode.  After the set-ups, which make no delay, it
    sends two bytes, each in eight steps: Register-Select is written low and
    the four data lines are cleared; the nibble goes on D7..D4; every
    enable line of the configuration is written high; every one is written
    low; the data lines are cleared; the second nibble goes on D7..D4; the
    enable lines are written high, and then low.  The four nibbles are 3, 3,
    3 and 2, and nothing else is written.  The delays are eight of 50
    microseconds, one of 4100, eight of 50 and one of 150; the last call is
    [common_init] with [IF_4BIT]. *)
Theorem hd_init_gpio_bring_up drvthis w0 p w :
  world_ok w0 ->
  hd_init_gpio drvthis w0 = Done (0, p) w ->
  exists m started rest,
    gpio_pinout p = Some m
    /\ trace w = trace w0 ++ started ++ rest
    /\ pauses started = []
    /\ pauses rest = replicate 8 50 ++ [4100] ++ replicate 8 50 ++ [150]
    /\ last rest = Some (CommonInit IF_4BIT)
    /\ head rest = Some (Fprintf (value_file (num (rs m))) "0")
    /\ let rs_low := (value_file (num (rs m)), "0") in
       let clear := data_writes m false false false false in
       let three := data_writes m false false true true in
       let two := data_writes m false false true false in
       let raise := (fun pin => (value_file (num pin), "1")) <$> touched_enables p m 0 in
       let lower := (fun pin => (value_file (num pin), "0")) <$> touched_enables p m 0 in
       (fun k => file_writes (step k rest)) <$> seq 1 19 =
         [rs_low :: clear; three; raise; lower; clear; three; raise; lower; [];
          rs_low :: clear; three; raise; lower; clear; two; raise; lower; []; []].
Proof.
  destruct w0 as [n s t]. intros Hok Hrun.
  destruct (hd_init_gpio_got_memory _ _ _ _ Hrun) as [m0 Hmalloc].
  destruct (hd_init_gpio_inv _ _ _ _ _ _ _ _ Hmalloc Hok Hrun)
    as (k & m & s' & new & Hacq & Hp & Hquiet & _ & [(_ & ? & _)|(Hk & _ & Hready & Hw)]);
    [done|].
  destruct (bring_up_events_writes p m) as (Hpauses & Hlast & Hhead & Hsteps).
  exists m, new, (bring_up_events p m).
  split; [by rewrite Hp|]. split; [rewrite Hw; cbn [trace]; by rewrite app_assoc|].
  split; [done|]. split; [done|]. split; [done|]. split; [done|].
  exact Hsteps.
Qed.

(** X10: which entries of the function table an initialization has assigned
    when it returns: all of them when it returns 0, the backlight entry only
    if a backlight is configured; none when it fails before six pins are
    exported; the transmit and close entries, and the backlight entry if the
    backlight pin was set up, when it fails at a later pin. *)
Theorem hd_init_gpio_hooks drvthis w0 rc p w :
  world_ok w0 ->
  hd_init_gpio drvthis w0 = Done (rc, p) w ->
  exists new,
    trace w = trace w0 ++ new
    /\ (rc = 0 \/ rc = -1)
    /\ (rc = 0 ->
        hd44780_functions p =
          Build_functions Fn_lcdgpio_senddata Fn_lcdgpio_close
            (if truthy (have_backlight (private_data drvthis))
             then Fn_lcdgpio_backlight
             else fn_backlight (hd44780_functions (private_data drvthis))))
    /\ (rc = -1 ->
        hd44780_functions p =
          if (length (written export_file new) <? 6)%nat
          then hd44780_functions (private_data drvthis)
          else Build_functions Fn_lcdgpio_senddata Fn_lcdgpio_close
                 (if truthy (have_backlight (private_data drvthis))
                     && (6 <? length (written export_file new))%nat
                  then Fn_lcdgpio_backlight
                  else fn_backlight (hd44780_functions (private_data drvthis)))).
Proof.
  destruct w0 as [n s t]. intros Hok Hrun.
  destruct (option_cases malloc_gpio_map) as [Hmalloc|[m0 Hmalloc]].
  { rewrite (hd_init_gpio_no_memory_run _ _ Hmalloc) in Hrun. injection Hrun as <- <- <-.
    eexists. split; [reflexivity|]. split; [by right|]. split; [done|]. by intros _. }
  destruct (hd_init_gpio_inv _ _ _ _ _ _ _ _ Hmalloc Hok Hrun)
    as (k & m & s' & new & Hacq & Hp & _ & _
        & [(Hk & -> & msg & ->)|(Hk & -> & _ & ->)]).
  - exists (new ++ [Report msg]). split; [cbn [trace]; by rewrite app_assoc|].
    split; [by right|]. split; [done|]. intros _.
    rewrite written_app, (acq_export _ _ _ _ _ _ _ _ Hacq). cbn [written flat_map].
    rewrite app_nil_r, length_fmap, length_take_le by lia.
    rewrite Hp. cbn [hd44780_functions private_after]. revert Hk.
    unfold table_after, active_roles.
    destruct (truthy (have_backlight (private_data drvthis))),
             (numDisplays (private_data drvthis) >? 1);
      do 8 (try destruct k as [|k]); simpl; intros Hk; first [done|lia].
  - eexists. split; [cbn [trace]; by rewrite <- app_assoc|].
    split; [by left|]. split; [|done]. intros _.
    rewrite Hp, (lookup_ge_None_2 _ k) by lia. done.
Qed.

Lemma backlight_calls_out_of_range p states w :
  ~ (backlight_bit p > -1 /\ backlight_bit p < 32) ->
  backlight_calls p states w = Done tt w.
Proof.
  intros Hout. induction states as [|state rest IH]; [done|].
  simpl. unfold mbind, M_bind, lcdgpio_HD44780_backlight.
  assert ((backlight_bit p >? -1) && (backlight_bit p <? 32) = false) as ->.
  { rewrite Z.gtb_ltb. apply andb_false_iff.
    destruct (Z.ltb_spec (-1) (backlight_bit p)),
             (Z.ltb_spec (backlight_bit p) 32); auto; lia. }
  simpl. apply IH.
Qed.

Lemma bl_active p : have_backlight p <> 0 -> BL ∈ active_roles p.
Proof.
  intros Hbl. unfold active_roles, truthy.
  destruct (Z.eqb_spec (have_backlight p) 0); [done|]. simpl.
  apply list_elem_of_In. simpl. auto 12.
Qed.

(** X11: with a backlight configured, an initialization that returns 0 has
    bound the backlight to the number that the configuration gives for
    pin_BL, whatever that number is: the number is stored as the backlight
    number and in the backlight pin, it has been written to the export file,
    and the backlight entry of the function table is assigned.  When the
    number is outside 0..31 every run of backlight calls then returns
    without a call to the outside. *)
Theorem hd_init_gpio_backlight_number drvthis w0 p w :
  world_ok w0 ->
  hd_init_gpio drvthis w0 = Done (0, p) w ->
  have_backlight (private_data drvthis) <> 0 ->
  exists m new,
    gpio_pinout p = Some m
    /\ trace w = trace w0 ++ new
    /\ backlight_bit p = bound_pin drvthis BL
    /\ num (backlight m) = bound_pin drvthis BL
    /\ pretty (bound_pin drvthis BL) +:+ LF ∈ written export_file new
    /\ fn_backlight (hd44780_functions p) = Fn_lcdgpio_backlight
    /\ (~ (bound_pin drvthis BL > -1 /\ bound_pin drvthis BL < 32) ->
        forall states, backlight_calls p states w = Done tt w).
Proof.
  destruct w0 as [n s t]. intros Hok Hrun Hbl.
  destruct (hd_init_gpio_got_memory _ _ _ _ Hrun) as [m0 Hmalloc].
  destruct (hd_init_gpio_inv _ _ _ _ _ _ _ _ Hmalloc Hok Hrun)
    as (k & m & s' & new & Hacq & Hp & _ & _ & [(_ & ? & _)|(Hk & _ & _ & Hw)]);
    [done|].
  assert (Hlit : truthy (have_backlight (private_data drvthis)) = true).
  { unfold truthy. by destruct (Z.eqb_spec (have_backlight (private_data drvthis)) 0). }
  assert (Hbit : backlight_bit p = bound_pin drvthis BL).
  { rewrite Hp. cbn [backlight_bit private_after]. by rewrite Hlit. }
  pose proof (bl_active _ Hbl) as Hactive.
  exists m, (new ++ bring_up_events p m).
  split; [by rewrite Hp|]. split; [rewrite Hw; cbn [trace]; by rewrite app_assoc|].
  split; [done|]. split.
  { change (backlight m) with (get_pin m BL).
    rewrite (acq_num _ _ _ _ _ _ _ _ Hacq). by apply bound_map_num. }
  split.
  { rewrite written_app, (acq_export _ _ _ _ _ _ _ _ Hacq), take_ge by lia.
    apply elem_of_app. left. apply list_elem_of_fmap. exists BL. split; [|done].
    by rewrite bound_map_num. }
  split.
  { rewrite Hp, (lookup_ge_None_2 _ k) by lia.
    cbn [hd44780_functions private_after table_after fn_backlight]. by rewrite Hlit. }
  intros Hout states. apply backlight_calls_out_of_range. by rewrite Hbit.
Qed.

Lemma bound_map_unused drvthis m0 r :
  r ∉ active_roles (private_data drvthis) ->
  get_pin (bound_map drvthis m0) r = get_pin m0 r.
Proof.
  unfold active_roles, bound_map.
  destruct (truthy (have_backlight (private_data drvthis))),
           (numDisplays (private_data drvthis) >? 1);
    intros Hr; destruct r; try done;
    exfalso; apply Hr, list_elem_of_In; simpl; auto 12.
Qed.

(** X12: an initialization that returns 0 leaves the pin of every role that
    the configuration does not use exactly as [malloc] gave it: EN2 with one
    controller, the backlight pin with no backlight.  A transmission to the
    second controller writes EN2 all the same; with one controller and a
    null handle in that part of the block it hands the null stream to
    [fprintf]. *)
Theorem hd_init_gpio_unused_pins drvthis m0 w0 p w :
  malloc_gpio_map = Some m0 ->
  world_ok w0 ->
  hd_init_gpio drvthis w0 = Done (0, p) w ->
  exists m,
    gpio_pinout p = Some m
    /\ (forall r, r ∉ active_roles p -> get_pin m r = get_pin m0 r)
    /\ (numDisplays p <= 1 -> fd (en2 m0) = None ->
        forall flags ch w1, lcdgpio_HD44780_senddata p 2 flags ch w1 = Undefined).
Proof.
  destruct w0 as [n s t]. intros Hmalloc Hok Hrun.
  destruct (hd_init_gpio_inv _ _ _ _ _ _ _ _ Hmalloc Hok Hrun)
    as (k & m & s' & new & Hacq & Hp & _ & _ & [(_ & ? & _)|(Hk & _ & _ & Hw)]);
    [done|].
  assert (Hm : gpio_pinout p = Some m) by by rewrite Hp.
  assert (Hroles : active_roles p = active_roles (private_data drvthis)) by by rewrite Hp.
  assert (Hrest : forall r, r ∉ active_roles p -> get_pin m r = get_pin m0 r).
  { intros r Hr. rewrite Hroles in Hr.
    rewrite (acq_rest _ _ _ _ _ _ _ _ Hacq), bound_map_unused; [done|done|].
    intros Hin. by apply Hr, (elem_take_elem _ k). }
  exists m. split; [done|]. split; [done|].
  intros Hnd Hfd flags ch w1.
  destruct (lcdgpio_HD44780_senddata p 2 flags ch w1) as [[] w2|] eqn:Hsend; [|done].
  exfalso. apply (senddata_done_fd _ _ _ _ _ _ _ Hm) in Hsend.
  unfold touched_pins in Hsend.
  rewrite (decide_True (P := targets_second p 2)) in Hsend by (by left).
  rewrite !Forall_app in Hsend. destruct Hsend as (_ & _ & Hen2).
  apply Forall_cons in Hen2 as [Hen2 _]. apply Hen2.
  change (en2 m) with (get_pin m EN2). rewrite Hrest; [done|].
  unfold active_roles.
  assert ((numDisplays p >? 1) = false) as ->.
  { rewrite Z.gtb_ltb. apply Z.ltb_ge. lia. }
  destruct (truthy (have_backlight p)); simpl; intros Hin;
    apply list_elem_of_In in Hin; simpl in Hin; intuition discriminate.
Qed.


(** ** More on shutdown *)

(** A run of releases leaves alone every stream that none of the pins
    holds. *)
Lemma release_all_frame pins : forall n s t w',
  world_ok (World n s t) ->
  release_all pins (World n s t) = Done tt w' ->
  forall h, Forall (fun pin => fd pin <> Some h) pins -> streams w' !! h = s !! h.
Proof.
  induction pins as [|pin rest IH]; intros n s t w' Hok Hrun h Hh.
  - by injection Hrun as <-.
  - apply Forall_cons in Hh as [Hpin Hrest].
    simpl in Hrun. apply bind_done_inv in Hrun as ([] & w1 & Hclose & Hrun).
    destruct (close_gpio_pin_inv _ _ _ _ _ Hok Hclose) as (_ & _ & _ & ->).
    erewrite IH; [| |exact Hrun|exact Hrest].
    + destruct (fd pin) as [h0|]; [|done].
      rewrite lookup_delete_ne; [done|congruence].
    + intros h' Hh'. cbn [streams fopen_calls] in *.
      cut (h' < n)%nat; [lia|]. apply (Hok h'). cbn [streams].
      destruct (fd pin); [|done]. apply lookup_delete_is_Some in Hh'. tauto.
Qed.

(** X13: round trip of the whole driver: after an initialization that
    returned 0, a shutdown that can open its files returns and leaves
    exactly the streams that were open before the initialization; the two
    together have called [fopen] five times for each pin of the
    configuration. *)
Theorem init_then_close_streams drvthis w0 p w :
  world_ok w0 ->
  hd_init_gpio drvthis w0 = Done (0, p) w ->
  (forall i, (i < 2 * length (active_roles p))%nat ->
             fopen_ok (fopen_calls w + i)%nat = true) ->
  exists w',
    lcdgpio_HD44780_close p w = Done (set_gpio_pinout p None) w'
    /\ streams w' = streams w0
    /\ fopen_calls w' = (fopen_calls w0 + 5 * length (active_roles p))%nat.
Proof.
  destruct w0 as [n s t]. intros Hok Hrun Hopen.
  destruct (hd_init_gpio_got_memory _ _ _ _ Hrun) as [m0 Hmalloc].
  destruct (hd_init_gpio_inv _ _ _ _ _ _ _ _ Hmalloc Hok Hrun)
    as (k & m & s' & new & Hacq & Hp & _ & Hstreams
        & [(_ & ? & _)|(Hk & _ & _ & Hw)]); [done|].
  assert (Hm : gpio_pinout p = Some m) by by rewrite Hp.
  assert (Hroles : active_roles p = active_roles (private_data drvthis)) by by rewrite Hp.
  rewrite Hroles in *. set (roles := active_roles (private_data drvthis)) in *.
  subst w. cbn [fopen_calls streams trace] in *.
  assert (Hpins : forall i r, roles !! i = Some r ->
            (fd (get_pin m r) = None /\ fopen_ok (n + 3 * i + 2)%nat = false)
            \/ (fd (get_pin m r) = Some (n + 3 * i + 2)%nat
                /\ is_Some (s' !! (n + 3 * i + 2)%nat))).
  { intros i r Hi. rewrite <- (take_ge roles k) in Hi by lia.
    destruct (acq_pins _ _ _ _ _ _ _ _ Hacq i r Hi) as [[? ?]|(? & _ & ?)]; eauto. }
  assert (Hok' : world_ok (World (n + 3 * k) s' ((t ++ new) ++ bring_up_events p m))).
  { intros h Hh. cbn [streams fopen_calls] in *.
    destruct (decide (h < n + 3 * k)%nat) as [|Hge]; [done|].
    rewrite (acq_fresh _ _ _ _ _ _ _ _ Hacq) in Hh by lia.
    apply Hok in Hh. simpl in Hh. lia. }
  assert (Hpins' : active_pins p m = get_pin m <$> roles).
  { unfold active_pins. by rewrite Hroles. }
  destruct (release_all_run (active_pins p m) _ _ _ Hok')
    as (s'' & released & Hrel & _ & Hclosed & _).
  - rewrite Hpins', length_fmap. exact Hopen.
  - rewrite Hpins'. apply Forall_fmap, Forall_lookup.
    intros i r Hi h Hh. simpl.
    destruct (Hpins i r Hi) as [[Hnone _]|[Hsome ?]]; [congruence|].
    rewrite Hh in Hsome. by injection Hsome as ->.
  - rewrite Hpins'. intros i j a b h Ha Hb Hfa Hfb.
    apply list_lookup_fmap_Some in Ha as (ra & -> & Hra).
    apply list_lookup_fmap_Some in Hb as (rb & -> & Hrb).
    destruct (Hpins i ra Hra) as [[? _]|[Hsa _]]; [congruence|].
    destruct (Hpins j rb Hrb) as [[? _]|[Hsb _]]; [congruence|].
    rewrite Hfa in Hsa. rewrite Hfb in Hsb.
    injection Hsa as ->. injection Hsb as Heq. lia.
  - eexists. split; [by rewrite (close_as_release p m), Hrel|].
    cbn [streams fopen_calls]. split; [|rewrite Hpins', length_fmap; lia].
    apply map_eq. intros h.
    assert (Hheld : forall pin, pin ∈ active_pins p m -> fd pin = Some h ->
                      s'' !! h = s !! h).
    { intros pin Hpin Hfd.
      rewrite (proj1 (Forall_forall _ _) Hclosed pin Hpin h Hfd).
      rewrite Hpins' in Hpin. apply list_elem_of_fmap in Hpin as (r & -> & Hr).
      apply list_elem_of_lookup in Hr as [i Hi].
      destruct (Hpins i r Hi) as [[? _]|[Hsome _]]; [congruence|].
      rewrite Hfd in Hsome. injection Hsome as ->.
      symmetry. eapply world_ok_fresh; [exact Hok|lia]. }
    destruct (decide (Exists (fun pin => fd pin = Some h) (active_pins p m)))
      as [Hex|Hnone].
    + apply Exists_exists in Hex as (pin & Hpin & Hfd). by eapply Hheld.
    + destruct (Hstreams h) as [Hsame|(i & Hi & -> & Hopened)].
      * rewrite <- Hsame.
        apply (release_all_frame _ _ _ _ _ Hok' Hrel).
        apply Forall_forall. intros pin Hpin Hfd. apply Hnone, Exists_exists. eauto.
      * destruct (lookup_lt_is_Some_2 roles i Hi) as [r Hr].
        destruct (Hpins i r Hr) as [[_ Hno]|[Hsome _]]; [congruence|].
        eapply Hheld; [|exact Hsome].
        rewrite Hpins'. apply list_elem_of_fmap. exists r. split; [done|].
        by eapply list_elem_of_lookup_2.
Qed.

(** X14: the map pointer is null after an initialization exactly when
    [malloc] gave no memory: an initialization that fails at a pin leaves
    the block attached to the private data.  With no memory it returns -1
    after one report and nothing else: no file is opened, the function table
    and the backlight number are as they were, and a shutdown or a
    transmission on this private data follows the null pointer. *)
Theorem hd_init_gpio_out_of_memory drvthis w rc p w' :
  world_ok w ->
  hd_init_gpio drvthis w = Done (rc, p) w' ->
  (gpio_pinout p = None <-> malloc_gpio_map = None)
  /\ (malloc_gpio_map = None ->
      rc = -1
      /\ w' = emit w [Report "hd_init_gpio: unable to allocate memory"]
      /\ hd44780_functions p = hd44780_functions (private_data drvthis)
      /\ backlight_bit p = backlight_bit (private_data drvthis)
      /\ (forall w1, lcdgpio_HD44780_close p w1 = Undefined)
      /\ (forall displayID flags ch w1,
            lcdgpio_HD44780_senddata p displayID flags ch w1 = Undefined)).
Proof.
  destruct w as [n s t]. intros Hok Hrun.
  destruct (option_cases malloc_gpio_map) as [Hmalloc|[m0 Hmalloc]].
  - rewrite (hd_init_gpio_no_memory_run _ _ Hmalloc) in Hrun.
    injection Hrun as <- <- <-. split; [done|]. intros _. repeat split.
  - destruct (hd_init_gpio_inv _ _ _ _ _ _ _ _ Hmalloc Hok Hrun)
      as (k & m & s' & new & _ & -> & _).
    rewrite Hmalloc. split; [done|]. intros [=].
Qed.

(** X15: a shutdown that returns has cleared the map pointer and changed
    nothing else in the private data, the function table included.  Whatever
    is then called on this private data follows the null pointer: a second
    shutdown, a transmission, and a backlight call with the backlight number
    in range. *)
Theorem close_then_use p w p' w' :
  lcdgpio_HD44780_close p w = Done p' w' ->
  p' = set_gpio_pinout p None
  /\ hd44780_functions p' = hd44780_functions p
  /\ (forall w1, lcdgpio_HD44780_close p' w1 = Undefined)
  /\ (forall displayID flags ch w1,
        lcdgpio_HD44780_senddata p' displayID flags ch w1 = Undefined)
  /\ (forall state w1,
        backlight_bit p > -1 -> backlight_bit p < 32 ->
        lcdgpio_HD44780_backlight p' state w1 = Undefined).
Proof.
  intros Hrun.
  assert (Hp' : p' = set_gpio_pinout p None).
  { destruct (gpio_pinout p) as [m|] eqn:Hm.
    - rewrite (close_as_release p m w Hm) in Hrun.
      destruct (release_all (active_pins p m) w) as [[] w1|]; [|done].
      by injection Hrun as <- _.
    - unfold lcdgpio_HD44780_close in Hrun. by rewrite Hm in Hrun. }
  subst p'. repeat split.
  intros state w1 Hlo Hhi. unfold lcdgpio_HD44780_backlight.
  cbn [backlight_bit set_gpio_pinout gpio_pinout].
  assert ((backlight_bit p >? -1) && (backlight_bit p <? 32) = true) as ->.
  { rewrite Z.gtb_ltb. apply andb_true_iff. split; apply Z.ltb_lt; lia. }
  done.
Qed.


(** ** A value file that cannot be opened *)

(** A run of set-ups in which every export file and every direction file
    can be opened goes through all the roles, whatever happens to the value
    files. *)
Lemma acquire_all_through drvthis roles : forall m n s t,
  world_ok (World n s t) ->
  (forall i, (i < length roles)%nat ->
     fopen_ok (n + 3 * i)%nat = true /\ fopen_ok (n + 3 * i + 1)%nat = true) ->
  exists m' w', acquire_all drvthis roles m (World n s t) = Done (None, m') w'.
Proof.
  induction roles as [|r rest IH]; intros m n s t Hok Hopen.
  - by eexists _, _.
  - simpl. unfold mbind, M_bind. rewrite setup_gpio_pin_cases by done.
    destruct (Hopen 0%nat ltac:(simpl; lia)) as [H0 H1].
    replace (n + 3 * 0)%nat with n in H0 by lia.
    replace (n + 3 * 0 + 1)%nat with (S n) in H1 by lia.
    rewrite H0, H1. cbn [negb].
    assert (Hrest : forall i, (i < length rest)%nat ->
              fopen_ok (S (S (S n)) + 3 * i)%nat = true
              /\ fopen_ok (S (S (S n)) + 3 * i + 1)%nat = true).
    { intros i Hi. destruct (Hopen (S i) ltac:(simpl; lia)) as [Ha Hb].
      replace (S (S (S n)) + 3 * i)%nat with (n + 3 * S i)%nat by lia.
      replace (S (S (S n)) + 3 * i + 1)%nat with (n + 3 * S i + 1)%nat by lia. done. }
    destruct (fopen_ok (S (S n))); cbn [negb]; cbv beta iota.
    + apply IH; [by eapply world_ok_insert; [done|lia..]|done].
    + apply IH; [by eapply world_ok_grow; [done|lia]|done].
Qed.

Lemma touched_roles p m :
  touched_pins p m 0 =
    get_pin m <$> ([RS; D7; D6; D5; D4; EN] ++ if numDisplays p >? 1 then [EN2] else []).
Proof.
  unfold touched_pins. rewrite (decide_True (P := targets_first 0)) by (by right).
  rewrite Z.gtb_ltb.
  destruct (Z.ltb_spec 1 (numDisplays p)).
  - rewrite (decide_True (P := targets_second p 0)); [done|]. right. split; [lia|done].
  - rewrite (decide_False (P := targets_second p 0)); [done|].
    unfold targets_second. lia.
Qed.

(** X16: the set-up of the backlight pin reports success when the value file
    cannot be opened, and nothing in the bring-up writes that pin.  So with
    a backlight configured, when the value file of the backlight pin is the
    one file that cannot be opened, initialization returns 0 with the
    backlight entry of the function table assigned and a null handle in the
    backlight pin, and every backlight call with the number in range then
    hands the null stream to [fprintf]. *)
Theorem hd_init_gpio_backlight_unopened drvthis m0 w0 :
  malloc_gpio_map = Some m0 ->
  world_ok w0 ->
  have_backlight (private_data drvthis) <> 0 ->
  (forall i, (i < 3 * length (active_roles (private_data drvthis)))%nat ->
     fopen_ok (fopen_calls w0 + i)%nat = negb (i =? 20)%nat) ->
  exists p m w,
    hd_init_gpio drvthis w0 = Done (0, p) w
    /\ gpio_pinout p = Some m
    /\ num (backlight m) = bound_pin drvthis BL
    /\ fd (backlight m) = None
    /\ fn_backlight (hd44780_functions p) = Fn_lcdgpio_backlight
    /\ (bound_pin drvthis BL > -1 -> bound_pin drvthis BL < 32 ->
        forall state w1, lcdgpio_HD44780_backlight p state w1 = Undefined).
Proof.
  destruct w0 as [n s t]. cbn [fopen_calls]. intros Hmalloc Hok Hbl Hopen.
  assert (Hlit : truthy (have_backlight (private_data drvthis)) = true).
  { unfold truthy. by destruct (Z.eqb_spec (have_backlight (private_data drvthis)) 0). }
  set (roles := active_roles (private_data drvthis)) in *.
  assert (Hsix : roles !! 6%nat = Some BL).
  { subst roles. unfold active_roles. by rewrite Hlit. }
  destruct (acquire_all_through drvthis roles (bound_map drvthis m0) n s t Hok)
    as (m & w1 & Hacq).
  { intros i Hi. split.
    - rewrite Hopen by lia. destruct (Nat.eqb_spec (3 * i) 20); [lia|done].
    - replace (n + 3 * i + 1)%nat with (n + (3 * i + 1))%nat by lia.
      rewrite Hopen by lia. destruct (Nat.eqb_spec (3 * i + 1) 20); [lia|done]. }
  pose proof (hd_init_gpio_result drvthis m0 (World n s t) Hmalloc) as Hinit.
  fold roles in Hinit. rewrite Hacq in Hinit.
  destruct (acquire_all_inv _ _ _ _ _ _ _ _ _ Hok (active_roles_NoDup _) Hacq)
    as (k & s' & new & Hw1 & Hres & Hacq').
  fold roles in Hacq', Hres, Hw1.
  pose proof (acq_bound _ _ _ _ _ _ _ _ Hacq') as Hk.
  assert (k = length roles) as Hlen.
  { symmetry in Hres. apply lookup_ge_None in Hres. lia. }
  set (p' := private_after drvthis None m) in *.
  assert (Hvalue : forall i r, roles !! i = Some r ->
            fopen_ok (n + 3 * i + 2)%nat = negb (i =? 6)%nat).
  { intros i r Hi. apply lookup_lt_Some in Hi.
    replace (n + 3 * i + 2)%nat with (n + (3 * i + 2))%nat by lia.
    rewrite Hopen by lia.
    destruct (Nat.eqb_spec (3 * i + 2) 20), (Nat.eqb_spec i 6); (done || lia). }
  assert (Hready : Forall (pin_ready w1) (touched_pins p' m 0)).
  { rewrite touched_roles. apply Forall_fmap, Forall_forall. intros r Hr. simpl.
    assert (Hactive : r ∈ roles /\ r <> BL).
    { subst roles. unfold active_roles. cbn [numDisplays p' private_after] in Hr.
      rewrite Hlit.
      destruct (numDisplays (private_data drvthis) >? 1);
        apply list_elem_of_In in Hr; simpl in Hr; rewrite list_elem_of_In; simpl;
        intuition (subst; (discriminate || auto 12)). }
    destruct Hactive as [Hin Hne].
    apply list_elem_of_lookup in Hin as [i Hi].
    assert (i <> 6%nat) by (intros ->; congruence).
    pose proof (Hvalue i r Hi) as Hv.
    rewrite <- (take_ge roles k) in Hi by lia.
    destruct (acq_pins _ _ _ _ _ _ _ _ Hacq' i r Hi) as [[_ Hno]|(Hsome & _ & Hs)].
    - rewrite Hno in Hv. by destruct (Nat.eqb_spec i 6).
    - unfold pin_ready, open_on. rewrite Hsome, Hw1. cbn [streams].
      by rewrite (acq_num _ _ _ _ _ _ _ _ Hacq'). }
  assert (Hnull : fd (backlight m) = None).
  { pose proof (Hvalue 6%nat BL Hsix) as Hv.
    rewrite <- (take_ge roles k) in Hsix by lia.
    destruct (acq_pins _ _ _ _ _ _ _ _ Hacq' 6%nat BL Hsix) as [[Hnone _]|(_ & Hyes & _)];
      [done|]. by rewrite Hyes in Hv. }
  exists p', m. eexists.
  split.
  { rewrite Hinit. unfold mbind, M_bind.
    rewrite (senddata_run p' m) by done.
    unfold uPause, common_init, log. cbv beta iota.
    rewrite (senddata_run p' m)
      by first [done | eapply Forall_impl; [exact Hready|];
                       intros pin Hpin; by repeat apply pin_ready_emit].
    cbv beta iota. reflexivity. }
  split; [done|]. split.
  { change (backlight m) with (get_pin m BL).
    rewrite (acq_num _ _ _ _ _ _ _ _ Hacq'). apply bound_map_num.
    by eapply list_elem_of_lookup_2. }
  split; [done|]. split.
  { cbn [p' hd44780_functions private_after table_after fn_backlight]. by rewrite Hlit. }
  intros Hlo Hhi state w2. unfold lcdgpio_HD44780_backlight.
  cbn [p' backlight_bit private_after gpio_pinout]. rewrite Hlit.
  assert ((bound_pin drvthis BL >? -1) && (bound_pin drvthis BL <? 32) = true) as ->.
  { rewrite Z.gtb_ltb. apply andb_true_iff. split; apply Z.ltb_lt; lia. }
  cbn [when]. change ((deref (Some m) ≫= ?k) w2) with (k m w2). cbv beta.
  unfold SET_GPIO, mbind, M_bind. rewrite Hnull.
  by destruct (truthy (uint (if state =? BACKLIGHT_ON then 1 else 0))).
Qed.


Lemma acquire_all_direction_refused drvthis roles : forall k m n s t,
  world_ok (World n s t) -> (k < length roles)%nat ->
  (forall i, (i < 3 * k + 1)%nat -> fopen_ok (n + i)%nat = true) ->
  fopen_ok (n + 3 * k + 1)%nat = false ->
  acquire_all drvthis roles m (World n s t) = Undefined.
Proof.
  induction roles as [|r rest IH]; intros k m n s t Hok Hk Hopen Hstop.
  - simpl in Hk. lia.
  - simpl. unfold mbind, M_bind. rewrite setup_gpio_pin_cases by done.
    assert (H0 : fopen_ok n = true).
    { replace n with (n + 0)%nat by lia. apply Hopen. lia. }
    rewrite H0. cbn [negb].
    destruct k as [|k].
    + replace (n + 3 * 0 + 1)%nat with (S n) in Hstop by lia. by rewrite Hstop.
    + assert (H1 : fopen_ok (S n) = true).
      { replace (S n) with (n + 1)%nat by lia. apply Hopen. lia. }
      assert (H2 : fopen_ok (S (S n)) = true).
      { replace (S (S n)) with (n + 2)%nat by lia. apply Hopen. lia. }
      rewrite H1, H2. cbn [negb]. cbv beta iota.
      apply (IH k).
      * eapply world_ok_insert; [done|lia..].
      * simpl in Hk. lia.
      * intros i Hi. replace (S (S (S n)) + i)%nat with (n + (3 + i))%nat by lia.
        apply Hopen. lia.
      * by replace (S (S (S n)) + 3 * k + 1)%nat with (n + 3 * S k + 1)%nat by lia.
Qed.

(** X17: when the direction file of a pin cannot be opened, its export file
    having been opened, and every file of the pins before it too,
    initialization does not return -1 as it does for an export file: the
    set-up prints a message and then writes "low" to the null stream. *)
Theorem hd_init_gpio_direction_refused drvthis m0 w k :
  malloc_gpio_map = Some m0 ->
  world_ok w ->
  (k < length (active_roles (private_data drvthis)))%nat ->
  (forall i, (i < 3 * k + 1)%nat -> fopen_ok (fopen_calls w + i)%nat = true) ->
  fopen_ok (fopen_calls w + 3 * k + 1)%nat = false ->
  hd_init_gpio drvthis w = Undefined.
Proof.
  destruct w as [n s t]. cbn [fopen_calls]. intros Hmalloc Hok Hk Hopen Hstop.
  pose proof (hd_init_gpio_result drvthis m0 (World n s t) Hmalloc) as Hinit.
  by rewrite (acquire_all_direction_refused _ _ k) in Hinit.
Qed.

(** X18: when every export file and every direction file can be opened and
    the value file of a pin other than the backlight pin cannot, every
    set-up reports success, and the bring-up that follows writes the pin
    through its null handle: initialization returns neither 0 nor -1. *)
Theorem hd_init_gpio_value_refused drvthis m0 w j r :
  malloc_gpio_map = Some m0 ->
  world_ok w ->
  (forall i, (i < length (active_roles (private_data drvthis)))%nat ->
     fopen_ok (fopen_calls w + 3 * i)%nat = true
     /\ fopen_ok (fopen_calls w + 3 * i + 1)%nat = true) ->
  active_roles (private_data drvthis) !! j = Some r ->
  r <> BL ->
  fopen_ok (fopen_calls w + 3 * j + 2)%nat = false ->
  hd_init_gpio drvthis w = Undefined.
Proof.
  destruct w as [n s t]. cbn [fopen_calls]. intros Hmalloc Hok Hopen Hj Hr Hno.
  set (roles := active_roles (private_data drvthis)) in *.
  destruct (acquire_all_through drvthis roles (bound_map drvthis m0) n s t Hok Hopen)
    as (m & w1 & Hacq).
  pose proof (hd_init_gpio_result drvthis m0 (World n s t) Hmalloc) as Hinit.
  fold roles in Hinit. rewrite Hacq in Hinit.
  destruct (acquire_all_inv _ _ _ _ _ _ _ _ _ Hok (active_roles_NoDup _) Hacq)
    as (k & s' & new & Hw1 & Hres & Hacq').
  fold roles in Hacq', Hres, Hw1.
  pose proof (acq_bound _ _ _ _ _ _ _ _ Hacq') as Hk.
  assert (k = length roles) as Hlen.
  { symmetry in Hres. apply lookup_ge_None in Hres. lia. }
  set (p' := private_after drvthis None m) in *.
  assert (Hnull : fd (get_pin m r) = None).
  { pose proof Hj as Hj'. rewrite <- (take_ge roles k) in Hj' by lia.
    destruct (acq_pins _ _ _ _ _ _ _ _ Hacq' j r Hj') as [[Hnone _]|(_ & Hyes & _)];
      [done|congruence]. }
  rewrite Hinit. unfold mbind at 1, M_bind at 1.
  destruct (lcdgpio_HD44780_senddata p' 0 RS_INSTR 51 w1) as [[] w2|] eqn:Hsend; [|done].
  exfalso. apply (senddata_done_fd p' m) in Hsend; [|done].
  rewrite Forall_forall in Hsend. apply (Hsend (get_pin m r)); [|done].
  apply active_touched; [|done]. by eapply list_elem_of_lookup_2.
Qed.


Lemma written_bring_up file p m :
  (forall n, String.eqb (value_file n) file = false) ->
  written file (bring_up_events p m) = [].
Proof.
  intros Hfile. unfold bring_up_events.
  by rewrite !written_app, !written_senddata_events.
Qed.

(** X19: the default wiring.  When the configuration holds no pin option,
    so that every lookup gives back the default it is passed, an
    initialization that returns 0 has exported, in this order, the pins 8
    (EN), 7 (RS), 18 (D7), 23 (D6), 24 (D5) and 25 (D4), then 17 if a
    backlight is configured, then 22 if there are two controllers, and these
    are the numbers that the pins of the map carry. *)
Theorem hd_init_gpio_default_pins drvthis w0 p w :
  world_ok w0 ->
  (forall section key index dflt,
     config_get_int drvthis section key index dflt = dflt) ->
  hd_init_gpio drvthis w0 = Done (0, p) w ->
  exists m new,
    gpio_pinout p = Some m
    /\ trace w = trace w0 ++ new
    /\ num <$> active_pins p m =
         [8; 7; 18; 23; 24; 25]
         ++ (if truthy (have_backlight p) then [17] else [])
         ++ (if numDisplays p >? 1 then [22] else [])
    /\ written export_file new =
         (fun pin => pretty (num pin) +:+ LF) <$> active_pins p m.
Proof.
  destruct w0 as [n s t]. intros Hok Hcfg Hrun.
  destruct (hd_init_gpio_got_memory _ _ _ _ Hrun) as [m0 Hmalloc].
  destruct (hd_init_gpio_inv _ _ _ _ _ _ _ _ Hmalloc Hok Hrun)
    as (k & m & s' & new & Hacq & Hp & _ & _ & [(_ & ? & _)|(Hk & _ & _ & Hw)]);
    [done|].
  assert (Hroles : active_roles p = active_roles (private_data drvthis)) by by rewrite Hp.
  assert (Hnums : forall r, r ∈ active_roles (private_data drvthis) ->
            num (get_pin m r) = default_pin r).
  { intros r Hr. rewrite (acq_num _ _ _ _ _ _ _ _ Hacq), bound_map_num by done.
    unfold bound_pin, pin_option. apply Hcfg. }
  exists m, (new ++ bring_up_events p m).
  split; [by rewrite Hp|]. split; [rewrite Hw; cbn [trace]; by rewrite app_assoc|].
  split.
  - unfold active_pins. rewrite <- list_fmap_compose, Hroles.
    transitivity (default_pin <$> active_roles (private_data drvthis)).
    + apply list_fmap_ext. intros i r Hr. simpl. apply Hnums.
      by eapply list_elem_of_lookup_2.
    + rewrite Hp. cbn [have_backlight numDisplays private_after]. unfold active_roles.
      by destruct (truthy (have_backlight (private_data drvthis))),
                  (numDisplays (private_data drvthis) >? 1).
  - rewrite written_app, written_bring_up by (intros i; apply (other_files i)).
    rewrite (acq_export _ _ _ _ _ _ _ _ Hacq), take_ge, app_nil_r by lia.
    unfold active_pins. rewrite <- list_fmap_compose, Hroles.
    apply list_fmap_ext. intros i r Hr. simpl.
    by rewrite (acq_num _ _ _ _ _ _ _ _ Hacq).
Qed.

(** ** Initialization and the files that cannot be opened *)

(** Initialization returns 0 as soon as every export file and every
    direction file can be opened, and the value file of every pin other
    than the backlight pin. *)
Lemma hd_init_gpio_through drvthis m0 n s t :
  malloc_gpio_map = Some m0 ->
  world_ok (World n s t) ->
  (forall i, (i < length (active_roles (private_data drvthis)))%nat ->
     fopen_ok (n + 3 * i)%nat = true /\ fopen_ok (n + 3 * i + 1)%nat = true) ->
  (forall i r, active_roles (private_data drvthis) !! i = Some r -> r <> BL ->
     fopen_ok (n + 3 * i + 2)%nat = true) ->
  exists p w, hd_init_gpio drvthis (World n s t) = Done (0, p) w.
Proof.
  intros Hmalloc Hok Hopen Hvalue.
  set (roles := active_roles (private_data drvthis)) in *.
  destruct (acquire_all_through drvthis roles (bound_map drvthis m0) n s t Hok Hopen)
    as (m & w1 & Hacq).
  pose proof (hd_init_gpio_result drvthis m0 (World n s t) Hmalloc) as Hinit.
  fold roles in Hinit. rewrite Hacq in Hinit.
  destruct (acquire_all_inv _ _ _ _ _ _ _ _ _ Hok (active_roles_NoDup _) Hacq)
    as (k & s' & new & Hw1 & Hres & Hacq').
  fold roles in Hacq', Hres, Hw1.
  pose proof (acq_bound _ _ _ _ _ _ _ _ Hacq') as Hk.
  assert (k = length roles) as Hlen.
  { symmetry in Hres. apply lookup_ge_None in Hres. lia. }
  set (p' := private_after drvthis None m) in *.
  assert (Hready : Forall (pin_ready w1) (touched_pins p' m 0)).
  { rewrite touched_roles. apply Forall_fmap, Forall_forall. intros r Hr. simpl.
    assert (Hactive : r ∈ roles /\ r <> BL).
    { subst roles. unfold active_roles. cbn [numDisplays p' private_after] in Hr.
      destruct (truthy (have_backlight (private_data drvthis))),
               (numDisplays (private_data drvthis) >? 1);
        apply list_elem_of_In in Hr; simpl in Hr; rewrite list_elem_of_In; simpl;
        intuition (subst; (discriminate || auto 12)). }
    destruct Hactive as [Hin Hne].
    apply list_elem_of_lookup in Hin as [i Hi].
    pose proof (Hvalue i r Hi Hne) as Hv.
    rewrite <- (take_ge roles k) in Hi by lia.
    destruct (acq_pins _ _ _ _ _ _ _ _ Hacq' i r Hi) as [[_ Hno]|(Hsome & _ & Hs)];
      [congruence|].
    unfold pin_ready, open_on. rewrite Hsome, Hw1. cbn [streams].
    by rewrite (acq_num _ _ _ _ _ _ _ _ Hacq'). }
  exists p'. eexists.
  rewrite Hinit. unfold mbind, M_bind.
  rewrite (senddata_run p' m) by done.
  unfold uPause, common_init, log. cbv beta iota.
  rewrite (senddata_run p' m)
    by first [done | eapply Forall_impl; [exact Hready|];
                     intros pin Hpin; by repeat apply pin_ready_emit].
  cbv beta iota. reflexivity.
Qed.

(** C4, as the code has it: initialization sets up the pins of the active
    roles in the order EN, RS, D7, D6, D5, D4, then the backlight if one is
    configured, then EN2 if there are two controllers, and of the three files
    of a set-up only the export file makes it abort.  When the first [k]
    set-ups find every file and the next one is refused the export file,
    initialization returns -1 at once: only the first [k] pin numbers have
    been written to the export file, nothing has been written to the
    unexport file, and the [k] pins are still open; when all set-ups find
    every file it returns 0 and has exported exactly the pins of the active
    roles.  A direction file that cannot be opened does not abort it: the
    set-up writes to the null stream, which is undefined.  A value file that
    cannot be opened does not abort it either: every set-up reports
    success; for a pin other than the backlight pin the bring-up then
    writes through the null handle, which is undefined, and when it is the
    value file of the backlight pin alone, initialization returns 0 with
    every pin of the configuration exported, none released, and a null
    handle in the backlight pin. *)
Theorem hd_init_gpio_acquisition drvthis m0 w :
  malloc_gpio_map = Some m0 -> world_ok w ->
  (forall k,
     (k <= length (active_roles (private_data drvthis)))%nat ->
     (forall i, (i < 3 * k)%nat -> fopen_ok (fopen_calls w + i)%nat = true) ->
     ((k < length (active_roles (private_data drvthis)))%nat ->
      fopen_ok (fopen_calls w + 3 * k)%nat = false) ->
     exists p' m' w' new,
       hd_init_gpio drvthis w =
         Done (if decide (k < length (active_roles (private_data drvthis)))%nat
               then -1 else 0, p') w'
       /\ trace w' = trace w ++ new
       /\ gpio_pinout p' = Some m'
       /\ written export_file new =
            (fun r => pretty (bound_pin drvthis r) +:+ LF)
              <$> take k (active_roles (private_data drvthis))
       /\ written unexport_file new = []
       /\ Forall (fun r => num (get_pin m' r) = bound_pin drvthis r
                           /\ pin_ready w' (get_pin m' r))
                 (take k (active_roles (private_data drvthis))))
  /\ (forall k,
        (k < length (active_roles (private_data drvthis)))%nat ->
        (forall i, (i < 3 * k + 1)%nat -> fopen_ok (fopen_calls w + i)%nat = true) ->
        fopen_ok (fopen_calls w + 3 * k + 1)%nat = false ->
        hd_init_gpio drvthis w = Undefined)
  /\ (forall j r,
        (forall i, (i < length (active_roles (private_data drvthis)))%nat ->
           fopen_ok (fopen_calls w + 3 * i)%nat = true
           /\ fopen_ok (fopen_calls w + 3 * i + 1)%nat = true) ->
        active_roles (private_data drvthis) !! j = Some r ->
        r <> BL ->
        fopen_ok (fopen_calls w + 3 * j + 2)%nat = false ->
        hd_init_gpio drvthis w = Undefined)
  /\ (have_backlight (private_data drvthis) <> 0 ->
      (forall i, (i < 3 * length (active_roles (private_data drvthis)))%nat ->
         fopen_ok (fopen_calls w + i)%nat = negb (i =? 20)%nat) ->
      exists p' m' w' new,
        hd_init_gpio drvthis w = Done (0, p') w'
        /\ trace w' = trace w ++ new
        /\ gpio_pinout p' = Some m'
        /\ written export_file new =
             (fun r => pretty (bound_pin drvthis r) +:+ LF)
               <$> active_roles (private_data drvthis)
        /\ written unexport_file new = []
        /\ num (backlight m') = bound_pin drvthis BL
        /\ fd (backlight m') = None).
Proof.
  destruct w as [n s t]. cbn [fopen_calls trace]. intros Hmalloc Hok.
  split; [|split; [|split]].
  { intros k Hk Hopen Hstop.
    set (roles := active_roles (private_data drvthis)) in *.
    destruct (acquire_all_defined drvthis roles k (bound_map drvthis m0) n s t)
      as (m' & w' & Hrun); try done.
    destruct (acquire_all_inv _ _ _ _ _ _ _ _ _ Hok (active_roles_NoDup _) Hrun)
      as (k' & s' & new & -> & Hres & Hacq).
    assert (k' = k) as ->.
    { symmetry. eapply NoDup_lookup_eq; [apply (active_roles_NoDup (private_data drvthis))|done| |done].
      apply (acq_bound _ _ _ _ _ _ _ _ Hacq). }
    pose proof (hd_init_gpio_acquire drvthis m0 (World n s t) Hmalloc) as Hinit.
    fold roles in Hinit. rewrite Hrun in Hinit.
    assert (Hnums : Forall (fun r => num (get_pin m' r) = bound_pin drvthis r) (take k roles)).
    { apply Forall_forall. intros r Hr.
      rewrite (acq_num _ _ _ _ _ _ _ _ Hacq). apply bound_map_num.
      by eapply elem_take_elem. }
    assert (Hexp : (fun r => pretty (num (get_pin (bound_map drvthis m0) r)) +:+ LF)
                     <$> take k roles
                   = (fun r => pretty (bound_pin drvthis r) +:+ LF) <$> take k roles).
    { apply list_fmap_ext. intros i r Hr. rewrite bound_map_num; [done|].
      by eapply lookup_take_elem. }
    subst roles. set (roles := active_roles (private_data drvthis)) in *.
    destruct (decide (k < length roles)%nat) as [Hlt|Hge].
    - destruct (roles !! k) as [r|] eqn:Er;
        [|apply lookup_ge_None in Er; lia].
      destruct Hinit as (p' & Hinit & Hm' & _).
      eexists p', m', _, (new ++ [Report _]).
      split; [exact Hinit|]. split; [simpl; by rewrite app_assoc|]. split; [done|].
      rewrite !written_app, (acq_export _ _ _ _ _ _ _ _ Hacq),
        (acq_unexport _ _ _ _ _ _ _ _ Hacq), Hexp. simpl. rewrite app_nil_r.
      split; [done|]. split; [done|].
      apply Forall_and. split; [done|].
      unfold emit. simpl. by eapply acquired_ready.
    - assert (k = length roles) as Hlen by lia.
      rewrite (lookup_ge_None_2 roles k) in Hinit by lia.
      destruct Hinit as (p' & Hinit & Hm' & Hbl & Hnd & _).
      rewrite Nat.add_0_r in *.
      set (w1 := World (n + 3 * k) s' (t ++ new)) in *.
      assert (Hall : forall r, r ∈ roles -> pin_ready w1 (get_pin m' r)).
      { intros r Hr. rewrite <- (take_ge roles k) in Hr by lia.
        revert r Hr. apply Forall_forall. by eapply acquired_ready. }
      assert (Htouched : Forall (pin_ready w1) (touched_pins p' m' 0)).
      { unfold touched_pins. apply Forall_app. split; [|apply Forall_app; split].
        - repeat apply Forall_cons_2; try apply Forall_nil_2;
            [apply (Hall RS)|apply (Hall D7)|apply (Hall D6)|apply (Hall D5)
            |apply (Hall D4)];
            apply base_roles_active, list_elem_of_In; simpl; tauto.
        - destruct (decide (targets_first 0)); [|done].
          apply Forall_cons_2; [|done].
          apply (Hall EN), base_roles_active, list_elem_of_In. simpl; tauto.
        - destruct (decide (targets_second p' 0)) as [Hs|]; [|done].
          apply Forall_cons_2; [|done].
          apply (Hall EN2), en2_active. destruct Hs as [?|[? _]]; [lia|by rewrite <- Hnd]. }
      eexists p', m', _,
        (new ++ senddata_events p' m' 0 RS_INSTR 0x33 ++ [UPause 4100]
             ++ senddata_events p' m' 0 RS_INSTR 0x32 ++ [UPause 150]
             ++ [CommonInit IF_4BIT]).
      split.
      { rewrite Hinit. unfold mbind, M_bind.
        rewrite (senddata_run p' m') by done.
        unfold uPause, common_init, log. cbv beta iota.
        rewrite (senddata_run p' m')
          by first [done | eapply Forall_impl; [exact Htouched|];
                           intros pin Hpin; by repeat apply pin_ready_emit].
        cbv beta iota. rewrite !emit_emit. reflexivity. }
      split; [unfold emit, w1; cbn [trace]; by rewrite <- !app_assoc|].
      split; [done|].
      destruct (other_files 0) as (_ & _ & _ & _ & _ & _).
      rewrite !written_app, (acq_export _ _ _ _ _ _ _ _ Hacq),
        (acq_unexport _ _ _ _ _ _ _ _ Hacq), Hexp.
      rewrite !written_senddata_events by (intros i; apply (other_files i)).
      simpl. rewrite !app_nil_r.
      split; [done|]. split; [done|].
      apply Forall_and. split; [done|].
      rewrite take_ge by lia. apply Forall_forall. intros r Hr.
      by apply pin_ready_emit, Hall.
  }
  { intros k Hk Hopen Hstop.
    pose proof (hd_init_gpio_result drvthis m0 (World n s t) Hmalloc) as Hinit.
    by rewrite (acquire_all_direction_refused _ _ k) in Hinit. }
  { intros j r Hopen Hj Hr Hno.
    set (roles := active_roles (private_data drvthis)) in *.
    destruct (acquire_all_through drvthis roles (bound_map drvthis m0) n s t Hok Hopen)
      as (m & w1 & Hacq).
    pose proof (hd_init_gpio_result drvthis m0 (World n s t) Hmalloc) as Hinit.
    fold roles in Hinit. rewrite Hacq in Hinit.
    destruct (acquire_all_inv _ _ _ _ _ _ _ _ _ Hok (active_roles_NoDup _) Hacq)
      as (k & s' & new & Hw1 & Hres & Hacq').
    fold roles in Hacq', Hres, Hw1.
    pose proof (acq_bound _ _ _ _ _ _ _ _ Hacq') as Hk.
    assert (k = length roles) as Hlen.
    { symmetry in Hres. apply lookup_ge_None in Hres. lia. }
    set (p' := private_after drvthis None m) in *.
    assert (Hnull : fd (get_pin m r) = None).
    { pose proof Hj as Hj'. rewrite <- (take_ge roles k) in Hj' by lia.
      destruct (acq_pins _ _ _ _ _ _ _ _ Hacq' j r Hj') as [[Hnone _]|(_ & Hyes & _)];
        [done|congruence]. }
    rewrite Hinit. unfold mbind at 1, M_bind at 1.
    destruct (lcdgpio_HD44780_senddata p' 0 RS_INSTR 51 w1) as [[] w2|] eqn:Hsend; [|done].
    exfalso. apply (senddata_done_fd p' m) in Hsend; [|done].
    rewrite Forall_forall in Hsend. apply (Hsend (get_pin m r)); [|done].
    apply active_touched; [|done]. by eapply list_elem_of_lookup_2. }
  { intros Hbl Hopen.
    assert (Hlit : truthy (have_backlight (private_data drvthis)) = true).
    { unfold truthy. by destruct (Z.eqb_spec (have_backlight (private_data drvthis)) 0). }
    set (roles := active_roles (private_data drvthis)) in *.
    assert (Hsix : roles !! 6%nat = Some BL).
    { subst roles. unfold active_roles. by rewrite Hlit. }
    destruct (hd_init_gpio_through drvthis m0 n s t Hmalloc Hok) as (p & w & Hrun).
    { fold roles. intros i Hi. split.
      - rewrite Hopen by lia. destruct (Nat.eqb_spec (3 * i) 20); [lia|done].
      - replace (n + 3 * i + 1)%nat with (n + (3 * i + 1))%nat by lia.
        rewrite Hopen by lia. destruct (Nat.eqb_spec (3 * i + 1) 20); [lia|done]. }
    { fold roles. intros i r Hi Hne.
      assert (i <> 6%nat) by (intros ->; congruence).
      apply lookup_lt_Some in Hi.
      replace (n + 3 * i + 2)%nat with (n + (3 * i + 2))%nat by lia.
      rewrite Hopen by lia. destruct (Nat.eqb_spec (3 * i + 2) 20); [lia|done]. }
    destruct (hd_init_gpio_inv _ _ _ _ _ _ _ _ Hmalloc Hok Hrun)
      as (k & m & s' & new & Hacq & Hp & _ & _ & [(_ & ? & _)|(Hk & _ & _ & Hw)]);
      [done|].
    fold roles in Hacq, Hk.
    exists p, m, w, (new ++ bring_up_events p m).
    split; [done|]. split; [rewrite Hw; cbn [trace]; by rewrite app_assoc|].
    split; [by rewrite Hp|].
    rewrite !written_app, !written_bring_up by (intros i; apply (other_files i)).
    rewrite (acq_export _ _ _ _ _ _ _ _ Hacq), (acq_unexport _ _ _ _ _ _ _ _ Hacq),
      take_ge, !app_nil_r by lia.
    split.
    { apply list_fmap_ext. intros i r Hr. simpl. rewrite bound_map_num; [done|].
      by eapply list_elem_of_lookup_2. }
    split; [done|]. split.
    { change (backlight m) with (get_pin m BL).
      rewrite (acq_num _ _ _ _ _ _ _ _ Hacq). apply bound_map_num.
      by eapply list_elem_of_lookup_2. }
    pose proof Hsix as Hsix'. rewrite <- (take_ge roles k) in Hsix' by lia.
    destruct (acq_pins _ _ _ _ _ _ _ _ Hacq 6%nat BL Hsix') as [[Hnone _]|(_ & Hyes & _)];
      [done|].
    replace (n + 3 * 6 + 2)%nat with (n + 20)%nat in Hyes by lia.
    rewrite Hopen in Hyes; [done|].
    apply lookup_lt_Some in Hsix. lia. }
Qed.

Transparent value_file.

End Driver.

(** ** The claims on the sample data *)

Lemma sample_ready :
  Forall (pin_ready sample_world) (touched_pins sample_private sample_map 0).
Proof. repeat constructor. Defined.

Lemma boot_ok : world_ok boot.
Proof. intros h [x Hx]. vm_compute in Hx. discriminate. Defined.

(** C1 at the byte 0xA5, sent as data to both controllers. *)
Lemma senddata_nibbles_witness :
  exists new,
    lcdgpio_HD44780_senddata 1 sample_private 0 0 0xA5 sample_world
      = Done tt (emit sample_world new)
    /\ file_writes (step 2 new) = data_writes sample_map true false true false
    /\ file_writes (step 6 new) = data_writes sample_map false true false true
    /\ data_lines sample_map (at_hold 2 new) = [Some "1"; Some "0"; Some "1"; Some "0"]
    /\ data_lines sample_map (at_hold 6 new) = [Some "0"; Some "1"; Some "0"; Some "1"].
Proof.
  destruct (senddata_nibbles 1 sample_private sample_map 0 0 0xA5 sample_world
              eq_refl sample_ready)
    as (new & Hrun & _ & Hhigh & _ & Hlow & Hlevels).
  destruct Hlevels as (_ & Hat2 & _ & Hat6).
  { apply (bool_decide_unpack _). vm_compute. exact I. }
  exists new. repeat split; assumption.
Defined.

(** C2 on the same transmission. *)
Lemma senddata_enable_pulses_witness :
  exists new,
    lcdgpio_HD44780_senddata 1 sample_private 0 0 0xA5 sample_world
      = Done tt (emit sample_world new)
    /\ step_writes (value_file 8) new = two_pulses
    /\ step_writes (value_file 22) new = two_pulses.
Proof.
  destruct (senddata_enable_pulses 1 sample_private sample_map 0 0 0xA5 sample_world
              eq_refl sample_ready)
    as (new & Hrun & _ & Hen & _ & Hen2).
  { apply (bool_decide_unpack _). vm_compute. exact I. }
  exists new. repeat split; assumption.
Defined.

(** C6 on the same transmission: the flags are not [RS_INSTR], so the line
    is high. *)
Lemma senddata_register_select_witness :
  exists new,
    lcdgpio_HD44780_senddata 1 sample_private 0 0 0xA5 sample_world
      = Done tt (emit sample_world new)
    /\ written (value_file 7) new = ["1"]
    /\ forall k, level (value_file 7) (before_pause k new) = Some "1".
Proof.
  destruct (senddata_register_select 1 sample_private sample_map 0 0 0xA5 sample_world
              eq_refl sample_ready)
    as (new & Hrun & _ & Hrs & Hlevel).
  { repeat constructor; simpl; lia. }
  exists new. repeat split; assumption.
Defined.

(** C10 on the same transmission. *)
Lemma senddata_enable_low_witness :
  exists new,
    lcdgpio_HD44780_senddata 1 sample_private 0 0 0xA5 sample_world
      = Done tt (emit sample_world new)
    /\ level (value_file 8) new = Some "0"
    /\ level (value_file 22) new = Some "0".
Proof.
  destruct (senddata_enable_low 1 sample_private sample_map 0 0 0xA5 sample_world
              eq_refl sample_ready)
    as (new & Hrun & Hlow).
  apply Forall_cons in Hlow as [[_ Hen] Hlow].
  apply Forall_cons in Hlow as [[_ Hen2] _].
  exists new. repeat split; assumption.
Defined.


(** C7 on the sample data: in range the pin is written, out of range a run
    of calls does nothing, and an initialization without backlight leaves
    the backlight slot alone. *)
Lemma backlight_guard_witness :
  lcdgpio_HD44780_backlight 1 sample_private 1 sample_world =
    Done tt (emit sample_world [Fprintf (value_file 17) "1"; Fseek (value_file 17)])
  /\ backlight_calls 1 dark_private [0; 1] sample_world = Done tt sample_world
  /\ forall rc p' w',
       hd_init_gpio all_open 1 0 (Some blank_map) (sample_driver 0 2) boot = Done (rc, p') w' ->
       fn_backlight (hd44780_functions p') = Fn_preset.
Proof.
  split; [|split].
  - apply (proj1 (backlight_guard all_open 1 1 0 (Some blank_map) sample_private sample_world)
             sample_map 1); [simpl; lia|simpl; lia|reflexivity|reflexivity].
  - apply (proj1 (proj2 (backlight_guard all_open 1 1 0 (Some blank_map) dark_private
                           sample_world))).
    simpl. lia.
  - intros rc p' w' Hrun.
    apply (proj2 (proj2 (backlight_guard all_open 1 1 0 (Some blank_map)
                           (private_data (sample_driver 0 2)) boot))
             (sample_driver 0 2) rc p' w' eq_refl eq_refl Hrun).
Defined.

(** C3 at the failing input: the export file and the direction file open,
    the value file does not, and the set-up reports success. *)
Lemma setup_gpio_pin_outcomes_witness :
  exists w', setup_gpio_pin (all_but 2) (sample_driver 1 2) (Gpio_pin 17 None) boot
             = Done (0, Gpio_pin 17 None) w'.
Proof.
  apply (setup_gpio_pin_outcomes (all_but 2) (sample_driver 1 2) (Gpio_pin 17 None) boot
           boot_ok); reflexivity.
Defined.

(** C5 on pin 17, never acquired, released twice. *)
Lemma close_gpio_pin_unconditional_witness :
  exists w1 w2,
    close_gpio_pin all_open (Gpio_pin 17 None) boot = Done tt w1
    /\ file_writes (trace w1) =
         [(direction_file 17, "in"); (unexport_file, pretty 17 +:+ LF)]
    /\ close_gpio_pin all_open (Gpio_pin 17 None) w1 = Done tt w2
    /\ file_writes (trace w2) =
         [(direction_file 17, "in"); (unexport_file, pretty 17 +:+ LF);
          (direction_file 17, "in"); (unexport_file, pretty 17 +:+ LF)].
Proof.
  destruct (close_gpio_pin_unconditional all_open (Gpio_pin 17 None) boot boot_ok eq_refl)
    as (w1 & w2 & Hrun1 & Htrace1 & _ & Hrun2 & Htrace2 & _).
  { intros i _. reflexivity. }
  exists w1, w2. rewrite Htrace2, Htrace1. repeat split; assumption || reflexivity.
Defined.

(** C4 with two controllers and a backlight.  When the third set-up (D7) is
    refused the export file, initialization returns -1 and EN and RS stay
    exported.  When the value file of the backlight pin, the twenty-first
    file, cannot be opened, initialization returns 0 all the same, with the
    eight pins exported and a null handle in the backlight pin. *)
Lemma hd_init_gpio_acquisition_witness :
  (exists p' m' w' new,
     hd_init_gpio (all_but 6) 1 0 (Some blank_map) (sample_driver 1 2) boot = Done (-1, p') w'
     /\ trace w' = new
     /\ gpio_pinout p' = Some m'
     /\ written export_file new = [pretty 8 +:+ LF; pretty 7 +:+ LF]
     /\ written unexport_file new = []
     /\ pin_ready w' (en m') /\ pin_ready w' (rs m'))
  /\ (exists p' m' w' new,
        hd_init_gpio (all_but 20) 1 0 (Some blank_map) (sample_driver 1 2) boot = Done (0, p') w'
        /\ trace w' = new
        /\ gpio_pinout p' = Some m'
        /\ written export_file new =
             (fun n : Z => pretty n +:+ LF) <$> [8; 7; 18; 23; 24; 25; 17; 22]
        /\ written unexport_file new = []
        /\ num (backlight m') = 17
        /\ fd (backlight m') = None).
Proof.
  split.
  - destruct (proj1 (hd_init_gpio_acquisition (all_but 6) 1 0 (Some blank_map)
                       (sample_driver 1 2) blank_map boot eq_refl boot_ok) 2%nat)
      as (p' & m' & w' & new & Hrun & Htrace & Hm & Hexp & Hunexp & Hpins).
    + simpl. lia.
    + intros i Hi. unfold all_but. simpl.
      destruct (Nat.eqb_spec i 6); [lia|reflexivity].
    + intros _. reflexivity.
    + apply Forall_cons in Hpins as [[_ Hen] Hpins].
      apply Forall_cons in Hpins as [[_ Hrs] _].
      exists p', m', w', new. repeat split; assumption.
  - destruct (proj2 (proj2 (proj2 (hd_init_gpio_acquisition (all_but 20) 1 0 (Some blank_map)
                       (sample_driver 1 2) blank_map boot eq_refl boot_ok))))
      as (p' & m' & w' & new & Hrun & Htrace & Hm & Hexp & Hunexp & Hnum & Hnull).
    + simpl. lia.
    + intros i _. reflexivity.
    + exists p', m', w', new. repeat split; assumption.
Defined.

(** C8 with two controllers and a backlight, when every file opens: the
    eight pins exported at initialization are the eight released at
    shutdown. *)
Lemma close_after_init_witness :
  exists p w w' started released,
    hd_init_gpio all_open 1 0 (Some blank_map) (sample_driver 1 2) boot = Done (0, p) w
    /\ trace w = started
    /\ written export_file started =
         (fun n : Z => pretty n +:+ LF) <$> [8; 7; 18; 23; 24; 25; 17; 22]
    /\ lcdgpio_HD44780_close all_open p w = Done (set_gpio_pinout p None) w'
    /\ trace w' = trace w ++ released
    /\ file_writes released =
         flat_map (fun n : Z => [(direction_file n, "in"); (unexport_file, pretty n +:+ LF)])
                  [8; 7; 18; 23; 24; 25; 17; 22].
Proof.
  destruct (hd_init_gpio all_open 1 0 (Some blank_map) (sample_driver 1 2) boot)
    as [[rc p] w|] eqn:Hinit.
  2:{ exfalso. vm_compute in Hinit. discriminate. }
  assert (Hrc : rc = 0) by (vm_compute in Hinit; by injection Hinit as <- _ _).
  subst rc.
  destruct (close_after_init all_open 1 0 (Some blank_map) (sample_driver 1 2) boot p w
              boot_ok Hinit)
    as (m & w' & started & released & Hm & Htrace & Hexp & Hclose & Htrace' & Hrel & _).
  { intros i _. reflexivity. }
  assert (Hnums : num <$> active_pins p m = [8; 7; 18; 23; 24; 25; 17; 22]).
  { vm_compute in Hinit. injection Hinit as <- _. injection Hm as <-. reflexivity. }
  exists p, w, w', started, released.
  split; [reflexivity|]. split; [exact Htrace|].
  split; [by rewrite Hexp, <- Hnums, <- list_fmap_compose|].
  split; [exact Hclose|]. split; [exact Htrace'|].
  rewrite Hrel, <- Hnums. clear. induction (active_pins p m) as [|pin pins IH]; [done|].
  simpl. by rewrite IH.
Defined.

(** ** Where the code departs from the description *)

(** Against C5: releasing pin 17, which was never acquired, is not a no-op
    (it writes to the direction file and to the unexport file); when the
    direction file cannot be opened its behaviour is undefined; and a second
    release of an acquired pin closes the closed handle again, which is
    undefined too. *)
Lemma close_gpio_pin_counterexample :
  close_gpio_pin all_open (Gpio_pin 17 None) boot <> Done tt boot
  /\ close_gpio_pin (fun _ => false) (Gpio_pin 17 None) boot = Undefined
  /\ exists pin w1 w2,
       setup_gpio_pin all_open (sample_driver 1 2) (Gpio_pin 17 None) boot = Done (0, pin) w1
       /\ close_gpio_pin all_open pin w1 = Done tt w2
       /\ close_gpio_pin all_open pin w2 = Undefined.
Proof.
  split; [|split].
  - vm_compute. discriminate.
  - reflexivity.
  - eexists _, _, _. split; [|split]; vm_compute; reflexivity.
Qed.

(** Against C7: with no backlight configured and the backlight number at 0,
    which is in range, switching the backlight off and on is undefined when
    the backlight pin of the map holds no stream, and writes that pin twice
    when it holds one. *)
Lemma backlight_counterexample :
  have_backlight (unlit_private blank_map) = 0
  /\ backlight_calls 1 (unlit_private blank_map) [0; 1] boot = Undefined
  /\ have_backlight (unlit_private sample_map) = 0
  /\ backlight_calls 1 (unlit_private sample_map) [0; 1] sample_world =
       Done tt (emit sample_world
                     [Fprintf (value_file 17) "0"; Fseek (value_file 17);
                      Fprintf (value_file 17) "1"; Fseek (value_file 17)]).
Proof. repeat split; vm_compute; reflexivity. Qed.

(** ** The further properties on the sample data *)

(** X1: the transmission of 0xA5 to both controllers leaves the streams of
    the sample world as they were. *)
Lemma senddata_keeps_streams_witness :
  exists w',
    lcdgpio_HD44780_senddata 1 sample_private 0 0 0xA5 sample_world = Done tt w'
    /\ fopen_calls w' = 24%nat
    /\ streams w' = streams sample_world.
Proof.
  destruct (lcdgpio_HD44780_senddata 1 sample_private 0 0 0xA5 sample_world)
    as [[] w'|] eqn:Hrun.
  2:{ exfalso. vm_compute in Hrun. discriminate. }
  destruct (senddata_keeps_streams 1 sample_private 0 0 0xA5 sample_world w' Hrun)
    as (Hn & Hs & _).
  exists w'. split; [reflexivity|]. split; [exact Hn|exact Hs].
Defined.

(** X2: the same transmission pulses both enable lines: eight delays, and 17
    + 4 + 4 writes. *)
Lemma senddata_timing_witness :
  exists new,
    lcdgpio_HD44780_senddata 1 sample_private 0 0 0xA5 sample_world
      = Done tt (emit sample_world new)
    /\ pauses new = [50; 50; 50; 50; 50; 50; 50; 50]
    /\ only_pin_writes new = true
    /\ length (file_writes new) = 25%nat.
Proof.
  destruct (senddata_timing 1 sample_private sample_map 0 0 0xA5 sample_world
              eq_refl sample_ready)
    as (new & Hrun & Hpauses & _ & Honly & Hlen & _).
  exists new. split; [exact Hrun|]. split; [exact Hpauses|]. split; [exact Honly|exact Hlen].
Defined.

(** X3: the high nibble of 0xA5 is 1010 and stays through the first pulse;
    the low nibble 0101 is on the lines when the transmission returns. *)
Lemma senddata_nibble_held_witness :
  exists new,
    lcdgpio_HD44780_senddata 1 sample_private 0 0 0xA5 sample_world
      = Done tt (emit sample_world new)
    /\ data_lines sample_map (at_hold 3 new) = [Some "1"; Some "0"; Some "1"; Some "0"]
    /\ data_lines sample_map (at_hold 4 new) = [Some "1"; Some "0"; Some "1"; Some "0"]
    /\ data_lines sample_map new = [Some "0"; Some "1"; Some "0"; Some "1"].
Proof.
  destruct (senddata_nibble_held 1 sample_private sample_map 0 0 0xA5 sample_world
              eq_refl sample_ready)
    as (new & Hrun & Hhigh & _ & Hend).
  { apply (bool_decide_unpack _). vm_compute. exact I. }
  exists new. split; [exact Hrun|].
  split; [apply (Hhigh 3%nat); lia|]. split; [apply (Hhigh 4%nat); lia|exact Hend].
Defined.

(** X4: the byte 0xA5 comes out of the lines as it went in. *)
Lemma senddata_byte_latched_witness :
  exists new,
    lcdgpio_HD44780_senddata 1 sample_private 0 0 0xA5 sample_world
      = Done tt (emit sample_world new)
    /\ byte_latched sample_map new = Some 0xA5.
Proof.
  destruct (senddata_byte_latched 1 sample_private sample_map 0 0 0xA5 sample_world
              eq_refl sample_ready)
    as (new & Hrun & Hbyte).
  { apply (bool_decide_unpack _). vm_compute. exact I. }
  { lia. }
  exists new. split; [exact Hrun|exact Hbyte].
Defined.

(** X5: on, off, on, off: the backlight line ends low. *)
Lemma backlight_last_call_witness :
  exists new,
    backlight_calls 1 sample_private [1; 0; 1; 0] sample_world
      = Done tt (emit sample_world new)
    /\ level (value_file 17) (trace sample_world ++ new) = Some "0".
Proof.
  destruct (backlight_last_call 1 sample_private sample_map [1; 0; 1; 0] sample_world)
    as (new & Hrun & _ & Hlevel);
    [simpl; lia|simpl; lia|reflexivity|reflexivity|].
  exists new. split; [exact Hrun|exact Hlevel].
Defined.

(** X6: the release of pin 17 when the unexport file cannot be opened, and
    when both files can. *)
Lemma close_gpio_pin_returns_witness :
  close_gpio_pin (all_but 1) (Gpio_pin 17 None) boot = Undefined
  /\ exists w',
       close_gpio_pin all_open (Gpio_pin 17 None) boot = Done tt w'
       /\ fopen_calls w' = 2%nat
       /\ streams w' = streams boot.
Proof.
  split.
  - apply (close_gpio_pin_returns (all_but 1) (Gpio_pin 17 None) boot boot_ok).
    right. left. reflexivity.
  - destruct (close_gpio_pin all_open (Gpio_pin 17 None) boot) as [[] w'|] eqn:Hrun.
    2:{ exfalso. vm_compute in Hrun. discriminate. }
    destruct (proj1 (close_gpio_pin_returns all_open (Gpio_pin 17 None) boot boot_ok)
                w' Hrun) as (_ & _ & Hn & Hs).
    exists w'. split; [reflexivity|]. split; [exact Hn|exact Hs].
Defined.

(** X7: pin 17 set up and released when its value file cannot be opened. *)
Lemma setup_then_close_witness :
  exists pin w1 w2,
    setup_gpio_pin (all_but 2) (sample_driver 1 2) (Gpio_pin 17 None) boot = Done (0, pin) w1
    /\ close_gpio_pin (all_but 2) pin w1 = Done tt w2
    /\ streams w2 = streams boot
    /\ file_writes (trace w2) =
         [(export_file, pretty 17 +:+ LF); (direction_file 17, "low");
          (direction_file 17, "in"); (unexport_file, pretty 17 +:+ LF)].
Proof.
  destruct (setup_then_close (all_but 2) (sample_driver 1 2) (Gpio_pin 17 None) boot boot_ok)
    as (pin & w1 & w2 & Hsetup & Hclose & Hs & _ & Hwrites).
  { intros i Hi Hne.
    do 5 (destruct i as [|i]; [first [reflexivity|exfalso; lia]|]). exfalso. lia. }
  exists pin, w1, w2. split; [exact Hsetup|]. split; [exact Hclose|].
  split; [exact Hs|exact Hwrites].
Defined.

(** X8: after the initialization of the sample driver a transmission to the
    second controller returns. *)
Lemma hd_init_gpio_ready_witness :
  exists p w m new,
    hd_init_gpio all_open 1 0 (Some blank_map) (sample_driver 1 2) boot = Done (0, p) w
    /\ gpio_pinout p = Some m
    /\ lcdgpio_HD44780_senddata 1 p 2 0 0xA5 w = Done tt (emit w new).
Proof.
  destruct (hd_init_gpio all_open 1 0 (Some blank_map) (sample_driver 1 2) boot)
    as [[rc p] w|] eqn:Hinit.
  2:{ exfalso. vm_compute in Hinit. discriminate. }
  assert (Hrc : rc = 0) by (vm_compute in Hinit; by injection Hinit as <- _ _).
  subst rc.
  assert (Hnd : numDisplays p = 2) by (vm_compute in Hinit; by injection Hinit as <- _).
  destruct (hd_init_gpio_ready all_open 1 0 (Some blank_map) (sample_driver 1 2) boot p w
              boot_ok Hinit)
    as (m & Hm & _ & Hsend).
  destruct (Hsend 2 0 0xA5) as [new Hnew].
  { right. right. split; [reflexivity|]. rewrite Hnd. lia. }
  exists p, w, m, new. split; [reflexivity|]. split; [exact Hm|exact Hnew].
Defined.

(** X9: the delays of the initialization of the sample driver, its last
    call, and the writes of its third step, which raise EN on pin 8 and
    EN2 on pin 22. *)
Lemma hd_init_gpio_bring_up_witness :
  exists p w started rest,
    hd_init_gpio all_open 1 0 (Some blank_map) (sample_driver 1 2) boot = Done (0, p) w
    /\ trace w = started ++ rest
    /\ pauses started = []
    /\ pauses rest = [50; 50; 50; 50; 50; 50; 50; 50; 4100;
                      50; 50; 50; 50; 50; 50; 50; 50; 150]
    /\ last rest = Some (CommonInit 0)
    /\ file_writes (step 3 rest) = [(value_file 8, "1"); (value_file 22, "1")].
Proof.
  destruct (hd_init_gpio all_open 1 0 (Some blank_map) (sample_driver 1 2) boot)
    as [[rc p] w|] eqn:Hinit.
  2:{ exfalso. vm_compute in Hinit. discriminate. }
  assert (Hrc : rc = 0) by (vm_compute in Hinit; by injection Hinit as <- _ _).
  subst rc.
  destruct (hd_init_gpio_bring_up all_open 1 0 (Some blank_map) (sample_driver 1 2) boot p w
              boot_ok Hinit)
    as (m & started & rest & Hm & Htrace & Hquiet & Hpauses & Hlast & _ & Hsteps).
  assert (Hpins : touched_enables p m 0 = [Gpio_pin 8 (Some 2%nat); Gpio_pin 22 (Some 23%nat)]).
  { vm_compute in Hinit. injection Hinit as <- _. injection Hm as <-. reflexivity. }
  exists p, w, started, rest. split; [reflexivity|]. split; [exact Htrace|].
  split; [exact Hquiet|]. split; [exact Hpauses|]. split; [exact Hlast|].
  cbv zeta in Hsteps. rewrite Hpins in Hsteps.
  injection Hsteps as _ _ Hthree _. exact Hthree.
Defined.

(** X10: when the export file is refused for the backlight pin, after the
    six pins of the display, initialization fails with the transmit and
    close entries already assigned. *)
Lemma hd_init_gpio_hooks_witness :
  exists p w,
    hd_init_gpio (all_but 18) 1 0 (Some blank_map) (sample_driver 1 2) boot = Done (-1, p) w
    /\ hd44780_functions p =
         Build_functions Fn_lcdgpio_senddata Fn_lcdgpio_close Fn_preset.
Proof.
  destruct (hd_init_gpio (all_but 18) 1 0 (Some blank_map) (sample_driver 1 2) boot)
    as [[rc p] w|] eqn:Hinit.
  2:{ exfalso. vm_compute in Hinit. discriminate. }
  assert (Hrc : rc = -1) by (vm_compute in Hinit; by injection Hinit as <- _ _).
  subst rc.
  destruct (hd_init_gpio_hooks (all_but 18) 1 0 (Some blank_map) (sample_driver 1 2) boot
              (-1) p w boot_ok Hinit)
    as (new & Htrace & _ & _ & Hfail).
  specialize (Hfail eq_refl). simpl in Htrace. subst new.
  assert (Hsix : length (written export_file (trace w)) = 6%nat).
  { vm_compute in Hinit. by injection Hinit as _ <-. }
  rewrite Hsix in Hfail.
  exists p, w. split; [reflexivity|exact Hfail].
Defined.

(** X11: with pin_BL set to 40 the backlight pin is set up as pin 40 and the
    backlight calls do nothing. *)
Lemma hd_init_gpio_backlight_number_witness :
  exists p w m,
    hd_init_gpio all_open 1 0 (Some blank_map) dim_driver boot = Done (0, p) w
    /\ gpio_pinout p = Some m
    /\ backlight_bit p = 40
    /\ num (backlight m) = 40
    /\ backlight_calls 1 p [1; 0] w = Done tt w.
Proof.
  destruct (hd_init_gpio all_open 1 0 (Some blank_map) dim_driver boot)
    as [[rc p] w|] eqn:Hinit.
  2:{ exfalso. vm_compute in Hinit. discriminate. }
  assert (Hrc : rc = 0) by (vm_compute in Hinit; by injection Hinit as <- _ _).
  subst rc.
  destruct (hd_init_gpio_backlight_number all_open 1 1 0 (Some blank_map) dim_driver boot p w
              boot_ok Hinit)
    as (m & new & Hm & _ & Hbit & Hnum & _ & _ & Hquiet).
  { simpl. lia. }
  exists p, w, m. split; [reflexivity|]. split; [exact Hm|].
  split; [exact Hbit|]. split; [exact Hnum|].
  apply Hquiet. intros [_ Hlt]. vm_compute in Hlt. discriminate.
Defined.

(** X12: with one controller, a transmission to the second controller after
    the initialization follows the null handle that the block held for EN2. *)
Lemma hd_init_gpio_unused_pins_witness :
  exists p w,
    hd_init_gpio all_open 1 0 (Some blank_map) (sample_driver 0 1) boot = Done (0, p) w
    /\ lcdgpio_HD44780_senddata 1 p 2 0 0xA5 w = Undefined.
Proof.
  destruct (hd_init_gpio all_open 1 0 (Some blank_map) (sample_driver 0 1) boot)
    as [[rc p] w|] eqn:Hinit.
  2:{ exfalso. vm_compute in Hinit. discriminate. }
  assert (Hrc : rc = 0) by (vm_compute in Hinit; by injection Hinit as <- _ _).
  subst rc.
  assert (Hnd : numDisplays p = 1) by (vm_compute in Hinit; by injection Hinit as <- _).
  destruct (hd_init_gpio_unused_pins all_open 1 0 (Some blank_map) (sample_driver 0 1)
              blank_map boot p w eq_refl boot_ok Hinit)
    as (m & _ & _ & Hsecond).
  exists p, w. split; [reflexivity|].
  apply Hsecond; [rewrite Hnd; lia|reflexivity].
Defined.

(** X13: the sample driver initialized and shut down: no stream is left
    open, after forty calls of [fopen]. *)
Lemma init_then_close_streams_witness :
  exists p w w',
    hd_init_gpio all_open 1 0 (Some blank_map) (sample_driver 1 2) boot = Done (0, p) w
    /\ lcdgpio_HD44780_close all_open p w = Done (set_gpio_pinout p None) w'
    /\ streams w' = ∅
    /\ fopen_calls w' = 40%nat.
Proof.
  destruct (hd_init_gpio all_open 1 0 (Some blank_map) (sample_driver 1 2) boot)
    as [[rc p] w|] eqn:Hinit.
  2:{ exfalso. vm_compute in Hinit. discriminate. }
  assert (Hrc : rc = 0) by (vm_compute in Hinit; by injection Hinit as <- _ _).
  subst rc.
  assert (Hlen : length (active_roles p) = 8%nat).
  { vm_compute in Hinit. by injection Hinit as <- _. }
  destruct (init_then_close_streams all_open 1 0 (Some blank_map) (sample_driver 1 2) boot p w
              boot_ok Hinit)
    as (w' & Hclose & Hs & Hn).
  { intros i _. reflexivity. }
  exists p, w, w'. split; [reflexivity|]. split; [exact Hclose|]. split; [exact Hs|].
  rewrite Hn, Hlen. reflexivity.
Defined.

(** X14: the sample driver when there is no memory. *)
Lemma hd_init_gpio_out_of_memory_witness :
  exists p w',
    hd_init_gpio all_open 1 0 None (sample_driver 1 2) boot = Done (-1, p) w'
    /\ gpio_pinout p = None
    /\ trace w' = [Report "hd_init_gpio: unable to allocate memory"]
    /\ hd44780_functions p = no_hooks
    /\ lcdgpio_HD44780_close all_open p w' = Undefined.
Proof.
  destruct (hd_init_gpio all_open 1 0 None (sample_driver 1 2) boot)
    as [[rc p] w'|] eqn:Hinit.
  2:{ exfalso. vm_compute in Hinit. discriminate. }
  destruct (hd_init_gpio_out_of_memory all_open 1 0 None (sample_driver 1 2) boot rc p w'
              boot_ok Hinit)
    as (Hnull & Hnone).
  destruct (Hnone eq_refl) as (-> & -> & Hfn & _ & Hclose & _).
  exists p, (emit boot [Report "hd_init_gpio: unable to allocate memory"]).
  split; [reflexivity|]. split; [by apply Hnull|]. split; [reflexivity|].
  split; [exact Hfn|apply Hclose].
Defined.

(** X15: the sample data shut down, and then used again. *)
Lemma close_then_use_witness :
  exists p' w',
    lcdgpio_HD44780_close all_open sample_private sample_world = Done p' w'
    /\ gpio_pinout p' = None
    /\ lcdgpio_HD44780_close all_open p' w' = Undefined
    /\ lcdgpio_HD44780_senddata 1 p' 0 0 0xA5 w' = Undefined
    /\ lcdgpio_HD44780_backlight 1 p' 1 w' = Undefined.
Proof.
  destruct (lcdgpio_HD44780_close all_open sample_private sample_world)
    as [p' w'|] eqn:Hrun.
  2:{ exfalso. vm_compute in Hrun. discriminate. }
  destruct (close_then_use all_open 1 1 sample_private sample_world p' w' Hrun)
    as (Hp & _ & Hclose & Hsend & Hlight).
  exists p', w'. split; [reflexivity|]. split; [by rewrite Hp|].
  split; [apply Hclose|]. split; [apply Hsend|].
  apply Hlight; simpl; lia.
Defined.

(** X16: the sample driver when the value file of the backlight pin, the
    twenty-first file, cannot be opened. *)
Lemma hd_init_gpio_backlight_unopened_witness :
  exists p w,
    hd_init_gpio (all_but 20) 1 0 (Some blank_map) (sample_driver 1 2) boot = Done (0, p) w
    /\ fn_backlight (hd44780_functions p) = Fn_lcdgpio_backlight
    /\ lcdgpio_HD44780_backlight 1 p 1 w = Undefined.
Proof.
  destruct (hd_init_gpio_backlight_unopened (all_but 20) 1 1 0 (Some blank_map)
              (sample_driver 1 2) blank_map boot eq_refl boot_ok)
    as (p & m & w & Hrun & _ & _ & _ & Hfn & Hlight).
  { simpl. lia. }
  { intros i _. reflexivity. }
  exists p, w. split; [exact Hrun|]. split; [exact Hfn|].
  apply Hlight; reflexivity.
Defined.

(** X17: the sample driver when the direction file of D7, the eighth file,
    cannot be opened. *)
Lemma hd_init_gpio_direction_refused_witness :
  hd_init_gpio (all_but 7) 1 0 (Some blank_map) (sample_driver 1 2) boot = Undefined.
Proof.
  apply (hd_init_gpio_direction_refused (all_but 7) 1 0 (Some blank_map) (sample_driver 1 2)
           blank_map boot 2 eq_refl boot_ok).
  - simpl. lia.
  - intros i Hi. unfold all_but. simpl. destruct (Nat.eqb_spec i 7); [lia|reflexivity].
  - reflexivity.
Defined.

(** X18: the sample driver when the value file of D7, the ninth file, cannot
    be opened. *)
Lemma hd_init_gpio_value_refused_witness :
  hd_init_gpio (all_but 8) 1 0 (Some blank_map) (sample_driver 1 2) boot = Undefined.
Proof.
  apply (hd_init_gpio_value_refused (all_but 8) 1 0 (Some blank_map) (sample_driver 1 2)
           blank_map boot 2 D7 eq_refl boot_ok).
  - intros i Hi. unfold all_but. simpl fopen_calls. split.
    + destruct (Nat.eqb_spec (0 + 3 * i) 8); [lia|reflexivity].
    + destruct (Nat.eqb_spec (0 + 3 * i + 1) 8); [lia|reflexivity].
  - reflexivity.
  - discriminate.
  - reflexivity.
Defined.

(** X19: the sample driver, which holds no pin option: the eight default
    pins. *)
Lemma hd_init_gpio_default_pins_witness :
  exists p w m,
    hd_init_gpio all_open 1 0 (Some blank_map) (sample_driver 1 2) boot = Done (0, p) w
    /\ gpio_pinout p = Some m
    /\ num <$> active_pins p m = [8; 7; 18; 23; 24; 25; 17; 22].
Proof.
  destruct (hd_init_gpio all_open 1 0 (Some blank_map) (sample_driver 1 2) boot)
    as [[rc p] w|] eqn:Hinit.
  2:{ exfalso. vm_compute in Hinit. discriminate. }
  assert (Hrc : rc = 0) by (vm_compute in Hinit; by injection Hinit as <- _ _).
  subst rc.
  assert (Hcfg : have_backlight p = 1 /\ numDisplays p = 2).
  { vm_compute in Hinit. by injection Hinit as <- _. }
  destruct (hd_init_gpio_default_pins all_open 1 0 (Some blank_map) (sample_driver 1 2) boot p w
              boot_ok)
    as (m & new & Hm & _ & Hnums & _).
  { intros section key index dflt. reflexivity. }
  { exact Hinit. }
  exists p, w, m. split; [reflexivity|]. split; [exact Hm|].
  rewrite Hnums. destruct Hcfg as [-> ->]. reflexivity.
Defined.
